(** * Customer demographics enricher: the enrichment engine of [app.py]

    A shallow embedding of the data-processing part of [src/app.py]
    (ZIP-column detection, ZIP clean-up, the reference loader, the
    population filter, the left join, the metrics, the display order and
    the sheet of the Excel export), followed by the properties established
    about it.

    Conventions of the embedding.
    - A Python [str] is a [string]; each character is the code point
      U+0000..U+00FF that the [ascii] value encodes.
    - A pandas [DataFrame] is an index length together with the ordered list
      of its labelled columns; a [Series] is the list of its cells.
    - The pandas operations are those of pandas 2: [astype(str)] turns a
      missing value into the text [nan], [Series.str.zfill] is Python's
      [str.zfill] element by element, [pd.merge] suffixes clashing labels
      with [_x] / [_y] and refuses suffix-made duplicates, and selecting
      a list of labels raises [KeyError] on a missing one.
    - An exception is a value [Raise e] of the [result] type. *)

From Stdlib Require Import String Ascii List Bool Arith ZArith QArith Lia.
From Stdlib Require Import Decimal DecimalString DecimalPos DecimalN.
Import ListNotations.

Close Scope Q_scope.
Open Scope string_scope.
Open Scope list_scope.
Open Scope nat_scope.

(** ** Python strings *)

Module PyStr.

(** [str.isspace] on one character of the range U+0000..U+00FF. *)
Definition is_space (c : ascii) : bool :=
  let n := nat_of_ascii c in
  ((9 <=? n) && (n <=? 13)) || ((28 <=? n) && (n <=? 32))
  || (n =? 133) || (n =? 160).

(** [str.lower] on one character of the range U+0000..U+00FF. *)
Definition lower_char (c : ascii) : ascii :=
  let n := nat_of_ascii c in
  if ((65 <=? n) && (n <=? 90))
     || ((192 <=? n) && (n <=? 222) && negb (n =? 215))
  then ascii_of_nat (n + 32) else c.

Fixpoint lower (s : string) : string :=
  match s with
  | EmptyString => EmptyString
  | String c r => String (lower_char c) (lower r)
  end.

Fixpoint lstrip (s : string) : string :=
  match s with
  | EmptyString => EmptyString
  | String c r => if is_space c then lstrip r else s
  end.

Fixpoint rstrip (s : string) : string :=
  match s with
  | EmptyString => EmptyString
  | String c r =>
      match rstrip r with
      | EmptyString => if is_space c then EmptyString else String c EmptyString
      | r' => String c r'
      end
  end.

(** [s.strip()] *)
Definition strip (s : string) : string := rstrip (lstrip s).

(** [s.split(sep)[0]] for a one-character separator: the text before the
    first [sep], the whole of [s] when there is none. *)
Fixpoint split_first (sep : ascii) (s : string) : string :=
  match s with
  | EmptyString => EmptyString
  | String c r =>
      if Ascii.eqb c sep then EmptyString else String c (split_first sep r)
  end.

Fixpoint zeros (n : nat) : string :=
  match n with
  | O => EmptyString
  | S k => String "0" (zeros k)
  end.

Definition is_sign (c : ascii) : bool := Ascii.eqb c "+" || Ascii.eqb c "-".

(** [s.zfill(width)]: pads on the left, after a leading sign if any. *)
Definition zfill (width : nat) (s : string) : string :=
  if width <=? String.length s then s
  else
    let fill := zeros (width - String.length s) in
    match s with
    | String c r => if is_sign c then String c (fill ++ r)%string else (fill ++ s)%string
    | EmptyString => fill
    end.

(** [sub in s] *)
Fixpoint contains (sub s : string) : bool :=
  match s with
  | EmptyString => prefix sub EmptyString
  | String _ r => prefix sub s || contains sub r
  end.

(** [x in xs] for a list of strings *)
Definition mem (x : string) (xs : list string) : bool :=
  existsb (String.eqb x) xs.

(** [str(z)] for an integer *)
Definition str_of_Z (z : Z) : string := NilZero.string_of_int (Z.to_int z).

End PyStr.
Import PyStr.

(** ** Cells, series, frames and exceptions *)

(** A finite float is kept as the decimal numeral of its shortest [repr],
    written out positionally: sign, integer part, fractional digits.
    [90210.0] is [PyFloat false 90210 (D0 Nil)], [1e+16] has the integer
    part [10000000000000000] and the fractional digits [0], and [1.5e-05]
    the integer part [0] and the fractional digits [000015]. *)
Record pyfloat := PyFloat { f_neg : bool; f_int : N; f_frac : uint }.

Inductive cell :=
| CStr (s : string)      (* a text cell *)
| CInt (z : Z)           (* an integer cell *)
| CFloat (f : pyfloat)   (* a finite float cell *)
| CNaN.                  (* a missing value *)

(** A [Series]: the list of its cells. *)
Abbreviation series := (list cell) (only parsing).

Record frame := Frame { index_len : nat; data : list (string * series) }.

(** [df.columns] *)
Definition columns (df : frame) : list string := map fst (data df).

Inductive error :=
| KeyError (label : string)
| TypeError
| MergeError
| NoZipColumn.           (* the run is stopped with [error_msg] *)

Inductive result (A : Type) :=
| Ok (a : A)
| Raise (e : error).
Arguments Ok {A} a.
Arguments Raise {A} e.

Definition bind {A B : Type} (r : result A) (k : A -> result B) : result B :=
  match r with
  | Ok a => k a
  | Raise e => Raise e
  end.

Notation "x <- r ;; k" := (bind r (fun x => k))
  (at level 61, r at next level, right associativity).

Fixpoint mapM {A B : Type} (f : A -> result B) (l : list A) : result (list B) :=
  match l with
  | [] => Ok []
  | a :: r => b <- f a ;; bs <- mapM f r ;; Ok (b :: bs)
  end.

Definition float_eqb (f g : pyfloat) : bool :=
  Bool.eqb (f_neg f) (f_neg g) && N.eqb (f_int f) (f_int g)
  && uint_beq (f_frac f) (f_frac g).

(** Equality of two join keys; missing keys are equal to each other, as
    [pd.merge] has it. *)
Definition cell_eqb (a b : cell) : bool :=
  match a, b with
  | CStr s, CStr t => String.eqb s t
  | CInt x, CInt y => Z.eqb x y
  | CFloat f, CFloat g => float_eqb f g
  | CNaN, CNaN => true
  | _, _ => false
  end.

(** [pd.notna] on a cell *)
Definition notna (c : cell) : bool :=
  match c with
  | CNaN => false
  | _ => true
  end.

(** The digits of the integer part, [0] for none, and of the fraction. *)
Definition int_digits (f : pyfloat) : string :=
  NilZero.string_of_uint (N.to_uint (f_int f)).

Definition frac_digits (f : pyfloat) : string :=
  NilZero.string_of_uint (f_frac f).

Fixpoint leading_zeros (s : string) : nat :=
  match s with
  | String c r => if Ascii.eqb c "0" then S (leading_zeros r) else 0
  | EmptyString => 0
  end.

Fixpoint drop_leading_zeros (s : string) : string :=
  match s with
  | String c r => if Ascii.eqb c "0" then drop_leading_zeros r else s
  | EmptyString => EmptyString
  end.

Fixpoint drop_trailing_zeros (s : string) : string :=
  match s with
  | EmptyString => EmptyString
  | String c r =>
      match drop_trailing_zeros r with
      | EmptyString =>
          if Ascii.eqb c "0" then EmptyString else String c EmptyString
      | r' => String c r'
      end
  end.

(** [repr] of a float switches to the exponent form from [1e16] up and,
    for a float other than zero, below [1e-4]. *)
Definition exponent_form (f : pyfloat) : bool :=
  if (f_int f =? 0)%N
  then negb (String.eqb (drop_leading_zeros (frac_digits f)) "")
       && (4 <=? leading_zeros (frac_digits f))
  else 17 <=? String.length (int_digits f).

(** [d] or [d.ddd], from the significant digits. *)
Definition mantissa_str (digits : string) : string :=
  match digits with
  | EmptyString => "0"
  | String d EmptyString => String d EmptyString
  | String d r => String d ("." ++ r)
  end.

(** [e+16], [e-05]: sign and two digits at least. *)
Definition exponent_str (negative : bool) (e : nat) : string :=
  ("e" ++ (if negative then "-" else "+")
   ++ (if (e <? 10)%nat then "0" else "") ++ str_of_Z (Z.of_nat e))%string.

(** [str(x)] for a float, which is its [repr]: [501.0], [1e+16],
    [1.5e-05]. *)
Definition float_str (f : pyfloat) : string :=
  ((if f_neg f then "-" else "")
   ++ (if exponent_form f
       then if (f_int f =? 0)%N
            then mantissa_str
                   (drop_trailing_zeros (drop_leading_zeros (frac_digits f)))
                 ++ exponent_str true (S (leading_zeros (frac_digits f)))
            else mantissa_str
                   (drop_trailing_zeros (int_digits f ++ frac_digits f))
                 ++ exponent_str false
                      (String.length (int_digits f) - 1)%nat
       else int_digits f ++ "." ++ frac_digits f))%string.

(** The element-wise effect of [series.astype(str)]. *)
Definition astype_str (c : cell) : string :=
  match c with
  | CStr s => s
  | CInt z => str_of_Z z
  | CFloat f => float_str f
  | CNaN => "nan"
  end.

(** [cell >= n] for an integer [n]; a missing value compares false and a
    text cell cannot be compared with a number. *)
Definition cell_ge (c : cell) (n : Z) : result bool :=
  match c with
  | CInt z => Ok (n <=? z)%Z
  | CFloat f => Ok (negb (f_neg f) && (n <=? Z.of_N (f_int f))%Z)
  | CNaN => Ok false
  | CStr _ => Raise TypeError
  end.

(** ** [load_census_data] and the ZIP helpers of [app.py] *)

(** [df[label]] for one label, where the code goes on with a series. The
    tables that [pd.read_csv] and [pd.read_excel] deliver carry no label
    twice. With a repeated label pandas hands back a frame instead of a
    series, which the code that follows does not accept; the run is
    counted as failed there. The two look-ups of the metrics, which a
    merged table with a repeated label does pass, are [getitem_all] in
    [process_block]. *)
Definition getitem (df : frame) (label : string) : result series :=
  match filter (fun c => String.eqb (fst c) label) (data df) with
  | [] => Raise (KeyError label)
  | [c] => Ok (snd c)
  | _ => Raise TypeError
  end.

(** [df[label] = s]: replaces the column in place, or appends it. *)
Definition setitem (df : frame) (label : string) (s : series) : frame :=
  if mem label (columns df)
  then Frame (index_len df)
         (map (fun c => if String.eqb (fst c) label then (fst c, s) else c)
            (data df))
  else Frame (index_len df) (data df ++ [(label, s)]).

(** [load_census_data], given what [pd.read_csv] found: [None] is the
    [FileNotFoundError] branch. *)
Definition load_census_data (file : option frame) : result (option frame) :=
  match file with
  | None => Ok None
  | Some df =>
      zip_code <- getitem df "zip_code" ;;
      Ok (Some (setitem df "zip_code"
                  (map (fun c => CStr (zfill 5 (astype_str c))) zip_code)))
  end.

Definition candidates : list string :=
  [ "zip"; "zipcode"; "zip code"; "zip_code";
    "postal"; "postal code"; "postal_code"; "postcode"; "post_code";
    "billing zip"; "billing_zip"; "billing postal"; "billing_postal_code";
    "shipping zip"; "shipping_zip"; "shipping postal"; "shipping_postal_code" ].

(** The test of the first loop of [find_zip_column]. *)
Definition exact_match (col : string) : bool :=
  mem (strip (lower col)) candidates.

(** The test of the second loop: some candidate occurs in the lowered label. *)
Definition fuzzy_match (col : string) : bool :=
  let col_lower := lower col in
  existsb (fun c => contains c col_lower) candidates.

(** [find_zip_column] on the labels of the frame; [None] is Python's
    [None]. *)
Definition find_zip_column (cols : list string) : option string :=
  match find exact_match cols with
  | Some col => Some col
  | None => find fuzzy_match cols
  end.

(** What [clean_zip_codes] does to one already stringified value. *)
Definition clean_zip_code (raw : string) : string :=
  zfill 5 (strip (split_first "-" (split_first "." raw))).

(** [clean_zip_codes], line by line. *)
Definition clean_zip_codes (sr : series) : series :=
  let s := map (fun c => split_first "." (astype_str c)) sr in
  let s := map (split_first "-") s in
  let s := map (fun x => zfill 5 (strip x)) s in
  map CStr s.

(** What [load_census_data] does to one cell of the key column. *)
Definition load_zip_code (c : cell) : string := zfill 5 (astype_str c).

(** ** The pandas operations of the main block *)

(** [s[mask]]: the entries where the boolean mask holds. *)
Fixpoint select_mask {A : Type} (mask : list bool) (s : list A) : list A :=
  match mask, s with
  | b :: m, c :: r => if b then c :: select_mask m r else select_mask m r
  | _, _ => []
  end.

(** [df[mask]] *)
Definition filter_rows (df : frame) (mask : list bool) : frame :=
  Frame (length (filter (fun b => b) mask))
        (map (fun c => (fst c, select_mask mask (snd c))) (data df)).

(** Positions of the key [k] in [keys], counted from [from]. *)
Fixpoint positions (k : cell) (keys : series) (from : nat) : list nat :=
  match keys with
  | [] => []
  | k' :: r =>
      if cell_eqb k k' then from :: positions k r (S from)
      else positions k r (S from)
  end.

(** The row pairs that left row [i] with key [k] contributes to a
    [how='left'] merge: one per matching right row, or one with no right
    row. *)
Definition row_pairs (rk : series) (ik : nat * cell)
  : list (nat * option nat) :=
  match positions (snd ik) rk 0 with
  | [] => [(fst ik, None)]
  | js => map (fun j => (fst ik, Some j)) js
  end.

(** The row pairs of the merge: those of every left row, in order. *)
Definition left_join_indexer (lk rk : series) : list (nat * option nat) :=
  flat_map (row_pairs rk) (combine (seq 0 (length lk)) lk).

Definition take (s : series) (ix : list nat) : series :=
  map (fun i => nth i s CNaN) ix.

Definition take_opt (s : series) (ix : list (option nat)) : series :=
  map (fun o => match o with Some j => nth j s CNaN | None => CNaN end) ix.

Definition is_int (c : cell) : bool :=
  match c with
  | CInt _ => true
  | _ => false
  end.

Definition is_none {A : Type} (o : option A) : bool :=
  match o with
  | None => true
  | Some _ => false
  end.

(** The float of an integer. It is that integer, and printed with its
    digits, up to 2^53 in absolute value, which covers every count of
    residents and every amount of dollars; float64 rounds the integers
    past that, which the numeral here does not follow. *)
Definition float_of_int (z : Z) : pyfloat :=
  PyFloat (z <? 0)%Z (Z.abs_N z) (D0 Nil).

(** [astype(float64)] on a cell of an integer column. *)
Definition to_float (c : cell) : cell :=
  match c with
  | CInt z => CFloat (float_of_int z)
  | _ => c
  end.

(** The rows [ix] of a column of the right frame, a missing value where
    there is no row. As soon as one row is missing, pandas turns an
    integer column (one whose cells are all integers) into a float column:
    [34000] comes out as [34000.0]. *)
Definition take_fill (s : series) (ix : list (option nat)) : series :=
  if existsb is_none ix && forallb is_int s
  then map to_float (take_opt s ix)
  else take_opt s ix.

(** [Index.duplicated()]: true at every occurrence but the first. *)
Fixpoint duplicated_from (seen labels : list string) : list bool :=
  match labels with
  | [] => []
  | x :: r => mem x seen :: duplicated_from (x :: seen) r
  end.

Definition duplicated (labels : list string) : list bool :=
  duplicated_from [] labels.

(** Labels that the suffixes turned into duplicates. *)
Definition suffix_dups (old new : list string) : list string :=
  map fst
    (filter (fun x => fst (snd x) && negb (snd (snd x)))
       (combine new (combine (duplicated new) (duplicated old)))).

(** The suffix rule of [pd.merge]: a label carried by both frames gets the
    suffix of its side. *)
Definition suffixed (suffix : string) (mine other : list string) (l : string)
  : string :=
  if mem l mine && mem l other then (l ++ suffix)%string else l.

(** [pd.merge(left, right, left_on=.., right_on=.., how='left')] with two
    different key labels: both key columns are kept, and a label present
    on both sides gets [_x] on the left and [_y] on the right. *)
Definition merge (left right : frame) (left_on right_on : string)
  : result frame :=
  lk <- getitem left left_on ;;
  rk <- getitem right right_on ;;
  let ix := left_join_indexer lk rk in
  let llabels :=
    map (suffixed "_x" (columns left) (columns right)) (columns left) in
  let rlabels :=
    map (suffixed "_y" (columns right) (columns left)) (columns right) in
  match suffix_dups (columns left) llabels
        ++ suffix_dups (columns right) rlabels with
  | _ :: _ => Raise MergeError
  | [] =>
      Ok (Frame (length ix)
            (combine llabels
               (map (fun c => take (snd c) (map fst ix)) (data left))
             ++ combine rlabels
                  (map (fun c => take_fill (snd c) (map snd ix)) (data right))))
  end.

Fixpoint lookup (l : string) (mapping : list (string * string)) : option string :=
  match mapping with
  | [] => None
  | (k, v) :: r => if String.eqb k l then Some v else lookup l r
  end.

Definition rename_label (mapping : list (string * string)) (l : string)
  : string :=
  match lookup l mapping with
  | Some l' => l'
  | None => l
  end.

(** [df.rename(columns=mapping)] *)
Definition rename (mapping : list (string * string)) (df : frame) : frame :=
  Frame (index_len df)
        (map (fun c => (rename_label mapping (fst c), snd c)) (data df)).

(** [df.drop(columns=labels)], every label being present *)
Definition drop (labels : list string) (df : frame) : frame :=
  Frame (index_len df)
        (filter (fun c => negb (mem (fst c) labels)) (data df)).

(** [df[labels]] for a list of labels: the columns carrying each label in
    turn, [KeyError] when a label is carried by none. *)
Definition getitem_list (df : frame) (labels : list string) : result frame :=
  cols <- mapM (fun l =>
                  match filter (fun c => String.eqb (fst c) l) (data df) with
                  | [] => Raise (KeyError l)
                  | cs => Ok cs
                  end) labels ;;
  Ok (Frame (index_len df) (concat cols)).

(** [cols.remove(c)]: the first occurrence goes. *)
Fixpoint remove_first (c : string) (cols : list string) : list string :=
  match cols with
  | [] => []
  | x :: r => if String.eqb x c then r else x :: remove_first c r
  end.

(** ** The main block: processing phase and display order *)

Definition metric_renames : list (string * string) :=
  [ ("median_income", "Estimated household income");
    ("median_age", "Median age");
    ("population", "Zip population") ].

Definition metric_cols : list string :=
  [ "Estimated household income"; "Median age"; "Zip population" ].

(** What the processing phase hands to the display phase. [match_rate] is
    the exact quotient, of which Python keeps the nearest float. *)
Record outcome := Outcome {
  final_df : frame;
  zip_col : string;
  total_rows : nat;
  matched_rows : nat;
  match_rate : Q
}.

(** Step 4 of the processing phase: the reference table that is joined. *)
Definition reference_view (census_df : frame) (exclude_low_pop : bool)
  : result frame :=
  if exclude_low_pop then
    population <- getitem census_df "population" ;;
    mask <- mapM (fun c => cell_ge c 100) population ;;
    Ok (filter_rows census_df mask)
  else Ok census_df.

(** Steps 2 to 7 of the processing phase, for a merged table that carries
    the labels [Estimated household income] and [Median age] once each, so
    that the figures are numbers. (With one of them repeated the code
    computes a Series per figure and fails in the scorecards of the display
    phase, before anything is shown: that run is [process_block] below,
    and is counted as failed here.) The two averages are floating point
    numbers and are left out, and with them the [TypeError] that [.mean()]
    raises on a text cell of the income or the age column; the look-up of
    the [Median age] column that the second one starts with is kept. *)
Definition process (census_df df : frame) (exclude_low_pop : bool)
  : result outcome :=
  match find_zip_column (columns df) with
  | None => Raise NoZipColumn
  | Some zip_col =>
      zips <- getitem df zip_col ;;
      let df := setitem df "__join_zip" (clean_zip_codes zips) in
      ref_df <- reference_view census_df exclude_low_pop ;;
      merged <- merge df ref_df "__join_zip" "zip_code" ;;
      let merged := rename metric_renames merged in
      let cols_to_drop := ["__join_zip"; "zip_code"] in
      let final_df :=
        drop (filter (fun c => mem c (columns merged)) cols_to_drop) merged in
      let total_rows := index_len final_df in
      income <- getitem final_df "Estimated household income" ;;
      let matched_rows := length (filter notna income) in
      let match_rate :=
        if 0 <? total_rows
        then (inject_Z (Z.of_nat matched_rows)
              / inject_Z (Z.of_nat total_rows))%Q
        else 0%Q in
      _ <- getitem final_df "Median age" ;;
      Ok (Outcome final_df zip_col total_rows matched_rows match_rate)
  end.

(** A figure of the processing phase: a number, or one number per column
    (a pandas Series) when the label it is computed from is carried by
    several columns of the merged table. *)
Inductive figure (A : Type) :=
| Scalar (a : A)
| PerColumn (l : list A).
Arguments Scalar {A} a.
Arguments PerColumn {A} l.

Definition map_figure {A B : Type} (f : A -> B) (x : figure A) : figure B :=
  match x with
  | Scalar a => Scalar (f a)
  | PerColumn l => PerColumn (map f l)
  end.

Record block_outcome := BlockOutcome {
  b_final_df : frame;
  b_zip_col : string;
  b_total_rows : nat;
  b_matched_rows : figure nat;
  b_match_rate : figure Q
}.

(** [df[label]] as pandas has it: the columns carrying the label, a series
    for one and a frame for several, [KeyError] for none. *)
Definition getitem_all (df : frame) (label : string) : result (list series) :=
  match filter (fun c => String.eqb (fst c) label) (data df) with
  | [] => Raise (KeyError label)
  | cs => Ok (map snd cs)
  end.

(** Steps 2 to 7 of the processing phase (lines 243 to 277), whatever the
    merged table carries: [.notna().sum()] counts the present cells of
    each column with the income label, and [match_rate] divides each count
    by [total_rows]. *)
Definition process_block (census_df df : frame) (exclude_low_pop : bool)
  : result block_outcome :=
  match find_zip_column (columns df) with
  | None => Raise NoZipColumn
  | Some zip_col =>
      zips <- getitem df zip_col ;;
      let df := setitem df "__join_zip" (clean_zip_codes zips) in
      ref_df <- reference_view census_df exclude_low_pop ;;
      merged <- merge df ref_df "__join_zip" "zip_code" ;;
      let merged := rename metric_renames merged in
      let cols_to_drop := ["__join_zip"; "zip_code"] in
      let final_df :=
        drop (filter (fun c => mem c (columns merged)) cols_to_drop) merged in
      let total_rows := index_len final_df in
      incomes <- getitem_all final_df "Estimated household income" ;;
      let counts := map (fun s => length (filter notna s)) incomes in
      let matched_rows :=
        match counts with
        | [n] => Scalar n
        | _ => PerColumn counts
        end in
      let match_rate :=
        if 0 <? total_rows
        then map_figure
               (fun m => (inject_Z (Z.of_nat m)
                          / inject_Z (Z.of_nat total_rows))%Q) matched_rows
        else Scalar 0%Q in
      _ <- getitem_all final_df "Median age" ;;
      Ok (BlockOutcome final_df zip_col total_rows matched_rows match_rate)
  end.

(** Step 9, the column order of the displayed and exported table. *)
Definition display_order (zip_col : string) (final_cols : list string)
  : list string :=
  let cols :=
    fold_left (fun cols c => if mem c cols then remove_first c cols else cols)
      (metric_cols ++ [zip_col]) final_cols in
  [zip_col] ++ metric_cols ++ cols.

(** Processing followed by the reordering [final_df[display_order]]. *)
Definition enrich (census_df df : frame) (exclude_low_pop : bool)
  : result outcome :=
  o <- process census_df df exclude_low_pop ;;
  shown <- getitem_list (final_df o)
             (display_order (zip_col o) (columns (final_df o))) ;;
  Ok (Outcome shown (zip_col o) (total_rows o) (matched_rows o) (match_rate o)).

(** ** [convert_to_excel] *)

(** What a cell of the sheet holds: a text the code writes (a header or a
    line of the side panel), or a cell of the table as [to_excel] writes
    it. *)
Inductive content :=
| Text (s : string)
| Value (c : cell).

(** Column and row of a cell of the sheet, both counted from 1; [J] is
    column 10. *)
Definition coord : Type := nat * nat.

Definition coord_eqb (a b : coord) : bool :=
  (fst a =? fst b) && (snd a =? snd b).

(** The sheet [Report] of the workbook: the values of its cells, their
    hyperlinks and the widths in [column_dimensions], each with the latest
    write first. Fonts and alignments are left out. *)
Record worksheet := Worksheet {
  cells : list (coord * content);
  hyperlinks : list (coord * string);
  widths : list (string * nat)
}.

Definition empty_sheet : worksheet := Worksheet [] [] [].

(** [worksheet.cell(row, column).value = v] *)
Definition set_value (ws : worksheet) (col row : nat) (v : content)
  : worksheet :=
  Worksheet (((col, row), v) :: cells ws) (hyperlinks ws) (widths ws).

(** [cell.hyperlink = link] *)
Definition set_hyperlink (ws : worksheet) (col row : nat) (link : string)
  : worksheet :=
  Worksheet (cells ws) (((col, row), link) :: hyperlinks ws) (widths ws).

(** [worksheet.column_dimensions[letter].width = w] *)
Definition set_width (ws : worksheet) (letter : string) (w : nat)
  : worksheet :=
  Worksheet (cells ws) (hyperlinks ws) ((letter, w) :: widths ws).

(** The value of a cell, [None] for a cell never written. *)
Definition value_at (ws : worksheet) (col row : nat) : option content :=
  option_map snd (find (fun e => coord_eqb (fst e) (col, row)) (cells ws)).

Definition hyperlink_at (ws : worksheet) (col row : nat) : option string :=
  option_map snd (find (fun e => coord_eqb (fst e) (col, row)) (hyperlinks ws)).

(** The width set for a column letter, [None] for the default width. *)
Definition width_of (ws : worksheet) (letter : string) : option nat :=
  option_map snd (find (fun e => String.eqb (fst e) letter) (widths ws)).

(** One column of [df.to_excel(writer, index=False, startrow=0)]: the
    header in row 1, the cells below it. *)
Definition write_column (ws : worksheet) (i : nat) (c : string * series)
  : worksheet :=
  fold_left (fun ws rv => set_value ws (i + 1) (fst rv + 2) (Value (snd rv)))
    (combine (seq 0 (length (snd c))) (snd c))
    (set_value ws (i + 1) 1 (Text (fst c))).

Definition to_excel (df : frame) (ws : worksheet) : worksheet :=
  fold_left (fun ws ic => write_column ws (fst ic) (snd ic))
    (combine (seq 0 (length (data df))) (data df)) ws.

(** [write_side_block] of [convert_to_excel]; the panel is column [J]. *)
Definition write_side_block (ws : worksheet) (row : nat)
    (title text : string) (link : option string) : worksheet :=
  let ws := set_value ws 10 row (Text title) in
  let ws := set_value ws 10 (row + 1) (Text text) in
  match link with
  | Some l => set_hyperlink ws 10 (row + 1) l
  | None => ws
  end.

Definition nl : string := String (ascii_of_nat 10) "".

(** The six blocks of the side panel: row, title, text, link. The texts
    are only stored in the sheet; the characters outside ASCII (the dash
    and the bullets) are kept as their UTF-8 bytes. *)
Definition side_blocks : list (nat * string * string * option string) :=
  [ (4, "1. What this report shows",
     "We have matched your customer Zip Codes against the US Census Bureau database. You now have the Median Household Income, Median Age, and Total Population for the area where each customer lives.",
     None);
    (8, "2. Actionable strategies",
     ("• Build 'High earner' segments: Filter this list for Income > $100k. Upload this segment to Meta/Google as a Custom Audience for your premium products." ++ nl
      ++ "• Adjust creative strategy: If your Median Age is higher than expected (e.g., 45+), test creative that resonates with an older demographic rather than Gen Z trends." ++ nl
      ++ "• Geographic targeting: Identify which specific Zip codes yield your highest value customers and bid more aggressively in those locations.")%string,
     None);
    (16, "3. Important caveats",
     ("• Geographic Enrichment: This describes the neighborhood profile, not individual credit data." ++ nl
      ++ "• Match Rates: Zip codes for PO Boxes or large commercial buildings may not have Census data (showing as N/A).")%string,
     None);
    (21, "4. Need deeper analysis?",
     "This is just the start. We can help you calculate Customer Lifetime Value (LTV) by demographic segment to see exactly how much 'High Income' customers are actually worth to your brand.",
     None);
    (25, "Powered by Systematik",
     "Full-stack data agency for ecommerce brands ($5M-$100M).",
     None);
    (28, "Visit our website", "systematikdata.com",
     Some "https://go.systematikdata.com/ZA4N87") ].

(** [chr(65 + i) if i < 26 else 'A'] *)
Definition col_letter (i : nat) : string :=
  if i <? 26 then String (ascii_of_nat (65 + i)) "" else "A".

(** [convert_to_excel(df, report_type)], up to the sheet that is written
    out; [today] is the text of [pd.Timestamp.now().strftime('%Y-%m-%d')]. *)
Definition convert_to_excel (df : frame) (report_type today : string)
  : worksheet :=
  let ws := to_excel df empty_sheet in
  let ws :=
    set_value ws 10 1 (Text "Systematik data — Customer enrichment report") in
  let ws :=
    set_value ws 10 2
      (Text ("Report: " ++ report_type ++ " | Date: " ++ today)%string) in
  let ws :=
    fold_left (fun ws b =>
                 match b with
                 | (row, title, text, link) =>
                     write_side_block ws row title text link
                 end) side_blocks ws in
  let ws := set_width ws "J" 70 in
  let ws := fold_left (fun ws col => set_width ws col 5) ["F"; "G"; "H"; "I"] ws in
  fold_left (fun ws i => set_width ws (col_letter i) 18)
    (seq 0 (length (columns df))) ws.

(** ** Vocabulary of the statements *)

(** [has_char c s]: the character [c] occurs in [s]. *)
Fixpoint has_char (c : ascii) (s : string) : bool :=
  match s with
  | EmptyString => false
  | String x r => Ascii.eqb x c || has_char c r
  end.

(** A string that [strip] leaves alone. *)
Definition trimmed (s : string) : Prop := lstrip s = s /\ rstrip s = s.


(** A raw reference key on which the two splits and the strip do nothing. *)
Definition plain_key (c : cell) : bool :=
  negb (has_char "." (astype_str c)) && negb (has_char "-" (astype_str c))
  && String.eqb (strip (astype_str c)) (astype_str c).

(** The number of characters of [s] other than [0]: what [zfill] leaves
    as it is, and what a split or a strip that removes anything lowers. *)
Fixpoint weight (s : string) : nat :=
  match s with
  | EmptyString => 0
  | String c r => (if Ascii.eqb c "0" then 0 else 1) + weight r
  end.

Fixpoint nodupb (l : list string) : bool :=
  match l with
  | [] => true
  | x :: r => negb (mem x r) && nodupb r
  end.

(** No key occurs twice in a key column. *)
Fixpoint unique (s : series) : bool :=
  match s with
  | [] => true
  | k :: r => negb (existsb (cell_eqb k) r) && unique r
  end.

Definition numeric (c : cell) : bool :=
  match c with
  | CStr _ => false
  | _ => true
  end.

(** Labels named by the main block itself. *)
Definition own_labels : list string := "__join_zip" :: metric_cols.

(** Columns that [app.py] reads from the reference table. *)
Definition census_columns : list string :=
  ["zip_code"; "median_income"; "median_age"; "population"].

(** A rectangular frame without repeated labels (what [pd.read_csv] and
    [pd.read_excel] deliver). *)
Definition well_formed (df : frame) : bool :=
  nodupb (columns df)
  && forallb (fun c => length (snd c) =? index_len df) (data df).

(** The reference table has the columns the code reads, a numeric
    population, no column carrying a label of the main block and no column
    called [zip_code_y]. *)
Definition census_ok (census_df : frame) : bool :=
  well_formed census_df
  && forallb (fun l => mem l (columns census_df)) census_columns
  && forallb (fun l => negb (mem l ("zip_code_y" :: own_labels)))
       (columns census_df)
  && match getitem census_df "population" with
     | Ok population => forallb numeric population
     | Raise _ => false
     end.

(** The reference columns other than the key. *)
Definition census_values (census_df : frame) : list string :=
  filter (fun l => negb (String.eqb l "zip_code")) (columns census_df).

(** The uploaded table is rectangular, and none of its headers is a label
    of the main block, [zip_code_x], or the label of a reference column
    other than the key: a header [zip_code] is allowed. *)
Definition input_ok (census_df df : frame) : bool :=
  well_formed df
  && forallb (fun l => negb (mem l ("zip_code_x" :: own_labels
                                    ++ census_values census_df)))
       (columns df).

(** The label of an uploaded column after the merge. *)
Definition label_x (census_df : frame) (l : string) : string :=
  if mem l (columns census_df) then (l ++ "_x")%string else l.

(** The label of a reference column after the merge. *)
Definition label_y (df : frame) (l : string) : string :=
  if mem l (columns df) then (l ++ "_y")%string else l.

(** The cleaned ZIP column, i.e. the [__join_zip] column of the run. *)
Definition join_keys (df : frame) : series :=
  match find_zip_column (columns df) with
  | Some zc =>
      match getitem df zc with
      | Ok zips => clean_zip_codes zips
      | Raise _ => []
      end
  | None => []
  end.

(** A column of the reference table that is joined (after the optional
    population filter). *)
Definition ref_column (census_df : frame) (exclude_low_pop : bool)
    (label : string) : series :=
  match reference_view census_df exclude_low_pop with
  | Ok ref_df =>
      match getitem ref_df label with
      | Ok s => s
      | Raise _ => []
      end
  | Raise _ => []
  end.

(** The key [k] has a reference row. *)
Definition has_match (rk : series) (k : cell) : bool :=
  existsb (cell_eqb k) rk.


Definition is_digit (c : ascii) : bool :=
  (48 <=? nat_of_ascii c) && (nat_of_ascii c <=? 57).

(** A key cell that is a text made of digits only. *)
Definition all_digits (c : cell) : bool :=
  match c with
  | CStr s => forallb is_digit (list_ascii_of_string s)
  | _ => false
  end.

(** Position of the reference row with key [k], if any. *)
Definition find_row (rk : series) (k : cell) : option nat :=
  hd_error (positions k rk 0).

(** The cell of the column [vals] in the reference row with key [k]; a
    missing value when no reference row has that key. *)
Definition lookup_value (rk vals : series) (k : cell) : cell :=
  match find_row rk k with
  | Some j => nth j vals CNaN
  | None => CNaN
  end.

Definition not_zip_code (c : string * series) : bool :=
  negb (String.eqb (fst c) "zip_code").

(** The row pairs of the run's merge. *)
Definition join_pairs (census_df df : frame) (exclude_low_pop : bool)
  : list (nat * option nat) :=
  left_join_indexer (join_keys df)
    (ref_column census_df exclude_low_pop "zip_code").

(** The reference column [c] stays in the output: after the merge its label
    is not [zip_code]. *)
Definition kept (df : frame) (c : string * series) : bool :=
  negb (String.eqb (label_y df (fst c)) "zip_code").

(** The label under which a reference column comes out. *)
Definition out_label (df : frame) (l : string) : string :=
  rename_label metric_renames (label_y df l).

(** The table the processing phase delivers: per row pair, the cells of
    the input row, then the cells of the reference row. The reference key
    is dropped, unless the upload has a [zip_code] header of its own: the
    two are then kept as [zip_code_x] and [zip_code_y]. *)
Definition merged_frame (census_df df : frame) (exclude_low_pop : bool)
  : frame :=
  let ix := join_pairs census_df df exclude_low_pop in
  match reference_view census_df exclude_low_pop with
  | Ok ref_df =>
      Frame (length ix)
        (map (fun c => (label_x census_df (fst c), take (snd c) (map fst ix)))
           (data df)
         ++ map (fun c => (out_label df (fst c), take_fill (snd c) (map snd ix)))
              (filter (kept df) (data ref_df)))
  | Raise _ => Frame 0 []
  end.

(** The reference column [vals] looked up for the keys [lk]: for each key
    the cell of the reference row with that key, a missing value when
    there is none; the cells of an integer column come out as floats as
    soon as one key has no reference row. *)
Definition lookup_column (rk vals lk : series) : series :=
  if negb (forallb (has_match rk) lk) && forallb is_int vals
  then map to_float (map (lookup_value rk vals) lk)
  else map (lookup_value rk vals) lk.

(** The same table when the reference keys are unique: the uploaded
    columns with their cells as they are, followed by the reference
    columns, each holding for every input row the cell of the reference
    row with that row's key. *)
Definition joined_frame (census_df df : frame) (exclude_low_pop : bool)
  : frame :=
  let lk := join_keys df in
  let rk := ref_column census_df exclude_low_pop "zip_code" in
  match reference_view census_df exclude_low_pop with
  | Ok ref_df =>
      Frame (index_len df)
        (map (fun c => (label_x census_df (fst c), snd c)) (data df)
         ++ map (fun c => (out_label df (fst c),
                           lookup_column rk (snd c) lk))
              (filter (kept df) (data ref_df)))
  | Raise _ => Frame 0 []
  end.

(** [matched_rows / total_rows if total_rows > 0 else 0] *)
Definition rate (matched total : nat) : Q :=
  if 0 <? total
  then (inject_Z (Z.of_nat matched) / inject_Z (Z.of_nat total))%Q
  else 0%Q.



(** [c >= n] as a truth value, a cell that cannot be compared counting as
    below. *)
Definition at_least (n : Z) (c : cell) : bool :=
  match cell_ge c n with
  | Ok b => b
  | Raise _ => false
  end.

(** The key [k] has a reference row with at least 100 residents. *)
Definition has_populous_match (keys pops : series) (k : cell) : bool :=
  existsb (fun p => cell_eqb k (fst p) && at_least 100 (snd p))
    (combine keys pops).

(** Reference columns that the code does not read; they are carried to
    the output under their own labels. *)
Definition extra_columns (census_df : frame) : list string :=
  filter (fun l => negb (mem l census_columns)) (columns census_df).

(** ** Vocabulary of the further statements *)

(** A string made of white space only. *)
Definition blank (s : string) : bool :=
  forallb is_space (list_ascii_of_string s).

(** The four words one of which every candidate header contains. *)
Definition keywords : list string := ["zip"; "postal"; "postcode"; "post_code"].

(** The lowered header contains one of the key words. *)
Definition has_keyword (col : string) : bool :=
  existsb (fun k => contains k (lower col)) keywords.

(** The number a key made of digits stands for, as Python's [int(key)]. *)
Definition key_value (key : string) : option N :=
  option_map N.of_uint (NilEmpty.uint_of_string key).

(** The run was ended by [st.stop()] after the message that no ZIP column
    was found. *)
Definition stopped {A : Type} (r : result A) : bool :=
  match r with
  | Raise NoZipColumn => true
  | _ => false
  end.

(** The number of reference rows with the key [k]. *)
Definition matches (rk : series) (k : cell) : nat :=
  length (filter (cell_eqb k) rk).

(** The number of rows of a [how='left'] merge: every left row counts once
    per matching right row, and once when it has none. *)
Definition row_count (lk rk : series) : nat :=
  list_sum (map (fun k => Nat.max 1 (matches rk k)) lk).

(** The rows of column [J] that the side panel of the export writes. *)
Definition panel_rows : list nat :=
  [1; 2] ++ flat_map (fun b => match b with
                               | (row, _, _, _) => [row; row + 1]
                               end) side_blocks.

(** The cell of the table in column [i] and row [r], both counted from 0. *)
Definition table_cell (df : frame) (i r : nat) : option cell :=
  match nth_error (data df) i with
  | Some c => nth_error (snd c) r
  | None => None
  end.

(** The header of column [i], counted from 0. *)
Definition table_header (df : frame) (i : nat) : option string :=
  option_map fst (nth_error (data df) i).

(** What [to_excel] writes in row [row] of the sheet for the column [c]. *)
Definition column_cell (c : string * series) (row : nat) : option content :=
  if row =? 1 then Some (Text (fst c))
  else if 2 <=? row then option_map Value (nth_error (snd c) (row - 2))
  else None.

(** The first of two values that is there. *)
Definition or_else {A : Type} (a b : option A) : option A :=
  match a with
  | Some _ => a
  | None => b
  end.

(** An integer cell that float64 holds exactly. *)
Definition exact_int (c : cell) : bool :=
  match c with
  | CInt z => (Z.abs z <=? 2 ^ 53)%Z
  | _ => true
  end.

(** Every number of a figure has the property [P]. *)
Definition figure_all {A : Type} (P : A -> Prop) (x : figure A) : Prop :=
  match x with
  | Scalar a => P a
  | PerColumn l => Forall P l
  end.

(** The number of columns carrying a label. *)
Definition carried (df : frame) (label : string) : nat :=
  length (filter (fun c => String.eqb (fst c) label) (data df)).

(** ** Sample tables *)

Definition fl (i : N) (frac : uint) : cell := CFloat (PyFloat false i frac).

(** A reference table as [load_census_data] returns it: the second row has
    no median income and fewer than 100 residents. *)
Definition sample_census : frame :=
  Frame 3
    [ ("zip_code", [CStr "90210"; CStr "00501"; CStr "10001"]);
      ("median_income", [fl 120000 (D0 Nil); CNaN; fl 85000 (D0 Nil)]);
      ("median_age", [fl 41 (D2 Nil); fl 30 (D0 Nil); fl 36 (D5 Nil)]);
      ("population", [CInt 34000; CInt 50; CInt 21000]) ].

(** An upload with a ZIP+4 value, a short number, a missing ZIP and a ZIP
    that the reference table does not have. *)
Definition sample_df : frame :=
  Frame 4
    [ ("customer_id", [CInt 1; CInt 2; CInt 3; CInt 4]);
      ("email", [CStr "a@x.org"; CStr "b@x.org"; CStr "c@x.org"; CStr "d@x.org"]);
      ("zip", [CStr "90210-1234"; CInt 501; CNaN; CStr "99999"]) ].

(** The same upload with the header the instructions of the app ask for. *)
Definition sample_df_zip_code : frame :=
  Frame 1
    [ ("customer_id", [CInt 1]);
      ("zip_code", [CStr "90210-1234"]) ].

(** An upload without rows. *)
Definition empty_df : frame :=
  Frame 0 [ ("customer_id", []); ("email", []); ("zip", []) ].

(** One reference row with few residents, and the upload that asks for it. *)
Definition small_census : frame :=
  Frame 1
    [ ("zip_code", [CStr "00501"]);
      ("median_income", [fl 52000 (D0 Nil)]);
      ("median_age", [fl 30 (D0 Nil)]);
      ("population", [CInt 50]) ].

Definition small_df : frame := Frame 1 [ ("zip", [CStr "00501"]) ].


(** A reference file, as [pd.read_csv] delivers it, whose keys are a ZIP+4
    text and a number. *)
Definition raw_census : frame :=
  Frame 2
    [ ("zip_code", [CStr "90210-1234"; CInt 501]);
      ("median_income", [fl 120000 (D0 Nil); fl 52000 (D0 Nil)]);
      ("median_age", [fl 41 (D2 Nil); fl 30 (D0 Nil)]);
      ("population", [CInt 34000; CInt 50]) ].

(** A reference table in which the key [00501] is carried by two rows. *)
Definition dup_census : frame :=
  Frame 3
    [ ("zip_code", [CStr "00501"; CStr "10001"; CStr "00501"]);
      ("median_income", [fl 52000 (D0 Nil); fl 85000 (D0 Nil); CNaN]);
      ("median_age", [fl 30 (D0 Nil); fl 36 (D5 Nil); fl 31 (D0 Nil)]);
      ("population", [CInt 500; CInt 21000; CInt 700]) ].

(** An upload with a header that the main block uses for the income. *)
Definition income_header_df : frame :=
  Frame 2
    [ ("zip", [CStr "00501"; CStr "10001"]);
      ("Estimated household income", [fl 95000 (D0 Nil); CNaN]) ].

(** ** The model at work *)

Example ex_strip : strip "  9 0 " = "9 0".
Proof. reflexivity. Qed.

Example ex_zfill : zfill 5 "501" = "00501" /\ zfill 5 "+12" = "+0012".
Proof. split; reflexivity. Qed.

Example ex_split : split_first "." "90210.0" = "90210".
Proof. reflexivity. Qed.

Example ex_lower : lower "Billing ZIP" = "billing zip".
Proof. reflexivity. Qed.

Example ex_contains : contains "zip" "my_zip5" = true.
Proof. reflexivity. Qed.

Example ex_str : (str_of_Z 501, str_of_Z 0, str_of_Z (-7)) = ("501", "0", "-7").
Proof. reflexivity. Qed.

Example ex_float_str :
  map astype_str
    [fl 501 (D0 Nil); fl 41 (D2 Nil); fl 0 (D0 Nil);
     fl 9999999999999998 (D0 Nil); fl (10 ^ 16) (D0 Nil);
     fl 12345 (D0 Nil); fl 123450000000000000000 (D0 Nil);
     fl 0 (D0 (D0 (D0 (D1 Nil)))); fl 0 (D0 (D0 (D0 (D0 (D1 (D5 Nil))))));
     CFloat (PyFloat true 2 (D5 Nil)); CNaN; CInt (-7)]
  = ["501.0"; "41.2"; "0.0"; "9999999999999998.0"; "1e+16"; "12345.0";
     "1.2345e+20"; "0.0001"; "1.5e-05"; "-2.5"; "nan"; "-7"].
Proof. vm_compute. reflexivity. Qed.

Example ex_find_exact :
  find_zip_column ["Name"; "Postal Code "; "zip"] = Some "Postal Code ".
Proof. reflexivity. Qed.

Example ex_find_fuzzy :
  find_zip_column ["Customer ZIP5"; "email"] = Some "Customer ZIP5".
Proof. reflexivity. Qed.

Example ex_find_none : find_zip_column ["id"; "email"] = None.
Proof. reflexivity. Qed.

Example ex_clean :
  clean_zip_codes
    [CStr "90210-1234"; fl 501 (D0 Nil); CInt 2134; CNaN; CStr " 7 "]
  = [CStr "90210"; CStr "00501"; CStr "02134"; CStr "00nan"; CStr "00007"].
Proof. reflexivity. Qed.

(** The sample upload against the sample reference table, population floor
    on: only the first row finds a reference row, and the population, an
    integer column of the reference table, comes out as floats. *)
Example ex_process :
  exists o, process sample_census sample_df true = Ok o
            /\ columns (final_df o)
               = ["customer_id"; "email"; "zip";
                  "Estimated household income"; "Median age";
                  "Zip population"]
            /\ getitem (final_df o) "Zip population"
               = Ok [fl 34000 (D0 Nil); CNaN; CNaN; CNaN]
            /\ (total_rows o, matched_rows o) = (4, 1)
            /\ (match_rate o == 1 # 4)%Q.
Proof. eexists. repeat split. Qed.

(** Without the floor the second row finds its reference row, which has no
    median income: it is not counted as matched. *)
Example ex_process_no_floor :
  exists o, process sample_census sample_df false = Ok o
            /\ getitem (final_df o) "Zip population"
               = Ok [fl 34000 (D0 Nil); fl 50 (D0 Nil); CNaN; CNaN]
            /\ getitem (final_df o) "Estimated household income"
               = Ok [fl 120000 (D0 Nil); CNaN; CNaN; CNaN]
            /\ (total_rows o, matched_rows o) = (4, 1).
Proof. eexists. repeat split. Qed.

(** A [zip_code] header: both key columns survive the merge under suffixed
    labels. *)
Example ex_process_zip_code :
  exists o, process sample_census sample_df_zip_code true = Ok o
            /\ columns (final_df o)
               = ["customer_id"; "zip_code_x"; "zip_code_y";
                  "Estimated household income"; "Median age";
                  "Zip population"].
Proof. eexists. split; reflexivity. Qed.

Example ex_no_zip_column :
  process sample_census (Frame 1 [("id", [CInt 1])]) true = Raise NoZipColumn.
Proof. reflexivity. Qed.

(** ** Facts about the string helpers *)

Lemma split_first_free c s : has_char c (split_first c s) = false.
Proof.
  induction s as [|x r IH]; simpl; [reflexivity|].
  destruct (Ascii.eqb x c) eqn:E; simpl; [reflexivity|].
  now rewrite E.
Qed.

Lemma split_first_id c s : has_char c s = false -> split_first c s = s.
Proof.
  induction s as [|x r IH]; simpl; [reflexivity|].
  destruct (Ascii.eqb x c); simpl; [discriminate|].
  intros H. now rewrite IH.
Qed.

Lemma split_first_keeps_free c d s :
  has_char c s = false -> has_char c (split_first d s) = false.
Proof.
  induction s as [|x r IH]; simpl; [reflexivity|].
  intros H. apply orb_false_iff in H as [Hx Hr].
  destruct (Ascii.eqb x d); simpl; [reflexivity|].
  now rewrite Hx, IH.
Qed.

Lemma lstrip_keeps_free c s :
  has_char c s = false -> has_char c (lstrip s) = false.
Proof.
  induction s as [|x r IH]; simpl; [reflexivity|].
  intros H. destruct (is_space x); [|exact H].
  apply orb_false_iff in H as [_ Hr]. auto.
Qed.

Lemma rstrip_keeps_free c s :
  has_char c s = false -> has_char c (rstrip s) = false.
Proof.
  induction s as [|x r IH]; simpl; [reflexivity|].
  intros H. apply orb_false_iff in H as [Hx Hr].
  specialize (IH Hr).
  destruct (rstrip r) as [|y t].
  - destruct (is_space x); simpl; [reflexivity|]. now rewrite Hx.
  - simpl in *. now rewrite Hx, IH.
Qed.

Lemma strip_keeps_free c s :
  has_char c s = false -> has_char c (strip s) = false.
Proof. intros H. now apply rstrip_keeps_free, lstrip_keeps_free. Qed.

Lemma has_char_app c s t :
  has_char c (s ++ t)%string = has_char c s || has_char c t.
Proof.
  induction s as [|x r IH]; simpl; [reflexivity|].
  now rewrite IH, orb_assoc.
Qed.

Lemma has_char_zeros c n : Ascii.eqb "0" c = false -> has_char c (zeros n) = false.
Proof.
  intros H. induction n as [|n IH]; cbn [zeros has_char]; [reflexivity|].
  now rewrite H.
Qed.

Lemma length_app s t :
  String.length (s ++ t)%string = String.length s + String.length t.
Proof. induction s as [|x r IH]; simpl; [reflexivity|]. now rewrite IH. Qed.

Lemma length_zeros n : String.length (zeros n) = n.
Proof. induction n as [|n IH]; simpl; [reflexivity|]. now rewrite IH. Qed.

Lemma zfill_length w s :
  String.length (zfill w s) = Nat.max w (String.length s).
Proof.
  unfold zfill. destruct (w <=? String.length s) eqn:E.
  - apply Nat.leb_le in E. lia.
  - apply Nat.leb_gt in E. destruct s as [|x r].
    + rewrite length_zeros. simpl in *. lia.
    + destruct (is_sign x); simpl; rewrite length_app, length_zeros; simpl in *; lia.
Qed.

Lemma zfill_long w s : w <= String.length s -> zfill w s = s.
Proof. intros H. unfold zfill. apply Nat.leb_le in H. now rewrite H. Qed.

Lemma zfill_keeps_free c w s :
  Ascii.eqb "0" c = false -> has_char c s = false ->
  has_char c (zfill w s) = false.
Proof.
  intros H0 Hs. unfold zfill. destruct (w <=? String.length s); [exact Hs|].
  destruct s as [|x r]; [now apply has_char_zeros|].
  simpl in Hs. apply orb_false_iff in Hs as [Hx Hr].
  destruct (is_sign x); simpl; rewrite ?has_char_app; simpl;
    rewrite ?Hx, ?Hr, has_char_zeros by assumption; reflexivity.
Qed.

Lemma rstrip_tail c r : rstrip (String c r) = String c r -> rstrip r = r.
Proof.
  simpl. destruct (rstrip r) as [|y t] eqn:E.
  - destruct (is_space c); [discriminate|]. intros H. now injection H.
  - intros H. now injection H.
Qed.

Lemma rstrip_cons c r :
  is_space c = false -> rstrip r = r -> rstrip (String c r) = String c r.
Proof.
  intros Hc Hr. simpl. rewrite Hr. destruct r; [now rewrite Hc|reflexivity].
Qed.

Lemma rstrip_idem s : rstrip (rstrip s) = rstrip s.
Proof.
  induction s as [|x r IH]; simpl; [reflexivity|].
  destruct (rstrip r) as [|y t] eqn:E.
  - destruct (is_space x) eqn:Ex; simpl; [reflexivity|]. now rewrite Ex.
  - change (rstrip (String x (String y t)) = String x (String y t)).
    remember (String y t) as u. simpl. rewrite IH. now subst u.
Qed.

Lemma lstrip_rstrip s : lstrip s = s -> lstrip (rstrip s) = rstrip s.
Proof.
  destruct s as [|x r]; [reflexivity|].
  intros H. simpl in H.
  destruct (is_space x) eqn:Ex.
  - exfalso. assert (L : forall u, String.length (lstrip u) <= String.length u).
    { induction u as [|y t IHu]; simpl; [lia|]. destruct (is_space y); simpl; lia. }
    specialize (L r). rewrite H in L. simpl in L. lia.
  - simpl. destruct (rstrip r); rewrite ?Ex; simpl; now rewrite Ex.
Qed.

Lemma lstrip_idem s : lstrip (lstrip s) = lstrip s.
Proof.
  induction s as [|x r IH]; simpl; [reflexivity|].
  destruct (is_space x) eqn:Ex; [exact IH|]. simpl. now rewrite Ex.
Qed.

Lemma strip_trimmed s : trimmed (strip s).
Proof.
  split; unfold strip.
  - apply lstrip_rstrip, lstrip_idem.
  - apply rstrip_idem.
Qed.

Lemma trimmed_strip s : trimmed s -> strip s = s.
Proof. intros [Hl Hr]. unfold strip. now rewrite Hl. Qed.

Lemma space_zero : is_space "0" = false.
Proof. reflexivity. Qed.

Lemma rstrip_zeros_app k s : rstrip s = s -> rstrip (zeros k ++ s)%string = (zeros k ++ s)%string.
Proof.
  intros H. induction k as [|k IH]; simpl; [exact H|].
  apply (rstrip_cons "0"); [reflexivity | exact IH].
Qed.

Lemma rstrip_zeros n : rstrip (zeros n) = zeros n.
Proof.
  induction n as [|n IH]; [reflexivity|].
  apply (rstrip_cons "0"); [reflexivity | exact IH].
Qed.

Lemma is_sign_not_space c : is_sign c = true -> is_space c = false.
Proof.
  unfold is_sign. intros H. apply orb_true_iff in H as [H|H];
    apply Ascii.eqb_eq in H; subst c; reflexivity.
Qed.

Lemma zfill_trimmed w s : trimmed s -> trimmed (zfill w s).
Proof.
  intros [Hl Hr]. unfold zfill.
  destruct (w <=? String.length s) eqn:E; [now split|].
  apply Nat.leb_gt in E.
  destruct s as [|x r].
  - simpl in E. destruct w as [|w]; [lia|]. split; [reflexivity|].
    apply rstrip_zeros.
  - pose proof (rstrip_tail _ _ Hr) as Hr'.
    destruct (is_sign x) eqn:Ex.
    + pose proof (is_sign_not_space _ Ex) as Hs. split.
      * simpl. now rewrite Hs.
      * apply rstrip_cons; [exact Hs|]. now apply rstrip_zeros_app.
    + split.
      * simpl in E. destruct (w - String.length (String x r)) as [|k] eqn:Ek;
          [simpl in Ek; lia|]. reflexivity.
      * now apply rstrip_zeros_app.
Qed.

(** ** ZIP clean-up and header detection *)

Lemma clean_zip_codes_map sr :
  clean_zip_codes sr = map (fun c => CStr (clean_zip_code (astype_str c))) sr.
Proof.
  unfold clean_zip_codes, clean_zip_code. rewrite !map_map. reflexivity.
Qed.

Lemma clean_zip_codes_length sr : length (clean_zip_codes sr) = length sr.
Proof. rewrite clean_zip_codes_map. apply length_map. Qed.

Lemma load_census_data_keys df keys :
  getitem df "zip_code" = Ok keys ->
  load_census_data (Some df)
  = Ok (Some (setitem df "zip_code" (map (fun c => CStr (load_zip_code c)) keys))).
Proof. intros H. unfold load_census_data. rewrite H. reflexivity. Qed.

(** What is left of a raw value before the padding step. *)
Lemma clean_zip_code_core_free raw :
  let t := strip (split_first "-" (split_first "." raw)) in
  has_char "." t = false /\ has_char "-" t = false /\ trimmed t.
Proof.
  cbv zeta. repeat split.
  - apply strip_keeps_free, split_first_keeps_free, split_first_free.
  - apply strip_keeps_free, split_first_free.
  - apply strip_trimmed.
  - apply strip_trimmed.
Qed.

Lemma clean_zip_code_fixed s :
  has_char "." s = false -> has_char "-" s = false -> trimmed s ->
  5 <= String.length s -> clean_zip_code s = s.
Proof.
  intros Hd Hm Ht Hl. unfold clean_zip_code.
  rewrite (split_first_id "." s Hd), (split_first_id "-" s Hm).
  rewrite (trimmed_strip s Ht). now apply zfill_long.
Qed.

(** C7. Cleaning a ZIP value twice gives what cleaning it once gives:
    [clean_zip_code (clean_zip_code x) = clean_zip_code x] for every
    string [x], and [clean_zip_codes] applied to its own result returns
    that result. *)
Theorem clean_zip_code_idempotent (x : string) (sr : series) :
  clean_zip_code (clean_zip_code x) = clean_zip_code x
  /\ clean_zip_codes (clean_zip_codes sr) = clean_zip_codes sr.
Proof.
  assert (I : forall y, clean_zip_code (clean_zip_code y) = clean_zip_code y).
  { intros y. destruct (clean_zip_code_core_free y) as (Hd & Hm & Ht).
    apply clean_zip_code_fixed.
    - unfold clean_zip_code. now apply zfill_keeps_free.
    - unfold clean_zip_code. now apply zfill_keeps_free.
    - unfold clean_zip_code. now apply zfill_trimmed.
    - unfold clean_zip_code. rewrite zfill_length. lia. }
  split; [apply I|].
  rewrite !clean_zip_codes_map, map_map. apply map_ext. intros c.
  cbn [astype_str]. now rewrite I.
Qed.

(** C6, against the specification as written: the six-character value [123456]
    comes out unchanged, six characters long and not five. *)
Lemma clean_zip_code_not_always_five :
  clean_zip_code "123456" = "123456"
  /\ String.length (clean_zip_code "123456") <> 5.
Proof. split; [reflexivity | discriminate]. Qed.

(** C6, amended. [clean_zip_code] is a total function, and
    [clean_zip_codes] applies it to the text of every cell: on every
    string, the empty one included, it returns a string of at least five
    characters, whose length is the larger of five and the length of what
    the two splits and the strip leave. That remainder is returned as it is
    when it has five characters or more, and is padded with zeros (after
    its [+] sign, if it starts with one) when it has fewer. *)
Theorem clean_zip_code_width (raw : string) (sr : series) :
  let t := strip (split_first "-" (split_first "." raw)) in
  String.length (clean_zip_code raw) = Nat.max 5 (String.length t)
  /\ 5 <= String.length (clean_zip_code raw)
  /\ clean_zip_code raw
     = (if 5 <=? String.length t then t
        else match t with
             | String "+" r =>
                 String "+" (zeros (5 - String.length t) ++ r)%string
             | _ => (zeros (5 - String.length t) ++ t)%string
             end)
  /\ clean_zip_code "" = "00000"
  /\ clean_zip_codes sr
     = map (fun c => CStr (clean_zip_code (astype_str c))) sr.
Proof.
  cbv zeta. destruct (clean_zip_code_core_free raw) as (_ & Hm & _).
  set (t := strip (split_first "-" (split_first "." raw))) in *.
  assert (E : clean_zip_code raw = zfill 5 t) by reflexivity.
  rewrite E, zfill_length. repeat split; try lia;
    [|apply clean_zip_codes_map].
  unfold zfill. destruct (5 <=? String.length t); [reflexivity|].
  destruct t as [|c r]; [reflexivity|].
  simpl in Hm. apply orb_false_iff in Hm as [Hc _].
  unfold is_sign. rewrite Hc, orb_false_r.
  destruct (Ascii.eqb c "+") eqn:Ep.
  - apply Ascii.eqb_eq in Ep. subst c. reflexivity.
  - destruct c as [[] [] [] [] [] [] [] []]; try reflexivity; discriminate.
Qed.

(** The loader and the clean-up agree on a plain key. *)
Lemma load_zip_code_plain (c : cell) :
  plain_key c = true -> load_zip_code c = clean_zip_code (astype_str c).
Proof.
  unfold plain_key. intros H. apply andb_true_iff in H as [H Hs].
  apply andb_true_iff in H as [Hd Hm].
  apply negb_true_iff in Hd, Hm. apply String.eqb_eq in Hs.
  unfold load_zip_code, clean_zip_code.
  now rewrite (split_first_id "." _ Hd), (split_first_id "-" _ Hm), Hs.
Qed.

Lemma weight_app a b : weight (a ++ b) = weight a + weight b.
Proof.
  induction a as [|x r IH]; [reflexivity|]. cbn [append weight].
  rewrite IH. lia.
Qed.

Lemma weight_zeros k : weight (zeros k) = 0.
Proof. induction k as [|k IH]; [reflexivity|]. exact IH. Qed.

Lemma weight_zfill w s : weight (zfill w s) = weight s.
Proof.
  unfold zfill. destruct (w <=? String.length s); [reflexivity|].
  destruct s as [|c r]; [apply weight_zeros|].
  destruct (is_sign c).
  - cbn [weight]. now rewrite weight_app, weight_zeros.
  - now rewrite weight_app, weight_zeros.
Qed.

Lemma weight_split_first c s :
  Ascii.eqb c "0" = false ->
  weight (split_first c s) <= weight s
  /\ (has_char c s = true -> weight (split_first c s) < weight s).
Proof.
  intros Hc. induction s as [|x r [IH1 IH2]];
    [split; [apply Nat.le_refl | discriminate]|].
  cbn [split_first has_char weight].
  destruct (Ascii.eqb_spec x c) as [E | N].
  - subst x. rewrite Hc. cbn [weight orb]. split; [lia | intros _; lia].
  - cbn [weight orb]. split; [lia|]. intros H. specialize (IH2 H). lia.
Qed.

Lemma space_weight c : is_space c = true -> Ascii.eqb c "0" = false.
Proof.
  intros H. apply Ascii.eqb_neq. intros ->. discriminate.
Qed.

Lemma weight_lstrip s :
  weight (lstrip s) <= weight s
  /\ (weight (lstrip s) = weight s -> lstrip s = s).
Proof.
  induction s as [|x r [IH1 IH2]]; [now split|]. cbn [lstrip].
  destruct (is_space x) eqn:E; [|now split].
  cbn [weight]. rewrite (space_weight x E). split; lia.
Qed.

Lemma weight_rstrip s :
  weight (rstrip s) <= weight s
  /\ (weight (rstrip s) = weight s -> rstrip s = s).
Proof.
  induction s as [|x r [IH1 IH2]]; [now split|]. cbn [rstrip].
  destruct (rstrip r) as [|y t] eqn:Er.
  - destruct (is_space x) eqn:E.
    + cbn [weight]. rewrite (space_weight x E). split; lia.
    + cbn [weight] in *. split; [lia|]. intros H.
      assert (H0 : 0 = weight r) by lia. now rewrite <- (IH2 H0).
  - cbn [weight] in *. split; [lia|]. intros H.
    assert (H0 : (if Ascii.eqb y "0" then 0 else 1) + weight t = weight r)
      by lia.
    now rewrite (IH2 H0).
Qed.

(** The loader and the clean-up agree on no other key. *)
Lemma load_zip_code_plain_only (c : cell) :
  load_zip_code c = clean_zip_code (astype_str c) -> plain_key c = true.
Proof.
  unfold load_zip_code, clean_zip_code, plain_key.
  set (s := astype_str c). intros H.
  apply (f_equal weight) in H. rewrite !weight_zfill in H.
  destruct (weight_split_first "." s eq_refl) as [D1 D2].
  destruct (weight_split_first "-" (split_first "." s) eq_refl) as [M1 M2].
  destruct (weight_lstrip (split_first "-" (split_first "." s))) as [L1 L2].
  destruct (weight_rstrip (lstrip (split_first "-" (split_first "." s))))
    as [R1 R2].
  unfold strip in *.
  destruct (has_char "." s) eqn:Hd; [specialize (D2 eq_refl); lia|].
  rewrite (split_first_id "." s Hd) in *.
  destruct (has_char "-" s) eqn:Hm; [specialize (M2 eq_refl); lia|].
  rewrite (split_first_id "-" s Hm) in *.
  cbn [negb andb]. apply String.eqb_eq.
  rewrite R2 by lia. apply L2. lia.
Qed.

(** C1, against the specification as written: on the raw key [90210-1234] the
    reference loader keeps the whole text while the clean-up of the user
    column keeps [90210]; on the float key [501.0] the loader gives
    [501.0] and the clean-up [00501]. The key column that
    [load_census_data] makes of the sample file is not the one
    [clean_zip_codes] makes of it. *)
Lemma load_zip_code_differs :
  load_zip_code (CStr "90210-1234") = "90210-1234"
  /\ clean_zip_code (astype_str (CStr "90210-1234")) = "90210"
  /\ load_zip_code (CStr "90210-1234")
     <> clean_zip_code (astype_str (CStr "90210-1234"))
  /\ load_zip_code (fl 501 (D0 Nil)) = "501.0"
  /\ clean_zip_code (astype_str (fl 501 (D0 Nil))) = "00501"
  /\ load_census_data (Some raw_census)
     = Ok (Some (setitem raw_census "zip_code"
                   [CStr "90210-1234"; CStr "00501"]))
  /\ clean_zip_codes [CStr "90210-1234"; CInt 501]
     = [CStr "90210"; CStr "00501"]
  /\ load_census_data (Some raw_census)
     <> Ok (Some (setitem raw_census "zip_code"
                    (clean_zip_codes [CStr "90210-1234"; CInt 501]))).
Proof. repeat split; try reflexivity; discriminate. Qed.

Lemma find_exact_first pre col post :
  forallb (fun c => negb (exact_match c)) pre = true ->
  exact_match col = true ->
  find exact_match (pre ++ col :: post) = Some col.
Proof.
  intros Hpre Hcol. induction pre as [|p pre IH]; simpl.
  - now rewrite Hcol.
  - simpl in Hpre. apply andb_true_iff in Hpre as [Hp Hpre].
    apply negb_true_iff in Hp. rewrite Hp. auto.
Qed.

(** C2, against the specification as written: for the headers [Billing Zip],
    [zip code] the detector returns [Billing Zip], not [zip code]. *)
Lemma find_zip_column_billing_zip :
  find_zip_column ["Billing Zip"; "zip code"] = Some "Billing Zip"
  /\ find_zip_column ["Billing Zip"; "zip code"] <> Some "zip code".
Proof. split; [reflexivity | discriminate]. Qed.

(** C2, amended. [billing zip] is itself a candidate, so [Billing Zip]
    matches exactly and, coming first, is the header returned for
    [Billing Zip], [zip code]. Exact matching is preferred all the same:
    a header that matches exactly is returned whenever no header before it
    matches exactly, whatever those earlier headers match fuzzily; for
    [Billing Zip Code], [zip code] the detector returns [zip code]. *)
Theorem find_zip_column_prefers_exact (pre : list string) (col : string)
    (post : list string) :
  forallb (fun c => negb (exact_match c)) pre = true ->
  exact_match col = true ->
  find_zip_column (pre ++ col :: post) = Some col
  /\ exact_match "Billing Zip" = true
  /\ find_zip_column ["Billing Zip"; "zip code"] = Some "Billing Zip"
  /\ fuzzy_match "Billing Zip Code" = true
  /\ find_zip_column ["Billing Zip Code"; "zip code"] = Some "zip code".
Proof.
  intros Hpre Hcol. repeat split; try reflexivity.
  unfold find_zip_column. now rewrite (find_exact_first pre col post Hpre Hcol).
Qed.

Lemma find_zip_column_prefers_exact_witness :
  find_zip_column (["Billing Zip Code"; "Customer ZIP5"] ++ "zip code" :: ["Zip"])
  = Some "zip code".
Proof.
  apply (find_zip_column_prefers_exact
           ["Billing Zip Code"; "Customer ZIP5"] "zip code" ["Zip"]);
    reflexivity.
Defined.

(** ** Facts about the frame operations *)

Lemma mem_In x l : mem x l = true <-> In x l.
Proof.
  unfold mem. rewrite existsb_exists. split.
  - intros (y & Hy & E). apply String.eqb_eq in E. now subst.
  - intros H. exists x. split; [exact H | apply String.eqb_refl].
Qed.

Lemma mem_false x l : mem x l = false <-> ~ In x l.
Proof.
  rewrite <- mem_In. destruct (mem x l); split; intros; easy.
Qed.

Lemma nodupb_NoDup l : nodupb l = true -> NoDup l.
Proof.
  induction l as [|x r IH]; simpl; [constructor|].
  intros H. apply andb_true_iff in H as [Hx Hr].
  apply negb_true_iff, mem_false in Hx. constructor; auto.
Qed.

Lemma filter_map_comm {A B : Type} (p : B -> bool) (f : A -> B) l :
  filter p (map f l) = map f (filter (fun x => p (f x)) l).
Proof.
  induction l as [|a r IH]; simpl; [reflexivity|].
  destruct (p (f a)); simpl; now rewrite IH.
Qed.

Lemma filter_none {A : Type} (p : A -> bool) l :
  (forall x, In x l -> p x = false) -> filter p l = [].
Proof.
  induction l as [|a r IH]; simpl; [reflexivity|].
  intros H. rewrite (H a) by now left. apply IH. intros x Hx. apply H. now right.
Qed.

Lemma filter_all {A : Type} (p : A -> bool) l :
  (forall x, In x l -> p x = true) -> filter p l = l.
Proof.
  induction l as [|a r IH]; simpl; [reflexivity|].
  intros H. rewrite (H a) by now left. f_equal. apply IH. intros x Hx. apply H. now right.
Qed.

Lemma filter_label_nodup (d : list (string * series)) l s :
  nodupb (map fst d) = true -> In (l, s) d ->
  filter (fun c => String.eqb (fst c) l) d = [(l, s)].
Proof.
  induction d as [|c r IH]; simpl; [easy|].
  intros H Hin. apply andb_true_iff in H as [Hc Hr].
  apply negb_true_iff, mem_false in Hc.
  destruct Hin as [E | Hin].
  - subst c. simpl. rewrite String.eqb_refl. f_equal.
    apply filter_none. intros x Hx. apply String.eqb_neq. intros E.
    apply Hc. simpl. rewrite <- E. now apply in_map.
  - assert (N : String.eqb (fst c) l = false).
    { apply String.eqb_neq. intros E. apply Hc. rewrite E.
      change l with (fst (l, s)). now apply in_map. }
    rewrite N. auto.
Qed.

Lemma getitem_In df l s : getitem df l = Ok s -> In (l, s) (data df).
Proof.
  unfold getitem.
  destruct (filter (fun c => String.eqb (fst c) l) (data df)) as [|c [|c' r]] eqn:E;
    try discriminate.
  intros H. injection H as <-.
  assert (Hc : In c (filter (fun c => String.eqb (fst c) l) (data df)))
    by (rewrite E; now left).
  apply filter_In in Hc as [Hc Hl]. apply String.eqb_eq in Hl.
  destruct c as [l' s']. simpl in *. now subst.
Qed.

Lemma getitem_nodup df l s :
  nodupb (columns df) = true -> In (l, s) (data df) -> getitem df l = Ok s.
Proof.
  intros Hn Hin. unfold getitem.
  now rewrite (filter_label_nodup (data df) l s Hn Hin).
Qed.

Lemma getitem_mem df l :
  nodupb (columns df) = true -> mem l (columns df) = true ->
  exists s, getitem df l = Ok s.
Proof.
  intros Hn Hm. apply mem_In in Hm. unfold columns in Hm.
  apply in_map_iff in Hm as ([l' s] & E & Hin). simpl in E. subst l'.
  exists s. now apply getitem_nodup.
Qed.

Lemma getitem_length df l s :
  forallb (fun c => length (snd c) =? index_len df) (data df) = true ->
  getitem df l = Ok s -> length s = index_len df.
Proof.
  intros Hf Hg. apply getitem_In in Hg.
  rewrite forallb_forall in Hf. specialize (Hf _ Hg). now apply Nat.eqb_eq in Hf.
Qed.

Lemma in_labels (d : list (string * series)) l s : In (l, s) d -> In l (map fst d).
Proof. intros H. change l with (fst (l, s)). now apply in_map. Qed.

(** Reading back the column that was just assigned. *)
Lemma getitem_setitem df l s s' :
  getitem (setitem df l s) l = Ok s' -> s' = s.
Proof.
  intros H. apply getitem_In in H. unfold setitem in H.
  destruct (mem l (columns df)) eqn:M; simpl in H.
  - apply in_map_iff in H as (c & E & _).
    destruct (String.eqb (fst c) l) eqn:El.
    + now injection E.
    + apply String.eqb_neq in El. destruct c as [l0 s0]. simpl in *.
      injection E as E1 E2. now subst.
  - apply in_app_or in H as [H | [H | []]].
    + apply mem_false in M. exfalso. apply M. now apply in_labels in H.
    + now injection H.
Qed.

Lemma NoDup_append {A : Type} (l l' : list A) :
  NoDup l -> NoDup l' -> (forall x, In x l -> ~ In x l') -> NoDup (l ++ l').
Proof.
  induction l as [|a r IH]; simpl; [auto|].
  intros H H' Hd. inversion H as [|? ? Ha Hr]; subst. constructor.
  - intros C. apply in_app_or in C as [C|C]; [contradiction|].
    apply (Hd a); auto.
  - apply IH; auto.
Qed.

(** ** Facts about the join *)

Lemma cell_eqb_eq a b : cell_eqb a b = true -> a = b.
Proof.
  destruct a as [s|x|f|], b as [t|y|g|]; simpl; try discriminate; intros H.
  - apply String.eqb_eq in H. now subst.
  - apply Z.eqb_eq in H. now subst.
  - unfold float_eqb in H. destruct f as [fn fi ff], g as [gn gi gf]. simpl in H.
    apply andb_true_iff in H as [H H3]. apply andb_true_iff in H as [H1 H2].
    apply eqb_prop in H1. apply N.eqb_eq in H2.
    apply internal_uint_dec_bl in H3. now subst.
  - reflexivity.
Qed.


Lemma positions_none k rk from :
  existsb (cell_eqb k) rk = false -> positions k rk from = [].
Proof.
  revert from. induction rk as [|k' r IH]; simpl; [reflexivity|].
  intros from H. apply orb_false_iff in H as [H1 H2]. rewrite H1. auto.
Qed.

Lemma positions_some k rk from :
  existsb (cell_eqb k) rk = true -> positions k rk from <> [].
Proof.
  revert from. induction rk as [|k' r IH]; simpl; [discriminate|].
  intros from H. destruct (cell_eqb k k'); [discriminate|]. simpl in H. auto.
Qed.

(** With unique keys a key has at most one reference row. *)
Lemma positions_unique k rk from :
  unique rk = true ->
  positions k rk from = [] \/ exists j, positions k rk from = [j].
Proof.
  revert from. induction rk as [|k' r IH]; simpl; [now left|].
  intros from H. apply andb_true_iff in H as [H1 H2].
  apply negb_true_iff in H1.
  destruct (cell_eqb k k') eqn:E.
  - right. exists from. apply cell_eqb_eq in E. subst k'.
    now rewrite (positions_none k r (S from) H1).
  - auto.
Qed.

Lemma find_row_has_match rk k :
  has_match rk k = match find_row rk k with Some _ => true | None => false end.
Proof.
  unfold has_match, find_row. destruct (existsb (cell_eqb k) rk) eqn:E.
  - apply (positions_some k rk 0) in E. now destruct (positions k rk 0).
  - now rewrite (positions_none k rk 0 E).
Qed.

Lemma row_pairs_unique rk ik :
  unique rk = true -> row_pairs rk ik = [(fst ik, find_row rk (snd ik))].
Proof.
  intros H. unfold row_pairs, find_row.
  destruct (positions_unique (snd ik) rk 0 H) as [E | [j E]]; now rewrite E.
Qed.

(** With unique reference keys the join pairs input row [i] with the one
    reference row of its key, or with none: one pair per input row. *)
Lemma left_join_indexer_unique lk rk :
  unique rk = true ->
  left_join_indexer lk rk
  = combine (seq 0 (length lk)) (map (find_row rk) lk).
Proof.
  intros H. unfold left_join_indexer.
  generalize 0 as from. induction lk as [|k r IH]; intros from; simpl;
    [reflexivity|].
  rewrite (row_pairs_unique rk (from, k) H). simpl. now rewrite IH.
Qed.

Lemma left_join_indexer_length lk rk :
  unique rk = true -> length (left_join_indexer lk rk) = length lk.
Proof.
  intros H. rewrite (left_join_indexer_unique lk rk H).
  rewrite length_combine, length_seq, length_map. lia.
Qed.

Lemma indexer_left lk rk :
  unique rk = true -> map fst (left_join_indexer lk rk) = seq 0 (length lk).
Proof.
  intros H. rewrite (left_join_indexer_unique lk rk H).
  generalize 0 as from. induction lk as [|k r IH]; intros from; simpl;
    [reflexivity|]. now rewrite IH.
Qed.

Lemma indexer_right lk rk :
  unique rk = true -> map snd (left_join_indexer lk rk) = map (find_row rk) lk.
Proof.
  intros H. rewrite (left_join_indexer_unique lk rk H).
  generalize 0 as from. induction lk as [|k r IH]; intros from; simpl;
    [reflexivity|]. now rewrite IH.
Qed.

Lemma take_all s from :
  map (fun i => nth i s CNaN) (seq from (length s - from)) = skipn from s.
Proof.
  revert from. induction s as [|c r IH]; intros from; simpl.
  - now destruct from.
  - destruct from as [|from]; simpl.
    + f_equal. rewrite <- seq_shift, map_map. simpl.
      specialize (IH 0). rewrite Nat.sub_0_r in IH. exact IH.
    + rewrite <- (IH from). rewrite <- seq_shift, map_map. reflexivity.
Qed.

Lemma take_seq s : take s (seq 0 (length s)) = s.
Proof.
  unfold take. pose proof (take_all s 0) as H.
  rewrite Nat.sub_0_r in H. exact H.
Qed.

Lemma take_opt_lookup rk vals lk :
  take_opt vals (map (find_row rk) lk) = map (lookup_value rk vals) lk.
Proof. unfold take_opt, lookup_value. now rewrite map_map. Qed.

Lemma take_fill_length s ix : length (take_fill s ix) = length ix.
Proof.
  unfold take_fill, take_opt.
  destruct (existsb is_none ix && forallb is_int s);
    now rewrite ?length_map.
Qed.



Lemma is_none_find_row rk lk :
  existsb is_none (map (find_row rk) lk) = negb (forallb (has_match rk) lk).
Proof.
  induction lk as [|k lk IH]; [reflexivity|]. cbn [map existsb forallb].
  rewrite IH, negb_andb. f_equal.
  rewrite (find_row_has_match rk k). now destruct (find_row rk k).
Qed.

Lemma take_fill_lookup rk vals lk :
  take_fill vals (map (find_row rk) lk) = lookup_column rk vals lk.
Proof.
  unfold take_fill, lookup_column.
  now rewrite is_none_find_row, take_opt_lookup.
Qed.

Lemma existsb_select_mask {A : Type} (f : A -> bool) mask (s : list A) :
  existsb f (select_mask mask s) = true -> existsb f s = true.
Proof.
  revert s. induction mask as [|b m IH]; intros [|c r]; simpl; try discriminate.
  destruct b; simpl; intros H.
  - apply orb_true_iff in H as [H|H]; [now rewrite H|].
    rewrite (IH r H). apply orb_true_r.
  - rewrite (IH r H). apply orb_true_r.
Qed.

Lemma unique_select_mask mask s :
  unique s = true -> unique (select_mask mask s) = true.
Proof.
  revert s. induction mask as [|b m IH]; intros [|c r]; simpl; try reflexivity.
  intros H. apply andb_true_iff in H as [H1 H2]. destruct b; simpl; auto.
  rewrite (IH r H2), andb_true_r. apply negb_true_iff.
  apply negb_true_iff in H1.
  destruct (existsb (cell_eqb c) (select_mask m r)) eqn:E; [|reflexivity].
  apply existsb_select_mask in E. congruence.
Qed.

Lemma getitem_filter_rows df mask l :
  getitem (filter_rows df mask) l
  = (s <- getitem df l ;; Ok (select_mask mask s)).
Proof.
  unfold getitem, filter_rows. simpl. rewrite filter_map_comm. simpl.
  match goal with
  | |- context [filter ?p (data df)] =>
      destruct (filter p (data df)) as [|c [|c' r]]; reflexivity
  end.
Qed.

(** ** Facts about the processing phase *)

Lemma bind_ok {A B : Type} (r : result A) (k : A -> result B) b :
  bind r k = Ok b -> exists a, r = Ok a /\ k a = Ok b.
Proof. destruct r as [a|e]; simpl; [|discriminate]. intros H. now exists a. Qed.

Lemma mapM_ok {A B : Type} (f : A -> result B) l bs :
  mapM f l = Ok bs -> forall b, In b bs -> exists a, In a l /\ f a = Ok b.
Proof.
  revert bs. induction l as [|a r IH]; simpl; intros bs H.
  - injection H as <-. intros b [].
  - apply bind_ok in H as (b0 & Hb0 & H). apply bind_ok in H as (bs0 & Hbs0 & H).
    injection H as <-. intros b [<- | Hb].
    + exists a. auto.
    + destruct (IH bs0 Hbs0 b Hb) as (a' & Ha' & E). exists a'. auto.
Qed.

Lemma mapM_length {A B : Type} (f : A -> result B) l bs :
  mapM f l = Ok bs -> length bs = length l.
Proof.
  revert bs. induction l as [|a r IH]; simpl; intros bs H.
  - now injection H as <-.
  - apply bind_ok in H as (b0 & Hb0 & H). apply bind_ok in H as (bs0 & Hbs0 & H).
    injection H as <-. simpl. f_equal. auto.
Qed.

Lemma Forall_combine_map {A : Type} (P : series -> Prop) (f : A -> series)
    (labels : list string) (d : list A) :
  (forall a, P (f a)) -> Forall (fun c => P (snd c)) (combine labels (map f d)).
Proof.
  intros H. revert d. induction labels as [|l r IH]; intros [|a d]; simpl;
    constructor; simpl; auto.
Qed.

Lemma merge_ok left right lo ro m :
  merge left right lo ro = Ok m ->
  exists lk rk,
    getitem left lo = Ok lk /\ getitem right ro = Ok rk
    /\ index_len m = length (left_join_indexer lk rk)
    /\ Forall (fun c => length (snd c) = length (left_join_indexer lk rk))
         (data m).
Proof.
  unfold merge. intros H.
  apply bind_ok in H as (lk & Hlk & H). apply bind_ok in H as (rk & Hrk & H).
  exists lk, rk. repeat split; try assumption;
    match type of H with
    | match ?d with _ => _ end = _ => destruct d; [|discriminate]
    end; injection H as <-; simpl; [reflexivity|].
  apply Forall_app. split.
  - apply (Forall_combine_map
             (fun s => length s = length (left_join_indexer lk rk))).
    intros a. unfold take. now rewrite !length_map.
  - apply (Forall_combine_map
             (fun s => length s = length (left_join_indexer lk rk))).
    intros a. now rewrite take_fill_length, length_map.
Qed.

Lemma ref_column_eq census flag ref l s :
  reference_view census flag = Ok ref -> getitem ref l = Ok s ->
  ref_column census flag l = s.
Proof. intros H1 H2. unfold ref_column. now rewrite H1, H2. Qed.

(** The population filter keeps the keys unique. *)
Lemma reference_view_unique census flag ref rk :
  unique (ref_column census false "zip_code") = true ->
  reference_view census flag = Ok ref -> getitem ref "zip_code" = Ok rk ->
  unique rk = true.
Proof.
  intros Hu Hv Hk. destruct flag; simpl in Hv.
  - apply bind_ok in Hv as (pop & Hpop & Hv).
    apply bind_ok in Hv as (mask & Hmask & Hv). injection Hv as <-.
    rewrite getitem_filter_rows in Hk.
    apply bind_ok in Hk as (keys & Hkeys & Hk). injection Hk as <-.
    apply unique_select_mask.
    now rewrite (ref_column_eq census false census "zip_code" keys) in Hu.
  - injection Hv as <-.
    now rewrite (ref_column_eq census false census "zip_code" rk) in Hu.
Qed.

(** What a successful processing phase went through. *)
Lemma process_ok census df flag o :
  process census df flag = Ok o ->
  exists zc zips ref rk,
    find_zip_column (columns df) = Some zc /\ getitem df zc = Ok zips
    /\ reference_view census flag = Ok ref /\ getitem ref "zip_code" = Ok rk
    /\ zip_col o = zc
    /\ index_len (final_df o)
       = length (left_join_indexer (clean_zip_codes zips) rk)
    /\ total_rows o = index_len (final_df o)
    /\ Forall (fun c => length (snd c) = index_len (final_df o))
         (data (final_df o)).
Proof.
  unfold process. destruct (find_zip_column (columns df)) as [zc|];
    [|discriminate].
  intros H. apply bind_ok in H as (zips & Hzips & H).
  apply bind_ok in H as (ref & Href & H).
  apply bind_ok in H as (merged & Hm & H).
  apply bind_ok in H as (income & Hinc & H).
  apply bind_ok in H as (age & Hage & H). injection H as <-.
  apply merge_ok in Hm as (lk & rk & Hlk & Hrk & Hn & Hall).
  apply getitem_setitem in Hlk. subst lk.
  exists zc, zips, ref, rk. simpl. repeat split; try assumption.
  rewrite Hn. apply incl_Forall with
    (l1 := map (fun c : string * series =>
                  (rename_label metric_renames (fst c), snd c)) (data merged)).
  - intros c Hc. apply filter_In in Hc. exact (proj1 Hc).
  - apply Forall_map. simpl. exact Hall.
Qed.

Lemma getitem_list_ok df labels shown :
  getitem_list df labels = Ok shown ->
  index_len shown = index_len df /\ incl (data shown) (data df).
Proof.
  unfold getitem_list. intros H. apply bind_ok in H as (cols & Hcols & H).
  injection H as <-. simpl. split; [reflexivity|].
  intros c Hc. apply in_concat in Hc as (cs & Hcs & Hc).
  destruct (mapM_ok _ _ _ Hcols cs Hcs) as (l & _ & E).
  destruct (filter (fun c => String.eqb (fst c) l) (data df)) eqn:F;
    [discriminate|]. injection E as <-. rewrite <- F in Hc.
  apply filter_In in Hc. exact (proj1 Hc).
Qed.

(** ** The processing phase on a table whose headers clash with no
    reference column other than the key *)

Lemma mapM_cell_ge pop n :
  forallb numeric pop = true -> exists mask, mapM (fun c => cell_ge c n) pop = Ok mask.
Proof.
  induction pop as [|c r IH]; simpl; [now exists []|].
  intros H. apply andb_true_iff in H as [Hc Hr].
  destruct (IH Hr) as [mask Hm]. rewrite Hm.
  destruct c; try discriminate; simpl; eauto.
Qed.

Lemma select_mask_length {A : Type} mask (s : list A) :
  length s = length mask ->
  length (select_mask mask s) = length (filter (fun b : bool => b) mask).
Proof.
  revert s. induction mask as [|b m IH]; intros [|c r]; simpl; try easy.
  intros H. injection H as H. destruct b; simpl; auto.
Qed.

Lemma filter_rows_well_formed df mask :
  well_formed df = true -> length mask = index_len df ->
  well_formed (filter_rows df mask) = true /\ columns (filter_rows df mask) = columns df.
Proof.
  intros Hwf Hl. apply andb_true_iff in Hwf as [Hn Hlen].
  assert (C : columns (filter_rows df mask) = columns df).
  { unfold columns, filter_rows. simpl. rewrite map_map. reflexivity. }
  split; [|exact C]. unfold well_formed. rewrite C, Hn. simpl.
  apply forallb_forall. intros c Hc. simpl in Hc.
  apply in_map_iff in Hc as (c0 & <- & Hc0). simpl.
  rewrite forallb_forall in Hlen. specialize (Hlen _ Hc0).
  apply Nat.eqb_eq in Hlen. apply Nat.eqb_eq.
  apply select_mask_length. congruence.
Qed.

Lemma reference_view_total census flag :
  census_ok census = true ->
  exists ref, reference_view census flag = Ok ref
              /\ well_formed ref = true /\ columns ref = columns census.
Proof.
  intros H. unfold census_ok in H.
  apply andb_true_iff in H as [H Hpop]. apply andb_true_iff in H as [H Hown].
  apply andb_true_iff in H as [Hwf Hcols].
  destruct flag; simpl; [|now exists census].
  destruct (getitem census "population") as [pop|] eqn:Ep; [|discriminate].
  destruct (mapM_cell_ge pop 100%Z Hpop) as [mask Hm]. simpl. rewrite Hm. simpl.
  exists (filter_rows census mask). split; [reflexivity|].
  apply filter_rows_well_formed; [exact Hwf|].
  rewrite (mapM_length _ _ _ Hm).
  apply andb_true_iff in Hwf as [_ Hlen].
  now apply (getitem_length census "population").
Qed.

Lemma duplicated_from_nodup seen labels :
  NoDup labels -> (forall x, In x labels -> ~ In x seen) ->
  duplicated_from seen labels = map (fun _ => false) labels.
Proof.
  revert seen. induction labels as [|x r IH]; intros seen Hn Hs; simpl;
    [reflexivity|].
  inversion Hn as [|? ? Hx Hr]; subst. f_equal.
  - apply mem_false, Hs. now left.
  - apply IH; [exact Hr|]. intros y Hy [E | C].
    + subst y. contradiction.
    + apply (Hs y); [now right | exact C].
Qed.

(** Suffixes that leave the labels distinct make no duplicate. *)
Lemma suffix_dups_nodup old new : NoDup new -> suffix_dups old new = [].
Proof.
  intros Hn. unfold suffix_dups, duplicated.
  rewrite (duplicated_from_nodup [] new Hn) by (intros x _ []).
  generalize (duplicated_from [] old) as bs.
  induction new as [|x r IH]; intros bs; [reflexivity|].
  inversion Hn as [|? ? _ Hr]; subst.
  destruct bs as [|b bs]; simpl; [reflexivity|]. now apply IH.
Qed.

Lemma combine_map_labels {A : Type} (f : string -> string)
    (g : string * series -> A) (d : list (string * series)) :
  combine (map f (map fst d)) (map g d) = map (fun c => (f (fst c), g c)) d.
Proof. induction d as [|c r IH]; simpl; [reflexivity|]. now rewrite IH. Qed.

(** The merge of two frames whose labels stay distinct on each side. *)
Lemma merge_relabel left right lo ro lk rk :
  getitem left lo = Ok lk -> getitem right ro = Ok rk ->
  NoDup (map (suffixed "_x" (columns left) (columns right)) (columns left)) ->
  NoDup (map (suffixed "_y" (columns right) (columns left)) (columns right)) ->
  merge left right lo ro
  = Ok (Frame (length (left_join_indexer lk rk))
          (map (fun c => (suffixed "_x" (columns left) (columns right) (fst c),
                          take (snd c) (map fst (left_join_indexer lk rk))))
             (data left)
           ++ map (fun c => (suffixed "_y" (columns right) (columns left) (fst c),
                             take_fill (snd c)
                               (map snd (left_join_indexer lk rk))))
                (data right))).
Proof.
  intros Hl Hr Hnl Hnr. unfold merge. rewrite Hl, Hr. cbn [bind].
  rewrite (suffix_dups_nodup _ _ Hnl), (suffix_dups_nodup _ _ Hnr).
  cbn [app]. unfold columns at 3 6. now rewrite !combine_map_labels.
Qed.

Lemma rename_label_metric l :
  rename_label metric_renames l
  = if String.eqb "median_income" l then "Estimated household income"
    else if String.eqb "median_age" l then "Median age"
    else if String.eqb "population" l then "Zip population"
    else l.
Proof.
  unfold rename_label, metric_renames, lookup.
  destruct (String.eqb "median_income" l); [reflexivity|].
  destruct (String.eqb "median_age" l); [reflexivity|].
  destruct (String.eqb "population" l); reflexivity.
Qed.

Lemma rename_label_other l :
  ~ In l ["median_income"; "median_age"; "population"] ->
  rename_label metric_renames l = l.
Proof.
  intros H. rewrite rename_label_metric.
  destruct (String.eqb "median_income" l) eqn:E1;
    [apply String.eqb_eq in E1; exfalso; apply H; simpl; auto|].
  destruct (String.eqb "median_age" l) eqn:E2;
    [apply String.eqb_eq in E2; exfalso; apply H; simpl; auto|].
  destruct (String.eqb "population" l) eqn:E3;
    [apply String.eqb_eq in E3; exfalso; apply H; simpl; auto|].
  reflexivity.
Qed.

Ltac label_cases :=
  repeat match goal with
         | |- context [if String.eqb ?a ?b then _ else _] =>
             destruct (String.eqb_spec a b)
         end;
  repeat match goal with
         | |- context [String.eqb ?a ?b] => destruct (String.eqb_spec a b)
         end;
  try reflexivity; try congruence.

(** A renamed reference label is a presentation label exactly when the
    label it comes from is the column renamed to it. *)
Lemma rename_label_hits l src dst :
  In (src, dst) metric_renames -> ~ In l own_labels ->
  String.eqb (rename_label metric_renames l) dst = String.eqb l src.
Proof.
  intros Hin Hown. rewrite rename_label_metric.
  assert (N2 : l <> "Estimated household income") by (intros ->; apply Hown; simpl; auto).
  assert (N3 : l <> "Median age") by (intros ->; apply Hown; simpl; auto).
  assert (N4 : l <> "Zip population") by (intros ->; apply Hown; simpl; auto 6).
  destruct Hin as [E | [E | [E | []]]]; injection E as <- <-; label_cases.
Qed.

Lemma rename_label_zip l :
  ~ In l own_labels ->
  mem (rename_label metric_renames l) ["__join_zip"; "zip_code"]
  = String.eqb l "zip_code".
Proof.
  intros Hown. rewrite rename_label_metric.
  assert (N1 : l <> "__join_zip") by (intros ->; apply Hown; simpl; auto).
  unfold mem. cbn [existsb]. label_cases.
Qed.

Lemma find_zip_column_In cols zc : find_zip_column cols = Some zc -> In zc cols.
Proof.
  unfold find_zip_column. destruct (find exact_match cols) as [c|] eqn:E.
  - intros H. injection H as <-. now apply find_some in E.
  - intros H. now apply find_some in H.
Qed.

Lemma join_keys_eq df zc zips :
  find_zip_column (columns df) = Some zc -> getitem df zc = Ok zips ->
  join_keys df = clean_zip_codes zips.
Proof. intros H1 H2. unfold join_keys. now rewrite H1, H2. Qed.

Lemma take_id s n : length s = n -> take s (seq 0 n) = s.
Proof. intros <-. apply take_seq. Qed.

Lemma getitem_single df l s :
  getitem df l = Ok s ->
  exists c, filter (fun c => String.eqb (fst c) l) (data df) = [c] /\ snd c = s.
Proof.
  unfold getitem.
  destruct (filter (fun c => String.eqb (fst c) l) (data df)) as [|c [|c' r]];
    try discriminate.
  intros H. injection H as <-. now exists c.
Qed.

Lemma filter_twice {A : Type} (p q : A -> bool) l :
  filter p (filter q l) = filter (fun x => q x && p x) l.
Proof.
  induction l as [|a r IH]; simpl; [reflexivity|].
  destruct (q a); simpl; [destruct (p a)|]; now rewrite IH.
Qed.

Section Compatible.

Variables census_df df : frame.
Hypothesis Hcensus : census_ok census_df = true.
Hypothesis Hinput : input_ok census_df df = true.

Lemma census_fresh l :
  In l (columns census_df) -> ~ In l own_labels /\ l <> "zip_code_y".
Proof.
  intros Hl. unfold census_ok in Hcensus.
  apply andb_true_iff in Hcensus as [H _]. apply andb_true_iff in H as [_ H].
  rewrite forallb_forall in H. specialize (H l Hl).
  apply negb_true_iff, mem_false in H. split.
  - intros C. apply H. now right.
  - intros ->. apply H. now left.
Qed.

Lemma census_has l : In l census_columns -> In l (columns census_df).
Proof.
  intros Hl. unfold census_ok in Hcensus.
  apply andb_true_iff in Hcensus as [H _]. apply andb_true_iff in H as [H _].
  apply andb_true_iff in H as [_ H].
  rewrite forallb_forall in H. now apply mem_In, H.
Qed.

Lemma census_labels_nodup : NoDup (columns census_df).
Proof.
  unfold census_ok in Hcensus. apply andb_true_iff in Hcensus as [H _].
  apply andb_true_iff in H as [H _]. apply andb_true_iff in H as [H _].
  apply andb_true_iff in H as [H _]. now apply nodupb_NoDup.
Qed.

Lemma input_rectangular :
  nodupb (columns df) = true
  /\ forallb (fun c => length (snd c) =? index_len df) (data df) = true.
Proof.
  unfold input_ok in Hinput. apply andb_true_iff in Hinput as [H _].
  now apply andb_true_iff in H.
Qed.

(** What the headers of the upload are not. *)
Lemma input_fresh l :
  In l (columns df) ->
  ~ In l own_labels /\ l <> "zip_code_x"
  /\ (In l (columns census_df) -> l = "zip_code").
Proof.
  intros Hl. unfold input_ok in Hinput.
  apply andb_true_iff in Hinput as [_ H]. rewrite forallb_forall in H.
  specialize (H l Hl). apply negb_true_iff, mem_false in H.
  split; [|split].
  - intros C. apply H. right. apply in_or_app. now left.
  - intros ->. apply H. now left.
  - intros C. destruct (String.eqb_spec l "zip_code") as [E|N]; [exact E|].
    exfalso. apply H. right. apply in_or_app. right.
    apply filter_In. split; [exact C|].
    now apply negb_true_iff, String.eqb_neq.
Qed.

Lemma input_not_values l :
  In l (columns df) -> ~ In l ["median_income"; "median_age"; "population"].
Proof.
  intros Hl C. destruct (input_fresh l Hl) as (_ & _ & H).
  assert (E : l = "zip_code").
  { apply H, census_has. unfold census_columns. simpl in *. tauto. }
  subst l. simpl in C. destruct C as [C | [C | [C | []]]]; discriminate.
Qed.

(** The label of an uploaded column after the merge. *)
Lemma label_x_input l :
  In l (columns df) ->
  label_x census_df l = if String.eqb l "zip_code" then "zip_code_x" else l.
Proof.
  intros Hl. unfold label_x. destruct (input_fresh l Hl) as (_ & _ & H).
  destruct (mem l (columns census_df)) eqn:M.
  - apply mem_In in M. rewrite (H M). reflexivity.
  - destruct (String.eqb_spec l "zip_code") as [E|N]; [|reflexivity].
    exfalso. apply mem_false in M. apply M. subst l. apply census_has.
    simpl. auto.
Qed.

(** The label of a reference column after the merge. *)
Lemma label_y_census l :
  In l (columns census_df) ->
  label_y df l
  = if String.eqb l "zip_code" && mem "zip_code" (columns df)
    then "zip_code_y" else l.
Proof.
  intros Hl. unfold label_y. destruct (mem l (columns df)) eqn:M.
  - apply mem_In in M. destruct (input_fresh l M) as (_ & _ & H).
    rewrite (H Hl). apply mem_In in M. rewrite (H Hl) in M. now rewrite M.
  - destruct (String.eqb_spec l "zip_code") as [E|N]; [|reflexivity].
    subst l. now rewrite M.
Qed.

Lemma label_x_fresh l :
  In l (columns df) ->
  ~ In (label_x census_df l) own_labels
  /\ ~ In (label_x census_df l) census_columns.
Proof.
  intros Hl. rewrite (label_x_input l Hl).
  destruct (String.eqb_spec l "zip_code") as [E|N].
  - split; intros C; simpl in C; repeat destruct C as [C|C]; discriminate || easy.
  - split; [exact (proj1 (input_fresh l Hl))|].
    intros C. destruct (input_fresh l Hl) as (_ & _ & H).
    apply N, H. now apply census_has.
Qed.

Lemma label_y_fresh l :
  In l (columns census_df) -> ~ In (label_y df l) own_labels.
Proof.
  intros Hl. rewrite (label_y_census l Hl).
  destruct (String.eqb l "zip_code" && mem "zip_code" (columns df)).
  - intros C. simpl in C. repeat destruct C as [C|C]; discriminate || easy.
  - exact (proj1 (census_fresh l Hl)).
Qed.

(** A reference column the code reads keeps its label in the merge. *)
Lemma label_y_value l src :
  In l (columns census_df) ->
  In src ["median_income"; "median_age"; "population"] ->
  String.eqb (label_y df l) src = String.eqb l src.
Proof.
  intros Hl Hs. rewrite (label_y_census l Hl).
  destruct (String.eqb_spec l "zip_code") as [E|N]; [|reflexivity].
  subst l. destruct (mem "zip_code" (columns df)); [|reflexivity].
  simpl in Hs. destruct Hs as [<- | [<- | [<- | []]]]; reflexivity.
Qed.

Lemma label_x_nodup : NoDup (map (label_x census_df) (columns df)).
Proof.
  apply NoDup_map_NoDup_ForallPairs;
    [|exact (nodupb_NoDup _ (proj1 input_rectangular))].
  intros l l' Hl Hl'. rewrite (label_x_input l Hl), (label_x_input l' Hl').
  destruct (input_fresh l Hl) as (_ & Nx & _).
  destruct (input_fresh l' Hl') as (_ & Nx' & _).
  destruct (String.eqb_spec l "zip_code"), (String.eqb_spec l' "zip_code");
    congruence.
Qed.

Lemma label_y_nodup : NoDup (map (label_y df) (columns census_df)).
Proof.
  apply NoDup_map_NoDup_ForallPairs; [|exact census_labels_nodup].
  intros l l' Hl Hl'. rewrite (label_y_census l Hl), (label_y_census l' Hl').
  destruct (census_fresh l Hl) as [_ Ny].
  destruct (census_fresh l' Hl') as [_ Ny'].
  destruct (mem "zip_code" (columns df));
    destruct (String.eqb_spec l "zip_code"), (String.eqb_spec l' "zip_code");
    simpl; congruence.
Qed.

End Compatible.

(** Renaming and dropping, on a merged table in which no uploaded column
    carries a label of the main block or of the reference columns read. *)
Lemma final_data n (L R : list (string * series)) keys :
  (forall c, In c L -> ~ In (fst c) own_labels /\ ~ In (fst c) census_columns) ->
  (forall c, In c R -> ~ In (fst c) own_labels) ->
  let merged := rename metric_renames
                  (Frame n ((L ++ [("__join_zip", keys)]) ++ R)) in
  drop (filter (fun c => mem c (columns merged)) ["__join_zip"; "zip_code"])
    merged
  = Frame n (L ++ map (fun c => (rename_label metric_renames (fst c), snd c))
                    (filter not_zip_code R)).
Proof.
  intros HL HR merged.
  assert (M1 : mem "__join_zip" (columns merged) = true).
  { apply mem_In. unfold merged, columns, rename. simpl.
    rewrite !map_app, !map_map. apply in_or_app. left. apply in_or_app. right.
    simpl. now left. }
  assert (D : forall c : string * series,
            In c (data merged) ->
            negb (mem (fst c)
                    (filter (fun c => mem c (columns merged))
                       ["__join_zip"; "zip_code"]))
            = negb (mem (fst c) ["__join_zip"; "zip_code"])).
  { intros c Hc. cbn [filter]. rewrite M1.
    destruct (mem "zip_code" (columns merged)) eqn:M2; [reflexivity|].
    f_equal. unfold mem. cbn [existsb].
    destruct (String.eqb_spec (fst c) "zip_code") as [E|N];
      [|now rewrite !orb_false_r].
    exfalso. apply mem_false in M2. apply M2. rewrite <- E.
    unfold columns. now apply in_map. }
  unfold drop. rewrite (filter_ext_in _ _ _ D).
  unfold merged, rename. cbn [index_len data].
  f_equal. rewrite !map_app, !filter_app. rewrite <- app_assoc. f_equal.
  - transitivity (filter (fun c : string * series =>
                    negb (mem (fst c) ["__join_zip"; "zip_code"])) L).
    + f_equal. transitivity (map (fun c : string * series => c) L);
        [|apply map_id]. apply map_ext_in. intros c Hc.
      destruct (HL c Hc) as [_ Hn]. rewrite rename_label_other.
      * now destruct c.
      * intros C. apply Hn. unfold census_columns. simpl in *. tauto.
    + apply filter_all. intros c Hc. destruct (HL c Hc) as [Ho Hn].
      apply negb_true_iff, mem_false. intros [E | [E | []]].
      * apply Ho. rewrite <- E. simpl. auto.
      * apply Hn. rewrite <- E. simpl. auto.
  - cbn [map filter app].
    change (negb (mem (fst (rename_label metric_renames
                              (fst ("__join_zip", keys)),
                            snd ("__join_zip", keys)))
                    ["__join_zip"; "zip_code"])) with false.
    cbn iota. rewrite filter_map_comm, app_nil_l. f_equal.
    apply filter_ext_in. intros c Hc.
    cbn [fst]. unfold not_zip_code. f_equal. apply rename_label_zip. auto.
Qed.

(** The presentation column [dst] of the delivered table holds, row by
    row, the cell found in the reference column [src]. *)
Lemma getitem_metric n (L D : list (string * series)) (g : string -> string)
    (h : series -> series) src dst vals :
  (forall c, In c L -> ~ In (fst c) own_labels) ->
  (forall c, In c D -> ~ In (g (fst c)) own_labels) ->
  (forall c, In c D -> String.eqb (g (fst c)) src = String.eqb (fst c) src) ->
  In (src, dst) metric_renames ->
  getitem (Frame 0 D) src = Ok vals ->
  getitem (Frame n (L ++ map (fun c => (rename_label metric_renames (g (fst c)),
                                        h (snd c)))
                           (filter (fun c => negb (String.eqb (g (fst c))
                                                     "zip_code")) D))) dst
  = Ok (h vals).
Proof.
  intros HL HD Hg Hin Hv.
  assert (Hd : In dst own_labels).
  { simpl in Hin. destruct Hin as [E | [E | [E | []]]]; injection E as <- <-;
      simpl; auto 6. }
  assert (Hs : src <> "zip_code").
  { simpl in Hin. destruct Hin as [E | [E | [E | []]]]; injection E as <- <-;
      discriminate. }
  apply getitem_single in Hv as (c0 & Hf & <-). cbn [data] in Hf.
  unfold getitem. cbn [data]. rewrite filter_app.
  rewrite (filter_none _ L).
  2:{ intros c Hc. apply String.eqb_neq. intros E. apply (HL c Hc). now rewrite E. }
  rewrite filter_map_comm. cbn [app fst].
  rewrite filter_twice.
  rewrite (filter_ext_in _ (fun c : string * series => String.eqb (fst c) src)).
  2:{ intros c Hc. rewrite (rename_label_hits _ src dst Hin (HD c Hc)).
      rewrite (Hg c Hc).
      destruct (String.eqb_spec (fst c) src) as [E|]; [|apply andb_false_r].
      rewrite andb_true_r. apply negb_true_iff.
      assert (G : String.eqb (g (fst c)) src = true)
        by (rewrite (Hg c Hc); now apply String.eqb_eq).
      apply String.eqb_eq in G. rewrite G. now apply String.eqb_neq. }
  rewrite Hf. reflexivity.
Qed.

Section Joined.

Variables census_df df : frame.
Variable exclude_low_pop : bool.
Variable zc : string.
Hypothesis Hcensus : census_ok census_df = true.
Hypothesis Hinput : input_ok census_df df = true.
Hypothesis Hzc : find_zip_column (columns df) = Some zc.

Let lk := join_keys df.
Let rk := ref_column census_df exclude_low_pop "zip_code".
Let ix := join_pairs census_df df exclude_low_pop.

Lemma zip_column_found : exists zips, getitem df zc = Ok zips.
Proof.
  apply getitem_mem; [exact (proj1 (input_rectangular census_df df Hinput))|].
  apply mem_In. now apply find_zip_column_In.
Qed.

Lemma join_keys_length : length lk = index_len df.
Proof.
  destruct zip_column_found as [zips Hz]. unfold lk.
  rewrite (join_keys_eq df zc zips Hzc Hz), clean_zip_codes_length.
  exact (getitem_length df zc zips
           (proj2 (input_rectangular census_df df Hinput)) Hz).
Qed.

(** Every reference column the code reads is there after the filter. *)
Lemma ref_column_found ref l :
  reference_view census_df exclude_low_pop = Ok ref ->
  columns ref = columns census_df -> well_formed ref = true ->
  In l census_columns ->
  getitem ref l = Ok (ref_column census_df exclude_low_pop l).
Proof.
  intros Href Hcols Hwf Hl. apply andb_true_iff in Hwf as [Hn _].
  destruct (getitem_mem ref l Hn) as [s Hs].
  - rewrite Hcols. apply mem_In. now apply (census_has census_df).
  - now rewrite (ref_column_eq _ _ _ _ _ Href Hs).
Qed.

Lemma join_label_absent : mem "__join_zip" (columns df) = false.
Proof.
  apply mem_false. intros C.
  apply (proj1 (input_fresh census_df df Hinput _ C)). simpl. auto.
Qed.

Lemma suffixed_left l :
  In l (columns df) ->
  suffixed "_x" (columns df ++ ["__join_zip"]) (columns census_df) l
  = label_x census_df l.
Proof.
  intros Hl. unfold suffixed, label_x.
  assert (M : mem l (columns df ++ ["__join_zip"]) = true)
    by (apply mem_In, in_or_app; now left).
  now rewrite M.
Qed.

Lemma suffixed_join :
  suffixed "_x" (columns df ++ ["__join_zip"]) (columns census_df) "__join_zip"
  = "__join_zip".
Proof.
  unfold suffixed.
  assert (M : mem "__join_zip" (columns census_df) = false).
  { apply mem_false. intros C.
    apply (proj1 (census_fresh census_df Hcensus _ C)). simpl. auto. }
  now rewrite M, andb_false_r.
Qed.

Lemma suffixed_right l :
  In l (columns census_df) ->
  suffixed "_y" (columns census_df) (columns df ++ ["__join_zip"]) l
  = label_y df l.
Proof.
  intros Hl. unfold suffixed, label_y.
  rewrite (proj2 (mem_In l (columns census_df)) Hl). cbn [andb].
  assert (M : mem l (columns df ++ ["__join_zip"]) = mem l (columns df)).
  { unfold mem. rewrite existsb_app. cbn [existsb].
    destruct (String.eqb_spec l "__join_zip") as [E|N];
      [|now rewrite !orb_false_r].
    exfalso. apply (proj1 (census_fresh census_df Hcensus _ Hl)).
    rewrite E. simpl. auto. }
  now rewrite M.
Qed.

(** The processing phase goes through and delivers [merged_frame]. *)
Lemma process_merged :
  process census_df df exclude_low_pop
  = Ok (Outcome (merged_frame census_df df exclude_low_pop) zc (length ix)
          (length (filter notna
             (take_fill (ref_column census_df exclude_low_pop "median_income")
                (map snd ix))))
          (rate (length (filter notna
             (take_fill (ref_column census_df exclude_low_pop "median_income")
                (map snd ix)))) (length ix))).
Proof.
  destruct (reference_view_total census_df exclude_low_pop Hcensus)
    as (ref & Href & Hwfr & Hcols).
  destruct zip_column_found as [zips Hz].
  pose proof (ref_column_found ref "zip_code" Href Hcols Hwfr) as Hrk.
  pose proof (ref_column_found ref "median_income" Href Hcols Hwfr) as Hinc.
  pose proof (ref_column_found ref "median_age" Href Hcols Hwfr) as Hage.
  specialize (Hrk ltac:(simpl; auto)). specialize (Hinc ltac:(simpl; auto)).
  specialize (Hage ltac:(simpl; auto)). fold rk in Hrk.
  assert (Hlk : lk = clean_zip_codes zips)
    by exact (join_keys_eq df zc zips Hzc Hz).
  assert (HD : forall c, In c (data ref) ->
                 ~ In (label_y df (fst c)) own_labels).
  { intros c Hc. apply (label_y_fresh census_df df Hcensus Hinput).
    rewrite <- Hcols. now apply in_map. }
  assert (HV : forall src, In src ["median_income"; "median_age"; "population"] ->
               forall c, In c (data ref) ->
               String.eqb (label_y df (fst c)) src = String.eqb (fst c) src).
  { intros src Hs c Hc. apply (label_y_value census_df df Hinput);
      [|exact Hs]. rewrite <- Hcols. now apply in_map. }
  unfold process. rewrite Hzc, Hz. cbn [bind]. rewrite <- Hlk.
  assert (Hset : setitem df "__join_zip" lk
                 = Frame (index_len df) (data df ++ [("__join_zip", lk)])).
  { unfold setitem. now rewrite join_label_absent. }
  rewrite Hset, Href. cbn [bind].
  assert (CL : columns (Frame (index_len df) (data df ++ [("__join_zip", lk)]))
               = columns df ++ ["__join_zip"]).
  { unfold columns. cbn [data]. now rewrite map_app. }
  rewrite (merge_relabel _ ref "__join_zip" "zip_code" lk rk).
  - cbn [bind data]. change (left_join_indexer lk rk) with ix.
    rewrite CL, Hcols, map_app. cbn [map fst snd]. rewrite suffixed_join.
    set (L := map (fun c : string * series =>
                     (label_x census_df (fst c), take (snd c) (map fst ix)))
                (data df)).
    set (R := map (fun c : string * series =>
                     (label_y df (fst c), take_fill (snd c) (map snd ix)))
                (data ref)).
    assert (EL : map (fun c : string * series =>
                        (suffixed "_x" (columns df ++ ["__join_zip"])
                           (columns census_df) (fst c),
                         take (snd c) (map fst ix))) (data df) = L).
    { apply map_ext_in. intros c Hc. f_equal. apply suffixed_left.
      now apply in_map. }
    assert (ER : map (fun c : string * series =>
                        (suffixed "_y" (columns census_df)
                           (columns df ++ ["__join_zip"]) (fst c),
                         take_fill (snd c) (map snd ix))) (data ref) = R).
    { apply map_ext_in. intros c Hc. f_equal. apply suffixed_right.
      rewrite <- Hcols. now apply in_map. }
    rewrite EL, ER.
    assert (HL : forall c, In c L ->
                   ~ In (fst c) own_labels /\ ~ In (fst c) census_columns).
    { intros c Hc. apply in_map_iff in Hc as (c0 & <- & Hc0).
      apply (label_x_fresh census_df df Hcensus Hinput). now apply in_map. }
    assert (HL' : forall c, In c L -> ~ In (fst c) own_labels)
      by (intros c Hc; exact (proj1 (HL c Hc))).
    assert (HR : forall c, In c R -> ~ In (fst c) own_labels).
    { intros c Hc. apply in_map_iff in Hc as (c0 & <- & Hc0). exact (HD c0 Hc0). }
    rewrite (final_data (length ix) L R (take lk (map fst ix)) HL HR).
    subst R. rewrite filter_map_comm, map_map. cbn [fst snd].
    change (fun x : string * series =>
              not_zip_code (label_y df (fst x), take_fill (snd x) (map snd ix)))
      with (fun c : string * series =>
              negb (String.eqb (label_y df (fst c)) "zip_code")).
    rewrite (getitem_metric (length ix) L (data ref) (label_y df)
               (fun s => take_fill s (map snd ix))
               "median_income" "Estimated household income"
               (ref_column census_df exclude_low_pop "median_income")
               HL' HD (HV "median_income" ltac:(simpl; auto))
               ltac:(simpl; auto) Hinc).
    rewrite (getitem_metric (length ix) L (data ref) (label_y df)
               (fun s => take_fill s (map snd ix))
               "median_age" "Median age"
               (ref_column census_df exclude_low_pop "median_age")
               HL' HD (HV "median_age" ltac:(simpl; auto))
               ltac:(simpl; auto) Hage).
    cbn [bind index_len]. unfold merged_frame. rewrite Href. reflexivity.
  - unfold getitem. cbn [data]. rewrite filter_app.
    rewrite (filter_none _ (data df)).
    + reflexivity.
    + intros c Hc. apply String.eqb_neq. intros E.
      pose proof join_label_absent as M. apply mem_false in M. apply M.
      rewrite <- E. now apply in_map.
  - exact Hrk.
  - rewrite CL, Hcols, map_app. cbn [map]. rewrite suffixed_join.
    rewrite (map_ext_in _ (label_x census_df)) by (intros l Hl; now apply suffixed_left).
    apply NoDup_append.
    + exact (label_x_nodup census_df df Hcensus Hinput).
    + repeat constructor. intros [].
    + intros l Hl [<- | []]. apply in_map_iff in Hl as (l0 & E & Hl0).
      apply (proj1 (label_x_fresh census_df df Hcensus Hinput l0 Hl0)).
      rewrite E. simpl. auto.
  - rewrite CL, Hcols.
    rewrite (map_ext_in _ (label_y df)) by (intros l Hl; now apply suffixed_right).
    exact (label_y_nodup census_df df Hcensus Hinput).
Qed.

(** The presentation columns of the delivered table. *)
Lemma merged_metric src dst :
  In (src, dst) metric_renames ->
  getitem (merged_frame census_df df exclude_low_pop) dst
  = Ok (take_fill (ref_column census_df exclude_low_pop src) (map snd ix)).
Proof.
  intros Hin.
  destruct (reference_view_total census_df exclude_low_pop Hcensus)
    as (ref & Href & Hwfr & Hcols).
  assert (Hsrc : In src ["median_income"; "median_age"; "population"]).
  { simpl in Hin. destruct Hin as [E | [E | [E | []]]]; injection E as <- <-;
      simpl; auto. }
  assert (Hsrc' : In src census_columns) by (simpl in *; tauto).
  pose proof (ref_column_found ref src Href Hcols Hwfr Hsrc') as Hs.
  unfold merged_frame. rewrite Href. fold ix.
  apply (getitem_metric (length ix) _ (data ref) (label_y df)
           (fun s => take_fill s (map snd ix)) src dst); try assumption.
  - intros c Hc. apply in_map_iff in Hc as (c0 & <- & Hc0).
    apply (label_x_fresh census_df df Hcensus Hinput). now apply in_map.
  - intros c Hc. apply (label_y_fresh census_df df Hcensus Hinput).
    rewrite <- Hcols. now apply in_map.
  - intros c Hc. apply (label_y_value census_df df Hinput);
      [|exact Hsrc]. rewrite <- Hcols. now apply in_map.
Qed.

Hypothesis Hunique : unique (ref_column census_df false "zip_code") = true.

Lemma ref_keys_unique : unique rk = true.
Proof.
  destruct (reference_view_total census_df exclude_low_pop Hcensus)
    as (ref & Href & Hwfr & Hcols).
  pose proof (ref_column_found ref "zip_code" Href Hcols Hwfr
                ltac:(simpl; auto)) as Hrk.
  exact (reference_view_unique _ _ _ _ Hunique Href Hrk).
Qed.

(** With unique reference keys the delivered table is [joined_frame]:
    row [i] of the output is row [i] of the input. *)
Lemma merged_joined :
  merged_frame census_df df exclude_low_pop
  = joined_frame census_df df exclude_low_pop.
Proof.
  pose proof ref_keys_unique as Hu.
  unfold merged_frame, joined_frame, join_pairs. fold lk rk.
  destruct (reference_view census_df exclude_low_pop) as [ref|]; [|reflexivity].
  rewrite (indexer_left _ _ Hu), (indexer_right _ _ Hu).
  rewrite (left_join_indexer_length _ _ Hu), join_keys_length.
  f_equal. f_equal.
  - apply map_ext_in. intros c Hc. f_equal. apply take_id.
    pose proof (proj2 (input_rectangular census_df df Hinput)) as Hf.
    rewrite forallb_forall in Hf. now apply Nat.eqb_eq, Hf.
  - apply map_ext. intros c. now rewrite take_fill_lookup.
Qed.

End Joined.
(** ** The metrics *)






(** ** Metrics, population floor and missing ZIP values *)

(** C3. When the reference keys are unique, the table that comes out of the
    processing phase has exactly as many rows as the uploaded table,
    whatever the number of rows that found a reference row: its index, each
    of its columns and [total_rows] have the [N] entries of the input, and
    the same holds after the display reordering. Such a table does come
    out whenever a ZIP column is detected and the headers clash with
    nothing but the reference key. *)
Theorem merge_keeps_every_row (census_df df : frame) (exclude_low_pop : bool) :
  well_formed df = true ->
  unique (ref_column census_df false "zip_code") = true ->
  (forall o, process census_df df exclude_low_pop = Ok o ->
     index_len (final_df o) = index_len df
     /\ total_rows o = index_len df
     /\ Forall (fun c => length (snd c) = index_len df) (data (final_df o)))
  /\ (forall o, enrich census_df df exclude_low_pop = Ok o ->
       index_len (final_df o) = index_len df
       /\ total_rows o = index_len df
       /\ Forall (fun c => length (snd c) = index_len df) (data (final_df o)))
  /\ (census_ok census_df = true -> input_ok census_df df = true ->
      forall zc, find_zip_column (columns df) = Some zc ->
      exists o, process census_df df exclude_low_pop = Ok o
                /\ total_rows o = index_len df).
Proof.
  intros Hwf Hu.
  assert (P : forall o, process census_df df exclude_low_pop = Ok o ->
     index_len (final_df o) = index_len df
     /\ total_rows o = index_len df
     /\ Forall (fun c => length (snd c) = index_len df) (data (final_df o))).
  { intros o Hp.
    destruct (process_ok _ _ _ _ Hp)
      as (zc & zips & ref & rk & Hzc & Hzips & Href & Hrk & _ & Hn & Ht & Hall).
    pose proof (reference_view_unique _ _ _ _ Hu Href Hrk) as Hurk.
    rewrite (left_join_indexer_length _ _ Hurk), clean_zip_codes_length in Hn.
    apply andb_true_iff in Hwf as [_ Hlen].
    rewrite (getitem_length df zc zips Hlen Hzips) in Hn.
    repeat split; [exact Hn | congruence | now rewrite <- Hn]. }
  split; [exact P|]. split.
  - intros o' He. unfold enrich in He.
    apply bind_ok in He as (o & Hp & He).
    apply bind_ok in He as (shown & Hs & He). injection He as <-.
    destruct (P o Hp) as (R1 & R2 & R3). cbn [final_df total_rows].
    apply getitem_list_ok in Hs as [Hi Hincl].
    repeat split; try congruence.
    now apply incl_Forall with (l1 := data (final_df o)).
  - intros Hc Hi zc Hz. eexists.
    split; [apply (process_merged census_df df exclude_low_pop zc Hc Hi Hz)|].
    cbn [total_rows]. unfold join_pairs.
    rewrite (left_join_indexer_length _ _
               (ref_keys_unique census_df exclude_low_pop Hc Hu)).
    exact (join_keys_length census_df df zc Hi Hz).
Qed.

Lemma merge_keeps_every_row_witness :
  well_formed sample_df = true
  /\ unique (ref_column sample_census false "zip_code") = true
  /\ exists o, process sample_census sample_df true = Ok o
               /\ index_len (final_df o) = index_len sample_df
               /\ total_rows o = 4.
Proof.
  split; [reflexivity|]. split; [reflexivity|].
  eexists. split; [reflexivity|].
  pose proof (proj1 (merge_keeps_every_row sample_census sample_df true
                       eq_refl eq_refl) _ eq_refl) as H.
  split; [exact (proj1 H) | exact (proj1 (proj2 H))].
Defined.






Lemma mapM_cell_ge_map pop n mask :
  mapM (fun c => cell_ge c n) pop = Ok mask -> mask = map (at_least n) pop.
Proof.
  revert mask. induction pop as [|c r IH]; simpl; intros mask H.
  - now injection H as <-.
  - apply bind_ok in H as (b & Hb & H). apply bind_ok in H as (bs & Hbs & H).
    injection H as <-. unfold at_least at 1. rewrite Hb. f_equal. auto.
Qed.

Lemma existsb_select_combine {A B : Type} (f : A -> bool) (g : B -> bool)
    (vals : list B) (keys : list A) :
  existsb f (select_mask (map g vals) keys)
  = existsb (fun p => f (fst p) && g (snd p)) (combine keys vals).
Proof.
  revert keys. induction vals as [|v vs IH]; intros [|k ks]; simpl;
    try reflexivity.
  destruct (g v); simpl; rewrite IH.
  - now rewrite andb_true_r.
  - now rewrite andb_false_r.
Qed.

Lemma ref_column_unfiltered census l s :
  getitem census l = Ok s -> ref_column census false l = s.
Proof. intros H. unfold ref_column. simpl. now rewrite H. Qed.

(** The joined reference columns under the population floor. *)
Lemma ref_column_filtered census l :
  census_ok census = true -> In l census_columns ->
  ref_column census true l
  = select_mask (map (at_least 100) (ref_column census false "population"))
      (ref_column census false l).
Proof.
  intros Hc Hl.
  destruct (reference_view_total census false Hc) as (ref & Href & Hwf & Hcols).
  simpl in Href. injection Href as <-.
  pose proof (ref_column_found census false Hc census l eq_refl Hcols Hwf Hl)
    as Hs.
  pose proof (ref_column_found census false Hc census "population" eq_refl
                Hcols Hwf ltac:(simpl; auto)) as Hp.
  unfold ref_column at 1. unfold reference_view. rewrite Hp. cbn [bind].
  destruct (mapM (fun c => cell_ge c 100) (ref_column census false "population"))
    as [mask|e] eqn:Hm.
  - apply mapM_cell_ge_map in Hm. subst mask. cbn [bind].
    rewrite getitem_filter_rows, Hs. reflexivity.
  - exfalso. unfold census_ok in Hc. apply andb_true_iff in Hc as [_ Hn].
    rewrite Hp in Hn. destruct (mapM_cell_ge _ 100%Z Hn) as [mask Hmask].
    congruence.
Qed.

Lemma row_pairs_no_match rk i k :
  has_match rk k = false -> row_pairs rk (i, k) = [(i, None)].
Proof.
  intros H. unfold row_pairs. simpl. now rewrite (positions_none k rk 0 H).
Qed.

Lemma positions_head k rk from j js :
  positions k rk from = j :: js ->
  from <= j /\ nth_error rk (j - from) = Some k.
Proof.
  revert from. induction rk as [|k' r IH]; intros from; simpl; [discriminate|].
  destruct (cell_eqb k k') eqn:E.
  - intros H. injection H as <- _. rewrite Nat.sub_diag. simpl.
    apply cell_eqb_eq in E. subst. split; [lia | reflexivity].
  - intros H. apply IH in H as [H1 H2]. split; [lia|].
    replace (j - from) with (S (j - S from)) by lia. exact H2.
Qed.

Lemma row_pairs_match rk i k :
  has_match rk k = true ->
  exists j js, row_pairs rk (i, k) = (i, Some j) :: js
               /\ nth_error rk j = Some k.
Proof.
  intros H. unfold row_pairs. simpl.
  pose proof (positions_some k rk 0 H) as Hn.
  destruct (positions k rk 0) as [|j js] eqn:E; [congruence|].
  apply positions_head in E as [_ E]. rewrite Nat.sub_0_r in E.
  exists j, (map (fun j => (i, Some j)) js). now split.
Qed.

(** C8. With [exclude_low_pop] on, the reference rows that can match are
    exactly those whose population is at least 100: an input row whose key
    only has a reference row below 100 is paired with no reference row.
    With the flag off every reference row can match. On the one-row
    reference table with key [00501] and population 50 and the upload
    holding [00501], the row is unmatched with the flag on and matched with
    the flag off. *)
Theorem population_floor (census_df df : frame) (zc : string) :
  census_ok census_df = true ->
  input_ok census_df df = true ->
  find_zip_column (columns df) = Some zc ->
  let keys := ref_column census_df false "zip_code" in
  let pops := ref_column census_df false "population" in
  (exists o, process census_df df true = Ok o
             /\ final_df o = merged_frame census_df df true)
  /\ (exists o, process census_df df false = Ok o
                /\ final_df o = merged_frame census_df df false)
  /\ (forall k, has_match (ref_column census_df true "zip_code") k
                = has_populous_match keys pops k)
  /\ (forall i k, has_populous_match keys pops k = false ->
        row_pairs (ref_column census_df true "zip_code") (i, k) = [(i, None)])
  /\ (forall i k, has_match keys k = true ->
        exists j js, row_pairs keys (i, k) = (i, Some j) :: js
                     /\ nth_error keys j = Some k)
  /\ (exists o, process small_census small_df true = Ok o
                /\ matched_rows o = 0
                /\ getitem (final_df o) "Zip population" = Ok [CNaN])
  /\ (exists o, process small_census small_df false = Ok o
                /\ matched_rows o = 1
                /\ getitem (final_df o) "Zip population" = Ok [CInt 50]).
Proof.
  intros Hc Hi Hz keys pops.
  assert (M : forall k, has_match (ref_column census_df true "zip_code") k
                        = has_populous_match keys pops k).
  { intros k. unfold has_match, has_populous_match.
    rewrite (ref_column_filtered census_df "zip_code" Hc ltac:(simpl; auto)).
    apply existsb_select_combine. }
  split; [|split; [|split; [|split; [|split; [|split]]]]].
  - eexists. split; [apply (process_merged census_df df true zc Hc Hi Hz)|].
    reflexivity.
  - eexists. split; [apply (process_merged census_df df false zc Hc Hi Hz)|].
    reflexivity.
  - exact M.
  - intros i k H. apply row_pairs_no_match. now rewrite M.
  - intros i k H. now apply row_pairs_match.
  - eexists. split; [reflexivity|]. split; reflexivity.
  - eexists. split; [reflexivity|]. split; reflexivity.
Qed.

Lemma population_floor_witness :
  census_ok sample_census = true
  /\ input_ok sample_census sample_df = true
  /\ has_match (ref_column sample_census true "zip_code") (CStr "00501")
     = has_populous_match (ref_column sample_census false "zip_code")
         (ref_column sample_census false "population") (CStr "00501")
  /\ row_pairs (ref_column sample_census true "zip_code") (1, CStr "00501")
     = [(1, None)].
Proof.
  split; [reflexivity|]. split; [reflexivity|].
  pose proof (population_floor sample_census sample_df "zip"
                eq_refl eq_refl eq_refl) as H.
  cbv zeta in H. destruct H as (_ & _ & H3 & H4 & _).
  split; [apply H3 | apply H4; reflexivity].
Defined.

Lemma join_pairs_empty census df flag :
  join_keys df = [] -> join_pairs census df flag = [].
Proof. intros H. unfold join_pairs. now rewrite H. Qed.








(** ** The display order *)

Lemma remove_first_absent c cols : ~ In c cols -> remove_first c cols = cols.
Proof.
  induction cols as [|x r IH]; simpl; [reflexivity|].
  intros H. destruct (String.eqb_spec x c) as [E|N].
  - exfalso. apply H. now left.
  - f_equal. apply IH. intros C. apply H. now right.
Qed.

Lemma remove_guard c cols :
  (if mem c cols then remove_first c cols else cols) = remove_first c cols.
Proof.
  destruct (mem c cols) eqn:M; [reflexivity|].
  symmetry. now apply remove_first_absent, mem_false.
Qed.

Lemma remove_first_app_r c A B :
  ~ In c A -> remove_first c (A ++ B) = A ++ remove_first c B.
Proof.
  induction A as [|x r IH]; simpl; [reflexivity|].
  intros H. destruct (String.eqb_spec x c) as [E|N].
  - exfalso. apply H. now left.
  - f_equal. apply IH. intros C. apply H. now right.
Qed.

Lemma remove_first_app_l c A B :
  In c A -> remove_first c (A ++ B) = remove_first c A ++ B.
Proof.
  induction A as [|x r IH]; simpl; [easy|].
  intros H. destruct (String.eqb_spec x c) as [E|N]; [reflexivity|].
  destruct H as [H|H]; [contradiction|]. simpl. f_equal. auto.
Qed.

Lemma remove_first_nodup c B :
  NoDup B -> remove_first c B = filter (fun l => negb (String.eqb l c)) B.
Proof.
  induction B as [|x r IH]; simpl; [reflexivity|].
  intros H. inversion H as [|? ? Hx Hr]; subst.
  destruct (String.eqb_spec x c) as [E|N]; simpl.
  - subst x. symmetry. apply filter_all. intros l Hl.
    apply negb_true_iff, String.eqb_neq. intros ->. contradiction.
  - f_equal. auto.
Qed.

(** The three removals of the metric labels and the removal of the ZIP
    label, on the columns of a table without label clashes. *)
Lemma display_order_split zc A B :
  In zc A -> NoDup B ->
  (forall l, In l A -> ~ In l metric_cols) ->
  display_order zc (A ++ B)
  = zc :: metric_cols
       ++ remove_first zc A
       ++ filter (fun l => negb (mem l metric_cols)) B.
Proof.
  intros Hz HB HA. unfold display_order.
  change (metric_cols ++ [zc])
    with ["Estimated household income"; "Median age"; "Zip population"; zc].
  cbn [fold_left]. rewrite !remove_guard.
  change ([zc] ++ metric_cols ++ ?x) with (zc :: metric_cols ++ x).
  do 2 f_equal.
  assert (N1 : ~ In "Estimated household income" A)
    by (intros C; apply (HA _ C); simpl; auto).
  assert (N2 : ~ In "Median age" A)
    by (intros C; apply (HA _ C); simpl; auto).
  assert (N3 : ~ In "Zip population" A)
    by (intros C; apply (HA _ C); simpl; auto).
  rewrite (remove_first_app_r _ A B N1).
  rewrite (remove_first_app_r _ A _ N2).
  rewrite (remove_first_app_r _ A _ N3).
  rewrite (remove_first_app_l zc A _ Hz). f_equal.
  rewrite (remove_first_nodup _ B HB).
  rewrite (remove_first_nodup _ _ (NoDup_filter _ HB)).
  rewrite (remove_first_nodup _ _ (NoDup_filter _ (NoDup_filter _ HB))).
  rewrite !filter_twice. apply filter_ext. intros l.
  unfold mem, metric_cols. cbn [existsb].
  destruct (String.eqb l "Estimated household income");
    destruct (String.eqb l "Median age");
    destruct (String.eqb l "Zip population"); reflexivity.
Qed.

Lemma mapM_singletons (d : list (string * series)) labels :
  nodupb (map fst d) = true -> incl labels (map fst d) ->
  exists cols,
    mapM (fun l => match filter (fun c => String.eqb (fst c) l) d with
                   | [] => Raise (KeyError l)
                   | cs => Ok cs
                   end) labels = Ok cols
    /\ map fst (concat cols) = labels.
Proof.
  intros Hn. induction labels as [|l r IH]; intros Hi.
  - exists []. now split.
  - destruct IH as (cols & Hc & Hl).
    { intros x Hx. apply Hi. now right. }
    assert (Hin : In l (map fst d)) by (apply Hi; now left).
    apply in_map_iff in Hin as ([l' s] & E & Hin). simpl in E. subst l'.
    exists ([(l, s)] :: cols). cbn [mapM].
    rewrite (filter_label_nodup d l s Hn Hin). cbn [bind]. rewrite Hc.
    cbn [bind]. split; [reflexivity|]. simpl. now rewrite Hl.
Qed.

Lemma getitem_list_nodup df labels :
  nodupb (columns df) = true -> incl labels (columns df) ->
  exists shown, getitem_list df labels = Ok shown
                /\ columns shown = labels
                /\ index_len shown = index_len df.
Proof.
  intros Hn Hi. destruct (mapM_singletons (data df) labels Hn Hi)
    as (cols & Hc & Hl).
  exists (Frame (index_len df) (concat cols)). unfold getitem_list.
  rewrite Hc. cbn [bind]. now repeat split.
Qed.

Ltac label_cases_in H :=
  repeat match type of H with
         | context [if String.eqb ?a ?b then _ else _] =>
             destruct (String.eqb_spec a b)
         end.

Lemma own_labels_ne l :
  ~ In l own_labels ->
  l <> "__join_zip" /\ l <> "Estimated household income"
  /\ l <> "Median age" /\ l <> "Zip population".
Proof.
  intros H. repeat split; intros ->; apply H; simpl; auto 6.
Qed.

Lemma rename_label_inj l l' :
  ~ In l own_labels -> ~ In l' own_labels ->
  rename_label metric_renames l = rename_label metric_renames l' -> l = l'.
Proof.
  intros Hl Hl' H. apply own_labels_ne in Hl as (_ & A1 & A2 & A3).
  apply own_labels_ne in Hl' as (_ & B1 & B2 & B3).
  rewrite !rename_label_metric in H. label_cases_in H; congruence.
Qed.

Lemma rename_label_range l :
  rename_label metric_renames l = l
  \/ In (rename_label metric_renames l) metric_cols.
Proof.
  rewrite rename_label_metric.
  destruct (String.eqb "median_income" l); [right; simpl; auto|].
  destruct (String.eqb "median_age" l); [right; simpl; auto|].
  destruct (String.eqb "population" l); [right; simpl; auto|]. now left.
Qed.

Lemma rename_label_extra l :
  ~ In l own_labels ->
  negb (String.eqb l "zip_code")
  && negb (mem (rename_label metric_renames l) metric_cols)
  = negb (mem l census_columns).
Proof.
  intros H. apply own_labels_ne in H as (_ & A1 & A2 & A3).
  rewrite rename_label_metric. unfold mem, metric_cols, census_columns.
  cbn [existsb]. label_cases.
Qed.

Lemma NoDup_nodupb l : NoDup l -> nodupb l = true.
Proof.
  induction 1 as [|x r Hx Hr IH]; simpl; [reflexivity|].
  rewrite IH, andb_true_r. now apply negb_true_iff, mem_false.
Qed.

Lemma remove_first_incl c cols : incl (remove_first c cols) cols.
Proof.
  induction cols as [|x r IH]; simpl; [easy|].
  destruct (String.eqb x c); intros y Hy; [now right|].
  destruct Hy as [<- | Hy]; [now left | right; now apply IH].
Qed.

Section Display.

Variables census_df df : frame.
Variable exclude_low_pop : bool.
Variable zc : string.
Hypothesis Hcensus : census_ok census_df = true.
Hypothesis Hinput : input_ok census_df df = true.
Hypothesis Hzc : find_zip_column (columns df) = Some zc.
Hypothesis Hplain : mem "zip_code" (columns df) = false.

Let B := map (rename_label metric_renames) (census_values census_df).

Lemma merged_columns :
  columns (merged_frame census_df df exclude_low_pop) = columns df ++ B.
Proof.
  destruct (reference_view_total census_df exclude_low_pop Hcensus)
    as (ref & Href & _ & Hcols).
  assert (EY : forall c, In c (data ref) -> label_y df (fst c) = fst c).
  { intros c Hc. rewrite (label_y_census census_df df Hinput).
    - now rewrite Hplain, andb_false_r.
    - rewrite <- Hcols. now apply in_map. }
  unfold merged_frame. rewrite Href. unfold columns. cbn [data].
  rewrite map_app, !map_map. cbn [fst]. f_equal.
  - apply map_ext_in. intros c Hc.
    assert (Hl : In (fst c) (columns df)) by now apply in_map.
    rewrite (label_x_input census_df df Hcensus Hinput _ Hl).
    destruct (String.eqb_spec (fst c) "zip_code") as [E|N]; [|reflexivity].
    exfalso. apply mem_false in Hplain. apply Hplain. now rewrite <- E.
  - unfold B, census_values. rewrite <- Hcols. unfold columns.
    rewrite filter_map_comm, map_map.
    rewrite (filter_ext_in (kept df)
               (fun c : string * series => negb (String.eqb (fst c) "zip_code"))).
    + apply map_ext_in. intros c Hc. apply filter_In in Hc as [Hc _].
      unfold out_label. now rewrite (EY c Hc).
    + intros c Hc. unfold kept. now rewrite (EY c Hc).
Qed.

Lemma renamed_nodup : NoDup B.
Proof.
  unfold B, census_values. apply NoDup_map_NoDup_ForallPairs.
  - intros l l' Hl Hl'. apply filter_In in Hl as [Hl _].
    apply filter_In in Hl' as [Hl' _].
    apply rename_label_inj;
      [exact (proj1 (census_fresh census_df Hcensus l Hl))
      |exact (proj1 (census_fresh census_df Hcensus l' Hl'))].
  - apply NoDup_filter, (census_labels_nodup census_df Hcensus).
Qed.

Lemma renamed_metric l : In l metric_cols -> In l B.
Proof.
  intros Hl. unfold B.
  assert (H : exists src, In src census_columns /\ src <> "zip_code"
                          /\ rename_label metric_renames src = l).
  { simpl in Hl. destruct Hl as [<- | [<- | [<- | []]]].
    - exists "median_income". repeat split; simpl; auto. discriminate.
    - exists "median_age". repeat split; simpl; auto. discriminate.
    - exists "population". repeat split; simpl; auto. discriminate. }
  destruct H as (src & Hs & Hn & <-). unfold census_values.
  apply in_map, filter_In. split.
  - now apply (census_has census_df).
  - now apply negb_true_iff, String.eqb_neq.
Qed.

Lemma input_renamed_disjoint l : In l (columns df) -> ~ In l B.
Proof.
  intros Hl C. destruct (input_fresh census_df df Hinput l Hl) as (Ho & _ & Hc).
  unfold B, census_values in C. apply in_map_iff in C as (l0 & E & Hl0).
  apply filter_In in Hl0 as [Hl0 Hz]. apply negb_true_iff, String.eqb_neq in Hz.
  destruct (rename_label_range l0) as [R | R]; rewrite E in R.
  - subst l0. apply Hz. now apply Hc.
  - apply Ho. simpl. now right.
Qed.

Lemma renamed_extra :
  filter (fun l => negb (mem l metric_cols)) B = extra_columns census_df.
Proof.
  unfold B, census_values, extra_columns.
  rewrite filter_map_comm, filter_twice.
  rewrite (filter_ext_in _ (fun l => negb (mem l census_columns))).
  - transitivity (map (fun l : string => l)
                    (filter (fun l => negb (mem l census_columns))
                       (columns census_df))); [|apply map_id].
    apply map_ext_in. intros l Hl. apply filter_In in Hl as [_ Hl].
    apply rename_label_other. apply negb_true_iff, mem_false in Hl.
    intros C. apply Hl. unfold census_columns. simpl in *. tauto.
  - intros l Hl. apply rename_label_extra.
    exact (proj1 (census_fresh census_df Hcensus l Hl)).
Qed.

(** On a table whose headers clash with nothing the run is completed, and
    the columns shown are the ZIP column, the three demographic columns,
    the other uploaded columns in their order, and the reference columns
    the code does not read. *)
Lemma enrich_columns :
  exists o shown,
    process census_df df exclude_low_pop = Ok o
    /\ enrich census_df df exclude_low_pop
       = Ok (Outcome shown zc (total_rows o) (matched_rows o) (match_rate o))
    /\ index_len shown = index_len (final_df o)
    /\ columns shown
       = zc :: metric_cols ++ remove_first zc (columns df)
            ++ extra_columns census_df.
Proof.
  pose proof (process_merged census_df df exclude_low_pop zc
                Hcensus Hinput Hzc) as Hp.
  pose proof (find_zip_column_In _ _ Hzc) as Hin.
  assert (HA : forall l, In l (columns df) -> ~ In l metric_cols).
  { intros l Hl C. apply (proj1 (input_fresh census_df df Hinput l Hl)).
    simpl. now right. }
  pose proof (display_order_split zc (columns df) B Hin renamed_nodup HA) as Hd.
  rewrite renamed_extra in Hd.
  assert (Hn : nodupb (columns (merged_frame census_df df exclude_low_pop))
               = true).
  { rewrite merged_columns. apply NoDup_nodupb, NoDup_append.
    - apply nodupb_NoDup.
      exact (proj1 (input_rectangular census_df df Hinput)).
    - exact renamed_nodup.
    - exact input_renamed_disjoint. }
  destruct (getitem_list_nodup (merged_frame census_df df exclude_low_pop)
              (display_order zc (columns df ++ B)) Hn)
    as (shown & Hs & Hc & Hl).
  { rewrite merged_columns, Hd. intros l [<- | Hl].
    - apply in_or_app. now left.
    - apply in_app_or in Hl as [Hl | Hl].
      + apply in_or_app. right. now apply renamed_metric.
      + apply in_app_or in Hl as [Hl | Hl].
        * apply in_or_app. left. now apply (remove_first_incl zc).
        * apply in_or_app. right. rewrite <- renamed_extra in Hl.
          apply filter_In in Hl. exact (proj1 Hl). }
  eexists. exists shown. split; [exact Hp|]. unfold enrich. rewrite Hp.
  cbn [bind final_df zip_col total_rows matched_rows match_rate].
  rewrite merged_columns, Hs. cbn [bind]. repeat split; try assumption.
  now rewrite Hc.
Qed.

End Display.

(** The spec's column ordering scenario, with the sample tables. *)
Example display_order_scenario :
  exists o, enrich sample_census sample_df true = Ok o
            /\ columns (final_df o)
               = ["zip"; "Estimated household income"; "Median age";
                  "Zip population"; "customer_id"; "email"].
Proof. eexists. split; reflexivity. Qed.

(** C5. The ordering fails on the header the instructions of the app ask
    for. When the detected ZIP column is called [zip_code], the merge
    renames it to [zip_code_x] and the reference key to [zip_code_y]: the
    processing phase succeeds, its table still has the reference key
    column and has no [zip_code] column, and the reordering
    [final_df[display_order]] raises [KeyError: zip_code], so no ordered
    table is produced. *)
Theorem zip_code_header_breaks_display (census_df df : frame)
    (exclude_low_pop : bool) :
  census_ok census_df = true ->
  input_ok census_df df = true ->
  find_zip_column (columns df) = Some "zip_code" ->
  enrich census_df df exclude_low_pop = Raise (KeyError "zip_code")
  /\ exists o, process census_df df exclude_low_pop = Ok o
               /\ In "zip_code_y" (columns (final_df o))
               /\ ~ In "zip_code" (columns (final_df o)).
Proof.
  intros Hc Hi Hz.
  pose proof (process_merged census_df df exclude_low_pop "zip_code" Hc Hi Hz)
    as Hp.
  pose proof (find_zip_column_In _ _ Hz) as Hin.
  destruct (reference_view_total census_df exclude_low_pop Hc)
    as (ref & Href & Hwfr & Hcols).
  assert (N : forall c, In c (data (merged_frame census_df df exclude_low_pop))
                        -> fst c <> "zip_code").
  { unfold merged_frame. rewrite Href. cbn [data]. intros c Hcd.
    apply in_app_or in Hcd as [Hcd | Hcd];
      apply in_map_iff in Hcd as (c0 & <- & Hc0); cbn [fst].
    - intros E. apply (proj2 (label_x_fresh census_df df Hc Hi (fst c0)
                                (in_map fst _ _ Hc0))).
      rewrite E. simpl. auto.
    - apply filter_In in Hc0 as [Hc0 Hk]. unfold kept in Hk.
      assert (Hl : In (fst c0) (columns census_df))
        by (rewrite <- Hcols; now apply in_map).
      pose proof (rename_label_zip _ (label_y_fresh census_df df Hc Hi _ Hl))
        as Hr.
      apply negb_true_iff in Hk. rewrite Hk in Hr. intros E.
      unfold out_label in E. rewrite E in Hr. discriminate. }
  split.
  - unfold enrich. rewrite Hp. cbn [bind final_df zip_col].
    unfold getitem_list, display_order.
    match goal with
    | |- context [mapM ?f ([?z] ++ ?l)] =>
        change (mapM f ([z] ++ l))
          with (b <- f z ;; bs <- mapM f l ;; Ok (b :: bs))
    end.
    cbv beta. rewrite (filter_none _ (data (merged_frame _ _ _)));
      [reflexivity|].
    intros c Hcd. apply String.eqb_neq. now apply N.
  - eexists. split; [exact Hp|]. cbn [final_df]. split.
    + pose proof (ref_column_found census_df exclude_low_pop Hc ref "zip_code"
                    Href Hcols Hwfr ltac:(simpl; auto)) as Hrk.
      apply getitem_In in Hrk.
      unfold merged_frame, columns. rewrite Href. cbn [data].
      rewrite map_app. apply in_or_app. right. rewrite map_map.
      apply in_map_iff. exists ("zip_code", ref_column census_df exclude_low_pop "zip_code").
      assert (Ey : label_y df "zip_code" = "zip_code_y").
      { unfold label_y. now rewrite (proj2 (mem_In _ _) Hin). }
      split.
      * cbn [fst]. unfold out_label. now rewrite Ey.
      * apply filter_In. split; [exact Hrk|]. unfold kept. cbn [fst].
        now rewrite Ey.
    + intros C. unfold columns in C. apply in_map_iff in C as (c & E & Hcd).
      exact (N c Hcd E).
Qed.

Lemma zip_code_header_breaks_display_witness :
  enrich sample_census sample_df_zip_code true = Raise (KeyError "zip_code").
Proof.
  apply (zip_code_header_breaks_display sample_census sample_df_zip_code true);
    reflexivity.
Defined.

(** C9. An upload without rows whose headers hold a detectable ZIP column
    is processed without an exception: [total_rows] is 0, [matched_rows]
    is 0, [match_rate] is 0, and the table delivered has no row. Unless
    the upload has a [zip_code] header of its own, the display reordering
    goes through as well and hands on a table without rows. *)
Theorem empty_input_is_processed (census_df df : frame)
    (exclude_low_pop : bool) (zc : string) :
  census_ok census_df = true ->
  input_ok census_df df = true ->
  find_zip_column (columns df) = Some zc ->
  index_len df = 0 ->
  exists o,
    process census_df df exclude_low_pop = Ok o
    /\ total_rows o = 0
    /\ matched_rows o = 0
    /\ match_rate o = 0%Q
    /\ index_len (final_df o) = 0
    /\ Forall (fun c => snd c = []) (data (final_df o))
    /\ (mem "zip_code" (columns df) = false ->
        exists shown,
          enrich census_df df exclude_low_pop
          = Ok (Outcome shown zc 0 0 0%Q)
          /\ index_len shown = 0
          /\ Forall (fun c => snd c = []) (data shown)).
Proof.
  intros Hc Hi Hz Hn.
  pose proof (process_merged census_df df exclude_low_pop zc Hc Hi Hz) as Hp.
  pose proof (join_keys_length census_df df zc Hi Hz) as Hlen.
  rewrite Hn in Hlen. apply length_zero_iff_nil in Hlen.
  pose proof (join_pairs_empty census_df df exclude_low_pop Hlen) as Hix.
  rewrite Hix in Hp.
  cbn [length map take_fill take_opt filter existsb andb] in Hp.
  assert (HF : index_len (merged_frame census_df df exclude_low_pop) = 0
               /\ Forall (fun c : string * series => snd c = [])
                    (data (merged_frame census_df df exclude_low_pop))).
  { unfold merged_frame. rewrite Hix.
    destruct (reference_view_total census_df exclude_low_pop Hc)
      as (ref & Href & _ & _).
    rewrite Href. cbn [index_len data length map]. split; [reflexivity|].
    apply Forall_app. split; apply Forall_map, Forall_forall;
      intros c _; reflexivity. }
  destruct HF as [HF1 HF2].
  eexists. split; [exact Hp|].
  cbn [total_rows matched_rows match_rate final_df].
  repeat split; try assumption.
  intros Hplain.
  destruct (enrich_columns census_df df exclude_low_pop zc Hc Hi Hz Hplain)
    as (o & shown & Ho & He & Hl & _).
  rewrite Hp in Ho. injection Ho as <-.
  cbn [total_rows matched_rows match_rate final_df] in He, Hl.
  exists shown. split; [exact He|]. split; [congruence|].
  unfold enrich in He. rewrite Hp in He.
  cbn [bind final_df zip_col] in He.
  apply bind_ok in He as (shown' & Hs & He). injection He as <-.
  apply getitem_list_ok in Hs as [_ Hincl].
  now apply incl_Forall with (l1 := data (merged_frame census_df df exclude_low_pop)).
Qed.

Lemma empty_input_is_processed_witness :
  census_ok sample_census = true
  /\ input_ok sample_census empty_df = true
  /\ find_zip_column (columns empty_df) = Some "zip"
  /\ exists o, process sample_census empty_df true = Ok o
               /\ total_rows o = 0 /\ matched_rows o = 0
               /\ match_rate o = 0%Q.
Proof.
  split; [reflexivity|]. split; [reflexivity|]. split; [reflexivity|].
  destruct (empty_input_is_processed sample_census empty_df true "zip"
              eq_refl eq_refl eq_refl eq_refl)
    as (o & H1 & H2 & H3 & H4 & _).
  exists o. auto.
Defined.

(** ** More about the string helpers *)

Lemma append_assoc (a b c : string) : ((a ++ b) ++ c = a ++ (b ++ c))%string.
Proof. induction a as [|x r IH]; simpl; [reflexivity|]. now rewrite IH. Qed.

Lemma append_nil_r (a : string) : (a ++ "")%string = a.
Proof. induction a as [|x r IH]; simpl; [reflexivity|]. now rewrite IH. Qed.

Lemma prefix_app p s : prefix p s = true <-> exists b, s = (p ++ b)%string.
Proof.
  revert s. induction p as [|x r IH]; intros s.
  - split; [intros _; now exists s | intros _; now destruct s].
  - destruct s as [|y t]; simpl;
      [split; [discriminate | intros [b H]; discriminate]|].
    destruct (ascii_dec x y) as [E|N].
    + subst y. rewrite IH. split; intros [b H]; exists b.
      * now rewrite H.
      * now injection H.
    + split; [discriminate|]. intros [b H]. injection H as H1 _. congruence.
Qed.

Lemma contains_app sub s :
  contains sub s = true <-> exists a b, s = (a ++ sub ++ b)%string.
Proof.
  induction s as [|y t IH].
  - cbn [contains]. rewrite prefix_app. split.
    + intros [b H]. exists "", b. exact H.
    + intros (a & b & H). destruct a; simpl in H; [now exists b | discriminate].
  - cbn [contains]. rewrite orb_true_iff, prefix_app, IH. split.
    + intros [[b H] | (a & b & H)].
      * exists "", b. exact H.
      * exists (String y a), b. simpl. now rewrite H.
    + intros (a & b & H). destruct a as [|x a]; simpl in H.
      * left. now exists b.
      * right. injection H as _ H. now exists a, b.
Qed.

Lemma contains_trans a b s :
  contains a b = true -> contains b s = true -> contains a s = true.
Proof.
  rewrite !contains_app. intros (p & q & ->) (p' & q' & ->).
  exists (p' ++ p)%string, (q ++ q')%string.
  now rewrite !append_assoc.
Qed.

Lemma lstrip_split s :
  exists a, blank a = true /\ s = (a ++ lstrip s)%string.
Proof.
  induction s as [|x r (a & Ha & E)]; simpl.
  - now exists "".
  - destruct (is_space x) eqn:Ex.
    + exists (String x a). split.
      * unfold blank in *. simpl. now rewrite Ex.
      * simpl. now rewrite <- E.
    + now exists "".
Qed.

Lemma rstrip_split s :
  exists b, blank b = true /\ s = (rstrip s ++ b)%string.
Proof.
  induction s as [|x r (b & Hb & E)]; simpl.
  - now exists "".
  - destruct (rstrip r) as [|y t] eqn:R.
    + cbn [append] in E. destruct (is_space x) eqn:Ex.
      * exists (String x b). split.
        -- unfold blank in *. simpl. now rewrite Ex.
        -- cbn [append]. congruence.
      * exists b. split; [exact Hb|]. cbn [append]. congruence.
    + exists b. split; [exact Hb|]. cbn [append] in *. congruence.
Qed.

Lemma strip_contained s : contains (strip s) s = true.
Proof.
  apply contains_app. destruct (lstrip_split s) as (a & _ & Ea).
  destruct (rstrip_split (lstrip s)) as (b & _ & Eb).
  exists a, b. unfold strip. now rewrite <- Eb.
Qed.

Lemma blank_cons c s : blank (String c s) = is_space c && blank s.
Proof. reflexivity. Qed.

Lemma lstrip_blank_app a s : blank a = true -> lstrip (a ++ s) = lstrip s.
Proof.
  induction a as [|x r IH]; simpl; [reflexivity|].
  rewrite blank_cons. intros H. apply andb_true_iff in H as [Hx Hr].
  rewrite Hx. auto.
Qed.

Lemma rstrip_blank b : blank b = true -> rstrip b = "".
Proof.
  induction b as [|x r IH]; simpl; [reflexivity|].
  rewrite blank_cons. intros H. apply andb_true_iff in H as [Hx Hr].
  now rewrite (IH Hr), Hx.
Qed.

Lemma rstrip_app_blank s b : blank b = true -> rstrip (s ++ b) = rstrip s.
Proof.
  intros Hb. induction s as [|x r IH]; simpl.
  - now apply rstrip_blank.
  - now rewrite IH.
Qed.

Lemma strip_app_blank s b : blank b = true -> strip (s ++ b) = strip s.
Proof.
  intros Hb. unfold strip. induction s as [|x r IH]; simpl.
  - rewrite (lstrip_blank_app b "" Hb) || idtac.
    assert (E : lstrip b = "").
    { clear -Hb. induction b as [|y t IH]; simpl; [reflexivity|].
      rewrite blank_cons in Hb. apply andb_true_iff in Hb as [Hy Ht].
      rewrite Hy. auto. }
    now rewrite E.
  - destruct (is_space x); [exact IH|].
    change (String x (r ++ b)) with (String x r ++ b)%string.
    now apply rstrip_app_blank.
Qed.

Lemma strip_blank_app a s : blank a = true -> strip (a ++ s) = strip s.
Proof. intros Ha. unfold strip. now rewrite lstrip_blank_app. Qed.

Lemma split_first_app_sep c s t :
  split_first c (s ++ String c t)%string = split_first c s.
Proof.
  induction s as [|x r IH]; simpl.
  - now rewrite Ascii.eqb_refl.
  - destruct (Ascii.eqb x c); [reflexivity|]. now rewrite IH.
Qed.

Lemma split_first_app c s t :
  split_first c (s ++ t)%string
  = if has_char c s then split_first c s else (s ++ split_first c t)%string.
Proof.
  induction s as [|x r IH]; simpl; [reflexivity|].
  destruct (Ascii.eqb x c); simpl; [reflexivity|]. rewrite IH.
  now destruct (has_char c r).
Qed.

Lemma blank_free c a :
  is_space c = false -> blank a = true -> has_char c a = false.
Proof.
  intros Hc. induction a as [|x r IH]; simpl; [reflexivity|].
  rewrite blank_cons. intros H. apply andb_true_iff in H as [Hx Hr].
  rewrite (IH Hr), orb_false_r. apply Ascii.eqb_neq. intros ->. congruence.
Qed.

Lemma split_first_blank c b :
  is_space c = false -> blank b = true -> split_first c b = b.
Proof. intros Hc Hb. apply split_first_id. now apply blank_free. Qed.

Lemma blank_app a b : blank a = true -> blank b = true -> blank (a ++ b) = true.
Proof.
  intros Ha Hb. induction a as [|x r IH]; simpl; [exact Hb|].
  rewrite blank_cons in *. apply andb_true_iff in Ha as [Hx Hr].
  now rewrite Hx, IH.
Qed.

(** ** More about the ZIP clean-up *)

Lemma clean_zip_code_dot (s t : string) :
  clean_zip_code (s ++ String "." t) = clean_zip_code s.
Proof. unfold clean_zip_code. now rewrite split_first_app_sep. Qed.

(** X1. Whatever follows the first [.] or the first [-] of a ZIP value has
    no influence on its join key: a ZIP+4 suffix and the fractional digits
    of a number read as a float are dropped. *)
Theorem clean_zip_code_ignores_what_follows (s t : string) :
  clean_zip_code (s ++ String "." t) = clean_zip_code s
  /\ clean_zip_code (s ++ String "-" t) = clean_zip_code s.
Proof.
  split; [apply clean_zip_code_dot|]. unfold clean_zip_code.
  rewrite split_first_app. destruct (has_char "." s) eqn:E; [reflexivity|].
  rewrite (split_first_id "." s E).
  change (split_first "." (String "-" t))
    with (String "-" (split_first "." t)).
  now rewrite split_first_app_sep.
Qed.

(** X2. White space around a ZIP value has no influence on its join
    key. *)
Theorem clean_zip_code_ignores_blanks (a s b : string) :
  blank a = true -> blank b = true ->
  clean_zip_code (a ++ s ++ b) = clean_zip_code s.
Proof.
  intros Ha Hb. unfold clean_zip_code. f_equal.
  assert (S : forall c, is_space c = false ->
            forall x, split_first c (a ++ x) = (a ++ split_first c x)%string).
  { intros c Hc x. rewrite split_first_app.
    now rewrite (blank_free c a Hc Ha). }
  rewrite (S "."%char eq_refl), (S "-"%char eq_refl), strip_blank_app by exact Ha.
  rewrite split_first_app. destruct (has_char "." s) eqn:Ed; [reflexivity|].
  rewrite (split_first_blank "." b eq_refl Hb), (split_first_id "." s Ed).
  rewrite split_first_app. destruct (has_char "-" s) eqn:Em; [reflexivity|].
  rewrite (split_first_blank "-" b eq_refl Hb), (split_first_id "-" s Em).
  now apply strip_app_blank.
Qed.

Lemma clean_zip_code_ignores_blanks_witness :
  clean_zip_code ("  " ++ "501" ++ " ") = clean_zip_code "501".
Proof. apply clean_zip_code_ignores_blanks; reflexivity. Defined.

(** X3. A join key never holds a [.] or a [-] and never starts or ends
    with white space. *)
Theorem clean_zip_code_shape (raw : string) :
  has_char "." (clean_zip_code raw) = false
  /\ has_char "-" (clean_zip_code raw) = false
  /\ strip (clean_zip_code raw) = clean_zip_code raw.
Proof.
  destruct (clean_zip_code_core_free raw) as (Hd & Hm & Ht).
  unfold clean_zip_code. repeat split.
  - now apply zfill_keeps_free.
  - now apply zfill_keeps_free.
  - apply trimmed_strip. now apply zfill_trimmed.
Qed.

Lemma digits_free c d :
  is_digit c = false -> has_char c (NilEmpty.string_of_uint d) = false.
Proof.
  intros Hc. induction d; cbn [NilEmpty.string_of_uint has_char];
    try reflexivity; rewrite IHd, orb_false_r; apply Ascii.eqb_neq;
    intros <-; discriminate.
Qed.

Lemma digits_all d :
  forallb is_digit (list_ascii_of_string (NilEmpty.string_of_uint d)) = true.
Proof. induction d; simpl; auto. Qed.

Lemma digits_rstrip d :
  rstrip (NilEmpty.string_of_uint d) = NilEmpty.string_of_uint d.
Proof.
  induction d; cbn [NilEmpty.string_of_uint]; try reflexivity;
    apply rstrip_cons; auto.
Qed.

Lemma digits_trimmed d : trimmed (NilEmpty.string_of_uint d).
Proof.
  split; [|apply digits_rstrip]. destruct d; reflexivity.
Qed.

Lemma str_of_N n :
  str_of_Z (Z.of_N n) = NilEmpty.string_of_uint (N.to_uint n)
  /\ N.to_uint n <> Nil.
Proof.
  destruct n as [|p]; [split; [reflexivity | discriminate]|].
  pose proof (Unsigned.to_uint_nonnil p) as H.
  split; [|exact H]. unfold str_of_Z. simpl.
  unfold NilZero.string_of_uint. destruct (Pos.to_uint p); congruence.
Qed.

Lemma zfill_digits w d :
  d <> Nil ->
  zfill w (NilEmpty.string_of_uint d)
  = (zeros (w - String.length (NilEmpty.string_of_uint d))
     ++ NilEmpty.string_of_uint d)%string.
Proof.
  intros Hd. unfold zfill.
  destruct (w <=? String.length (NilEmpty.string_of_uint d)) eqn:E.
  - apply Nat.leb_le in E.
    replace (w - String.length (NilEmpty.string_of_uint d)) with 0 by lia.
    reflexivity.
  - destruct d; try congruence; reflexivity.
Qed.

Lemma key_value_zeros k s : key_value (zeros k ++ s) = key_value s.
Proof.
  induction k as [|k IH]; [reflexivity|]. rewrite <- IH. unfold key_value.
  cbn [zeros append NilEmpty.uint_of_string].
  destruct (NilEmpty.uint_of_string (zeros k ++ s)); reflexivity.
Qed.

(** The key of a number is made of digits and stands for that number. *)
Lemma key_of_N n :
  let key := zfill 5 (str_of_Z (Z.of_N n)) in
  clean_zip_code (str_of_Z (Z.of_N n)) = key
  /\ forallb is_digit (list_ascii_of_string key) = true
  /\ key_value key = Some n.
Proof.
  cbv zeta. destruct (str_of_N n) as [E Hn]. rewrite E.
  set (d := N.to_uint n) in *.
  assert (C : clean_zip_code (NilEmpty.string_of_uint d)
              = zfill 5 (NilEmpty.string_of_uint d)).
  { unfold clean_zip_code.
    rewrite (split_first_id "." _ (digits_free "." d eq_refl)).
    rewrite (split_first_id "-" _ (digits_free "-" d eq_refl)).
    now rewrite (trimmed_strip _ (digits_trimmed d)). }
  split; [exact C|]. rewrite (zfill_digits 5 d Hn). split.
  - generalize (5 - String.length (NilEmpty.string_of_uint d)) as k.
    induction k as [|k IH]; [apply digits_all | exact IH].
  - rewrite key_value_zeros. unfold key_value. rewrite NilEmpty.usu.
    simpl. f_equal. apply Unsigned.of_to.
Qed.

(** X4. A ZIP read as a non-negative whole number gets a key made of
    digits from which the number can be read back, so that different
    numbers get different keys; the reference loader and the clean-up of
    the upload give it the same key. A float cell which Python prints
    without an exponent (zero, or from [1e-4] up and below [1e16]) gets
    the key of its integer part; one printed with an exponent does not:
    [1e+16] gets the key [1e+16] and [1e-05] the key [0001e]. *)
Theorem numeric_zip_keys (n m : N) (frac : uint) :
  let key := clean_zip_code (astype_str (CInt (Z.of_N n))) in
  load_zip_code (CInt (Z.of_N n)) = key
  /\ (exponent_form (PyFloat false n frac) = false ->
      clean_zip_code (astype_str (CFloat (PyFloat false n frac))) = key)
  /\ all_digits (CStr key) = true
  /\ 5 <= String.length key
  /\ key_value key = Some n
  /\ (clean_zip_code (astype_str (CInt (Z.of_N m))) = key -> m = n)
  /\ astype_str (fl (10 ^ 16) (D0 Nil)) = "1e+16"
  /\ clean_zip_code (astype_str (fl (10 ^ 16) (D0 Nil))) = "1e+16"
  /\ astype_str (fl 0 (D0 (D0 (D0 (D0 (D1 Nil)))))) = "1e-05"
  /\ clean_zip_code (astype_str (fl 0 (D0 (D0 (D0 (D0 (D1 Nil))))))) = "0001e".
Proof.
  cbv zeta. cbn [astype_str].
  destruct (key_of_N n) as (C & D & V). cbv zeta in *.
  assert (F : exponent_form (PyFloat false n frac) = false ->
              clean_zip_code (float_str (PyFloat false n frac))
              = clean_zip_code (str_of_Z (Z.of_N n))).
  { intros Hx. unfold float_str. rewrite Hx. unfold int_digits.
    cbn [f_neg f_int f_frac append].
    destruct (str_of_N n) as [E Hn]. rewrite E.
    assert (Z : NilZero.string_of_uint (N.to_uint n)
                = NilEmpty.string_of_uint (N.to_uint n)).
    { unfold NilZero.string_of_uint. destruct (N.to_uint n); congruence. }
    rewrite Z.
    apply clean_zip_code_dot. }
  split; [unfold load_zip_code; cbn [astype_str]; now rewrite C|].
  split; [exact F|].
  split; [unfold all_digits; now rewrite C|].
  split; [rewrite C, zfill_length; lia|].
  split; [now rewrite C|].
  split.
  - intros H. destruct (key_of_N m) as (Cm & _ & Vm). cbv zeta in *.
    rewrite C in H. rewrite Cm in H. rewrite H in Vm. congruence.
  - repeat split; vm_compute; reflexivity.
Qed.

Lemma numeric_zip_keys_witness :
  exponent_form (PyFloat false 501 (D0 Nil)) = false
  /\ clean_zip_code (astype_str (CFloat (PyFloat false 501 (D0 Nil)))) = "00501"
  /\ key_value "00501" = Some 501%N.
Proof.
  destruct (numeric_zip_keys 501 501 (D0 Nil)) as (_ & Hf & _ & _ & Hv & _).
  split; [reflexivity|]. split; [apply Hf; reflexivity | exact Hv].
Defined.

(** X18. Values without a ZIP part collapse to one key: a value which
    starts with [.] or [-] (a negative number, for one) and a value made
    of white space only, the empty text included, all get the key
    [00000]. *)
Theorem clean_zip_code_collapses (s t : string) :
  clean_zip_code (String "." t) = "00000"
  /\ clean_zip_code (String "-" t) = "00000"
  /\ (blank s = true -> clean_zip_code s = "00000").
Proof.
  split; [reflexivity|]. split; [reflexivity|].
  intros Hs. unfold clean_zip_code.
  rewrite (split_first_blank "." s eq_refl Hs).
  rewrite (split_first_blank "-" s eq_refl Hs).
  change s with ("" ++ s)%string. now rewrite (strip_app_blank "" s Hs).
Qed.

Lemma clean_zip_code_collapses_witness :
  clean_zip_code "   " = "00000" /\ clean_zip_code "-501" = "00000".
Proof.
  destruct (clean_zip_code_collapses "   " "501") as (_ & Hm & Hb).
  split; [apply Hb; reflexivity | exact Hm].
Defined.

(** ** More about the detection of the ZIP column *)

Lemma keyword_in_candidate c :
  In c candidates -> exists k, In k keywords /\ contains k c = true.
Proof.
  intros H.
  assert (A : forallb (fun c => existsb (fun k => contains k c) keywords)
                candidates = true) by reflexivity.
  rewrite forallb_forall in A. apply A in H. apply existsb_exists in H.
  exact H.
Qed.

Lemma keyword_candidate k : In k keywords -> In k candidates.
Proof.
  intros H.
  assert (A : forallb (fun k => mem k candidates) keywords = true)
    by reflexivity.
  rewrite forallb_forall in A. apply mem_In. now apply A.
Qed.

Lemma fuzzy_match_has_keyword col : fuzzy_match col = has_keyword col.
Proof.
  unfold fuzzy_match, has_keyword. cbv zeta.
  destruct (existsb (fun k => contains k (lower col)) keywords) eqn:E.
  - apply existsb_exists in E. destruct E as (k & Hk & Hc).
    apply existsb_exists. exists k. split; [now apply keyword_candidate|exact Hc].
  - destruct (existsb (fun c => contains c (lower col)) candidates) eqn:F;
      [|reflexivity].
    apply existsb_exists in F. destruct F as (c & Hc & Hin).
    destruct (keyword_in_candidate c Hc) as (k & Hk & Hkc).
    rewrite <- E. symmetry. apply existsb_exists. exists k. split; [exact Hk|].
    exact (contains_trans k c (lower col) Hkc Hin).
Qed.

Lemma exact_match_fuzzy col : exact_match col = true -> fuzzy_match col = true.
Proof.
  unfold exact_match, fuzzy_match. intros H. apply mem_In in H.
  apply existsb_exists. exists (strip (lower col)). split; [exact H|].
  apply strip_contained.
Qed.

Lemma has_keyword_nonempty col : has_keyword col = true -> col <> "".
Proof. intros H ->. discriminate. Qed.

(** X5. The seventeen candidate headers of the second pass come down to
    four keywords: a header passes it exactly when its lower-cased text
    contains [zip], [postal], [postcode] or [post_code]; every header which
    passes the first pass passes the second one too. *)
Theorem fuzzy_match_keywords (col : string) :
  fuzzy_match col = has_keyword col
  /\ (if exact_match col then has_keyword col else true) = true.
Proof.
  split; [apply fuzzy_match_has_keyword|].
  destruct (exact_match col) eqn:E; [|reflexivity].
  rewrite <- fuzzy_match_has_keyword. now apply exact_match_fuzzy.
Qed.

Lemma find_none_forallb {A} (p : A -> bool) l :
  find p l = None <-> forallb (fun x => negb (p x)) l = true.
Proof.
  induction l as [|x l IH]; simpl; [tauto|].
  destruct (p x); simpl; [split; discriminate | exact IH].
Qed.

Lemma forallb_same {A} (p q : A -> bool) l :
  (forall x, p x = q x) -> forallb p l = forallb q l.
Proof. intros H. induction l; simpl; [reflexivity|]. now rewrite H, IHl. Qed.

Lemma find_zip_column_none cols :
  find_zip_column cols = None
  <-> forallb (fun c => negb (has_keyword c)) cols = true.
Proof.
  unfold find_zip_column. split.
  - destruct (find exact_match cols); [discriminate|]. intros H.
    apply find_none_forallb in H. rewrite <- H. apply forallb_same.
    intros c. now rewrite fuzzy_match_has_keyword.
  - intros H.
    assert (F : find fuzzy_match cols = None).
    { apply find_none_forallb. rewrite <- H. apply forallb_same.
      intros c. now rewrite fuzzy_match_has_keyword. }
    destruct (find exact_match cols) as [c|] eqn:E; [|exact F].
    apply find_some in E. destruct E as [Hin He].
    apply exact_match_fuzzy in He.
    apply find_none_forallb in F. rewrite forallb_forall in F.
    apply F in Hin. now rewrite He in Hin.
Qed.

Lemma find_zip_column_some cols zc :
  find_zip_column cols = Some zc -> In zc cols /\ has_keyword zc = true.
Proof.
  unfold find_zip_column. intros H.
  destruct (find exact_match cols) as [c|] eqn:E.
  - injection H as <-. apply find_some in E. destruct E as [Hin He].
    split; [exact Hin|]. rewrite <- fuzzy_match_has_keyword.
    now apply exact_match_fuzzy.
  - apply find_some in H. now rewrite <- fuzzy_match_has_keyword.
Qed.

(** X6. [find_zip_column] finds no column exactly when no header contains
    one of the four keywords; the column it finds is a header of the
    table, contains a keyword and is not the empty text, so that the test
    [not zip_col] of the main block fails for it. *)
Theorem find_zip_column_by_keyword (cols : list string) :
  match find_zip_column cols with
  | None => forallb (fun c => negb (has_keyword c)) cols = true
  | Some zc =>
      In zc cols /\ has_keyword zc = true /\ zc <> ""
      /\ existsb has_keyword cols = true
  end.
Proof.
  destruct (find_zip_column cols) as [zc|] eqn:E.
  - destruct (find_zip_column_some cols zc E) as [Hin Hk].
    repeat split; auto.
    + now apply has_keyword_nonempty.
    + apply existsb_exists. now exists zc.
  - now apply find_zip_column_none.
Qed.


(** ** More about the processing phase *)

Lemma stopped_bind {A B : Type} (r : result A) (k : A -> result B) :
  stopped r = false -> (forall a, stopped (k a) = false) ->
  stopped (bind r k) = false.
Proof. intros Hr Hk. destruct r as [a|e]; [apply Hk | exact Hr]. Qed.

Lemma stopped_getitem df l : stopped (getitem df l) = false.
Proof.
  unfold getitem.
  destruct (filter (fun c => String.eqb (fst c) l) (data df)) as [|c [|d r]];
    reflexivity.
Qed.

Lemma stopped_mapM_cell_ge n l :
  stopped (mapM (fun c => cell_ge c n) l) = false.
Proof.
  induction l as [|c l IH]; [reflexivity|]. cbn [mapM].
  apply stopped_bind; [destruct c; reflexivity|]. intros b.
  apply stopped_bind; [exact IH|]. reflexivity.
Qed.

Lemma stopped_reference_view census flag :
  stopped (reference_view census flag) = false.
Proof.
  unfold reference_view. destruct flag; [|reflexivity].
  apply stopped_bind; [apply stopped_getitem|]. intros p.
  apply stopped_bind; [apply stopped_mapM_cell_ge|]. reflexivity.
Qed.

Lemma stopped_merge l r lo ro : stopped (merge l r lo ro) = false.
Proof.
  unfold merge. apply stopped_bind; [apply stopped_getitem|]. intros lk.
  apply stopped_bind; [apply stopped_getitem|]. intros rk. cbv zeta.
  match goal with |- context [match ?d with _ => _ end] => destruct d end;
    reflexivity.
Qed.

Lemma stopped_getitem_list df ls : stopped (getitem_list df ls) = false.
Proof.
  unfold getitem_list. apply stopped_bind; [|reflexivity].
  induction ls as [|l ls IH]; [reflexivity|]. cbn [mapM].
  apply stopped_bind.
  - destruct (filter (fun c => String.eqb (fst c) l) (data df)); reflexivity.
  - intros b. apply stopped_bind; [exact IH|]. reflexivity.
Qed.

Lemma process_stopped census df flag :
  stopped (process census df flag)
  = forallb (fun c => negb (has_keyword c)) (columns df).
Proof.
  unfold process.
  destruct (find_zip_column (columns df)) as [zc|] eqn:E.
  - transitivity false.
    + apply stopped_bind; [apply stopped_getitem|]. intros zips.
      apply stopped_bind; [apply stopped_reference_view|]. intros ref.
      apply stopped_bind; [apply stopped_merge|]. intros m.
      apply stopped_bind; [apply stopped_getitem|]. intros inc.
      apply stopped_bind; [apply stopped_getitem|]. reflexivity.
    + symmetry. apply not_true_iff_false. intros C.
      apply find_zip_column_none in C. congruence.
  - symmetry. now apply find_zip_column_none.
Qed.

(** X7. The run is ended with the message that no ZIP column was found
    exactly when no header of the upload contains one of the four
    keywords, whatever the reference table and the population setting;
    no other failure of the processing or of the reordering takes that
    exit. *)
Theorem stops_without_zip_header (census_df df : frame)
    (exclude_low_pop : bool) :
  stopped (process census_df df exclude_low_pop)
  = forallb (fun c => negb (has_keyword c)) (columns df)
  /\ stopped (enrich census_df df exclude_low_pop)
     = forallb (fun c => negb (has_keyword c)) (columns df).
Proof.
  split; [apply process_stopped|].
  rewrite <- (process_stopped census_df df exclude_low_pop).
  unfold enrich. destruct (process census_df df exclude_low_pop) as [o|e];
    [|reflexivity].
  cbn [bind stopped]. apply stopped_bind; [apply stopped_getitem_list|].
  reflexivity.
Qed.

Lemma rate_bounds m t : m <= t -> (0 <= rate m t /\ rate m t <= 1)%Q.
Proof.
  intros H. unfold rate. destruct t as [|t].
  - split; [apply Qle_refl | discriminate].
  - change (0 <? S t) with true. cbv iota.
    assert (P : (0 < inject_Z (Z.of_nat (S t)))%Q).
    { change 0%Q with (inject_Z 0). rewrite <- Zlt_Qlt. lia. }
    split.
    + apply Qle_shift_div_l; [exact P|]. rewrite Qmult_0_l.
      change 0%Q with (inject_Z 0). rewrite <- Zle_Qle. lia.
    + apply Qle_shift_div_r; [exact P|]. rewrite Qmult_1_l.
      rewrite <- Zle_Qle. lia.
Qed.

Lemma drop_absent labels df l :
  In l labels ->
  mem l (columns (drop (filter (fun c => mem c (columns df)) labels) df))
  = false.
Proof.
  intros Hl. apply mem_false. intros C. unfold columns, drop in C.
  cbn [data] in C. apply in_map_iff in C. destruct C as (c & <- & Hc).
  apply filter_In in Hc. destruct Hc as [Hin Hn].
  apply negb_true_iff in Hn. apply mem_false in Hn. apply Hn.
  apply filter_In. split; [exact Hl|]. apply mem_In.
  unfold columns. now apply in_map.
Qed.

Lemma getitem_all_ok df label cols :
  getitem_all df label = Ok cols ->
  cols = map snd (filter (fun c => String.eqb (fst c) label) (data df))
  /\ 1 <= carried df label
  /\ mem label (columns df) = true.
Proof.
  unfold getitem_all, carried. intros H.
  destruct (filter (fun c => String.eqb (fst c) label) (data df))
    as [|c cs] eqn:E; [discriminate|].
  injection H as <-. split; [reflexivity|]. split; [simpl; lia|].
  assert (Hin : In c (filter (fun c => String.eqb (fst c) label) (data df)))
    by (rewrite E; now left).
  apply filter_In in Hin as [Hin Hl]. apply String.eqb_eq in Hl.
  apply mem_In. rewrite <- Hl. unfold columns. now apply in_map.
Qed.

Lemma getitem_carried df label :
  (exists s, getitem df label = Ok s) <-> carried df label = 1.
Proof.
  unfold getitem, carried.
  destruct (filter (fun c => String.eqb (fst c) label) (data df))
    as [|c [|d cs]]; split; try discriminate; try (intros [s H]; discriminate).
  - reflexivity.
  - intros _. now exists (snd c).
Qed.

Lemma getitem_getitem_all df label s :
  getitem df label = Ok s -> getitem_all df label = Ok [s].
Proof.
  unfold getitem, getitem_all.
  destruct (filter (fun c => String.eqb (fst c) label) (data df))
    as [|c [|d cs]]; try discriminate.
  intros H. now injection H as <-.
Qed.

Lemma quotient_bounds m t :
  0 < t -> m <= t ->
  (0 <= inject_Z (Z.of_nat m) / inject_Z (Z.of_nat t)
   /\ inject_Z (Z.of_nat m) / inject_Z (Z.of_nat t) <= 1)%Q.
Proof.
  intros Ht Hm. pose proof (rate_bounds m t Hm) as H. unfold rate in H.
  apply Nat.ltb_lt in Ht. now rewrite Ht in H.
Qed.

(** X8. Whatever the upload and the reference table are, a run of the
    processing phase (lines 243 to 277) which ends without an exception
    delivers a rectangular table with neither a [__join_zip] nor a
    [zip_code] column and with the income and the age column; the ZIP
    column it names is a header of the upload containing a keyword. The
    figures are numbers when the income label is carried by one column of
    that table, and one number per such column otherwise (an upload with
    the header [Estimated household income]); every count of
    [matched_rows] is at most [total_rows], the number of rows of the
    table, and every quotient of [match_rate] lies between 0 and 1. With
    both labels carried once the run is the one [process] describes. *)
Theorem successful_run_invariants (census_df df : frame)
    (exclude_low_pop : bool) (r : block_outcome) :
  process_block census_df df exclude_low_pop = Ok r ->
  In (b_zip_col r) (columns df)
  /\ has_keyword (b_zip_col r) = true
  /\ mem "__join_zip" (columns (b_final_df r)) = false
  /\ mem "zip_code" (columns (b_final_df r)) = false
  /\ mem "Estimated household income" (columns (b_final_df r)) = true
  /\ mem "Median age" (columns (b_final_df r)) = true
  /\ b_total_rows r = index_len (b_final_df r)
  /\ Forall (fun c => length (snd c) = b_total_rows r) (data (b_final_df r))
  /\ figure_all (fun m => m <= b_total_rows r) (b_matched_rows r)
  /\ figure_all (fun q => 0 <= q /\ q <= 1)%Q (b_match_rate r)
  /\ ((exists n, b_matched_rows r = Scalar n)
      <-> carried (b_final_df r) "Estimated household income" = 1)
  /\ ((exists o, process census_df df exclude_low_pop = Ok o)
      <-> carried (b_final_df r) "Estimated household income" = 1
          /\ carried (b_final_df r) "Median age" = 1)
  /\ (forall o, process census_df df exclude_low_pop = Ok o ->
        r = BlockOutcome (final_df o) (zip_col o) (total_rows o)
              (Scalar (matched_rows o)) (Scalar (match_rate o))).
Proof.
  unfold process_block, process.
  destruct (find_zip_column (columns df)) as [zc|] eqn:Hzc; [|discriminate].
  intros H. apply bind_ok in H as (zips & Hzips & H). rewrite Hzips.
  cbn [bind]. cbv zeta.
  apply bind_ok in H as (ref & Href & H). rewrite Href. cbn [bind].
  apply bind_ok in H as (merged & Hm & H). rewrite Hm. cbn [bind].
  set (fin := drop (filter (fun c => mem c (columns (rename metric_renames merged)))
                      ["__join_zip"; "zip_code"])
                (rename metric_renames merged)) in *.
  apply bind_ok in H as (incomes & Hinc & H).
  apply bind_ok in H as (ages & Hage & H). injection H as <-.
  cbn [b_final_df b_zip_col b_total_rows b_matched_rows b_match_rate].
  destruct (find_zip_column_some _ _ Hzc) as [Hin Hkw].
  destruct (getitem_all_ok _ _ _ Hinc) as (Ei & Ci & Mi).
  destruct (getitem_all_ok _ _ _ Hage) as (Ea & Ca & Ma).
  apply merge_ok in Hm as (lk & rk & _ & _ & Hn & Hall).
  assert (Hrect : Forall (fun c : string * series =>
                            length (snd c) = index_len fin) (data fin)).
  { unfold fin. cbn [index_len drop rename data]. rewrite Hn.
    apply incl_Forall with
      (l1 := map (fun c : string * series =>
                    (rename_label metric_renames (fst c), snd c))
               (data merged)).
    - intros c Hc. apply filter_In in Hc. exact (proj1 Hc).
    - apply Forall_map. simpl. exact Hall. }
  assert (Hcounts : Forall (fun m => m <= index_len fin)
                      (map (fun s : series => length (filter notna s))
                         incomes)).
  { apply Forall_map, Forall_forall. intros s Hs. rewrite Ei in Hs.
    apply in_map_iff in Hs as (c & <- & Hc). apply filter_In in Hc as [Hc _].
    rewrite Forall_forall in Hrect. rewrite <- (Hrect c Hc).
    apply filter_length_le. }
  assert (Hlen : length incomes = carried fin "Estimated household income")
    by (rewrite Ei; apply length_map).
  split; [exact Hin|]. split; [exact Hkw|].
  split; [apply drop_absent; simpl; auto|].
  split; [apply drop_absent; simpl; auto|].
  split; [exact Mi|]. split; [exact Ma|]. split; [reflexivity|].
  split; [exact Hrect|]. split.
  { destruct incomes as [|s [|s' rest]]; cbn [map figure_all] in *;
      try exact Hcounts. now inversion Hcounts. }
  split.
  { change (index_len merged) with (index_len fin).
    destruct (0 <? index_len fin) eqn:Et;
      [|cbn [figure_all]; split; [apply Qle_refl|discriminate]].
    apply Nat.ltb_lt in Et.
    assert (Hq : Forall (fun q => 0 <= q /\ q <= 1)%Q
                   (map (fun m => (inject_Z (Z.of_nat m)
                                   / inject_Z (Z.of_nat (index_len fin)))%Q)
                      (map (fun s : series => length (filter notna s))
                         incomes))).
    { apply Forall_map. revert Hcounts. apply Forall_impl.
      intros m Hm. now apply quotient_bounds. }
    destruct incomes as [|s [|s' rest]]; cbn [map map_figure figure_all] in *;
      try exact Hq. now inversion Hq. }
  split.
  { rewrite <- Hlen. destruct incomes as [|s [|s' rest]]; cbn [map length];
      split; try discriminate; try (intros [n Hn']; discriminate).
    - intros _. reflexivity.
    - intros _. eexists. reflexivity. }
  split.
  - split.
    + intros (o & Ho). apply bind_ok in Ho as (income & Hi & Ho).
      apply bind_ok in Ho as (age & Ha & _).
      split; apply getitem_carried; eauto.
    + intros [C1 C2].
      apply getitem_carried in C1 as (income & Hi).
      apply getitem_carried in C2 as (age & Ha).
      rewrite Hi, Ha. cbn [bind]. eexists. reflexivity.
  - intros o Ho. apply bind_ok in Ho as (income & Hi & Ho).
    apply bind_ok in Ho as (age & Ha & Ho). injection Ho as <-.
    cbn [final_df zip_col total_rows matched_rows match_rate].
    apply getitem_getitem_all in Hi. rewrite Hi in Hinc.
    injection Hinc as <-. cbn [map map_figure].
    change (index_len merged) with (index_len fin).
    destruct (0 <? index_len fin); reflexivity.
Qed.

Lemma successful_run_invariants_witness :
  exists r, process_block dup_census income_header_df false = Ok r
            /\ b_total_rows r = 3
            /\ b_matched_rows r = PerColumn [2; 2]
            /\ figure_all (fun m => m <= b_total_rows r) (b_matched_rows r)
            /\ mem "__join_zip" (columns (b_final_df r)) = false.
Proof.
  eexists. split; [vm_compute; reflexivity|].
  split; [reflexivity|]. split; [reflexivity|].
  pose proof (successful_run_invariants dup_census income_header_df false _
                eq_refl) as H.
  split; [exact (proj1 (proj2 (proj2 (proj2 (proj2 (proj2 (proj2 (proj2
                   (proj2 H)))))))))|].
  exact (proj1 (proj2 (proj2 H))).
Defined.

Lemma positions_matches k rk from :
  length (positions k rk from) = matches rk k.
Proof.
  unfold matches. revert from.
  induction rk as [|k' rk IH]; intros from; [reflexivity|].
  cbn [positions filter]. destruct (cell_eqb k k'); cbn [length];
    now rewrite IH.
Qed.

Lemma row_pairs_count rk ik :
  length (row_pairs rk ik) = Nat.max 1 (matches rk (snd ik)).
Proof.
  unfold row_pairs. rewrite <- (positions_matches (snd ik) rk 0).
  destruct (positions (snd ik) rk 0) as [|j js]; [reflexivity|].
  rewrite length_map. cbn [length]. lia.
Qed.

Lemma row_count_cons k lk rk :
  row_count (k :: lk) rk = Nat.max 1 (matches rk k) + row_count lk rk.
Proof. reflexivity. Qed.

Lemma left_join_indexer_from lk rk from :
  length (flat_map (row_pairs rk) (combine (seq from (length lk)) lk))
  = row_count lk rk.
Proof.
  revert from. induction lk as [|k lk IH]; intros from; [reflexivity|].
  cbn [length seq combine flat_map].
  now rewrite List.length_app, row_pairs_count, IH, row_count_cons.
Qed.

Lemma left_join_indexer_count lk rk :
  length (left_join_indexer lk rk) = row_count lk rk.
Proof. apply left_join_indexer_from. Qed.

Lemma row_count_le lk rk : length lk <= row_count lk rk.
Proof.
  induction lk as [|k lk IH]; [apply Nat.le_refl|].
  rewrite row_count_cons. cbn [length].
  pose proof (Nat.le_max_l 1 (matches rk k)). lia.
Qed.

Lemma row_count_unique lk rk :
  (forall k, matches rk k <= 1) -> row_count lk rk = length lk.
Proof.
  intros H. induction lk as [|k lk IH]; [reflexivity|].
  rewrite row_count_cons, IH, Nat.max_l by apply H. reflexivity.
Qed.

(** X9. The merge is a left join whatever the reference keys are: the
    delivered table has one row per pair of an input row and a reference
    row with that row's join key, and one row for an input row without
    such a reference row. So no input row is ever lost, a reference key
    carried by several rows multiplies the input rows with that key, and
    the number of rows is the number of input rows when no key is carried
    twice. *)
Theorem left_join_row_count (census_df df : frame) (exclude_low_pop : bool)
    (o : outcome) :
  process census_df df exclude_low_pop = Ok o ->
  exists zips ref_df rk,
    getitem df (zip_col o) = Ok zips
    /\ reference_view census_df exclude_low_pop = Ok ref_df
    /\ getitem ref_df "zip_code" = Ok rk
    /\ total_rows o = row_count (clean_zip_codes zips) rk
    /\ length zips <= total_rows o
    /\ ((forall k, matches rk k <= 1) -> total_rows o = length zips).
Proof.
  intros Hp.
  destruct (process_ok _ _ _ _ Hp)
    as (zc & zips & ref & rk & _ & Hzips & Href & Hrk & Hz & Hn & Ht & _).
  subst zc. exists zips, ref, rk.
  rewrite left_join_indexer_count in Hn.
  assert (E : total_rows o = row_count (clean_zip_codes zips) rk)
    by congruence.
  repeat split; try assumption.
  - rewrite E, <- (clean_zip_codes_length zips). apply row_count_le.
  - intros Hu. rewrite E, <- (clean_zip_codes_length zips).
    now apply row_count_unique.
Qed.

Lemma left_join_row_count_witness :
  exists o, process dup_census sample_df false = Ok o
            /\ total_rows o = 5 /\ 4 <= total_rows o.
Proof.
  eexists. split; [reflexivity|]. split; [reflexivity|].
  destruct (left_join_row_count dup_census sample_df false _ eq_refl)
    as (zips & ref & rk & Hz & _ & _ & _ & Hle & _).
  injection Hz as <-. exact Hle.
Defined.

(** ** What the enriched table holds *)

Lemma filter_label_absent (d : list (string * series)) l :
  ~ In l (map fst d) -> filter (fun c => String.eqb (fst c) l) d = [].
Proof.
  intros H. apply filter_none. intros c Hc.
  apply String.eqb_neq. intros E. apply H. rewrite <- E. now apply in_map.
Qed.

Lemma getitem_app_absent n m (L R : list (string * series)) l :
  ~ In l (map fst R) -> getitem (Frame n (L ++ R)) l = getitem (Frame m L) l.
Proof.
  intros H. unfold getitem. cbn [data].
  now rewrite filter_app, (filter_label_absent R l H), app_nil_r.
Qed.

Lemma relabel_id (f : string -> string) (d : list (string * series)) :
  (forall c, In c d -> f (fst c) = fst c) ->
  map (fun c => (f (fst c), snd c)) d = d.
Proof.
  intros H. induction d as [|c d IH]; [reflexivity|]. cbn [map].
  rewrite (H c) by now left. rewrite IH by (intros x Hx; apply H; now right).
  now destruct c.
Qed.

Lemma label_x_plain census_df df l :
  census_ok census_df = true -> input_ok census_df df = true ->
  mem "zip_code" (columns df) = false ->
  In l (columns df) -> label_x census_df l = l.
Proof.
  intros Hc Hi Hp Hl. rewrite (label_x_input census_df df Hc Hi l Hl).
  destruct (String.eqb_spec l "zip_code") as [E|N]; [|reflexivity].
  exfalso. apply mem_false in Hp. apply Hp. now rewrite <- E.
Qed.

(** X10. For a reference table with the columns the code reads and with
    unique keys, and an upload whose headers are pairwise different and
    none of which is [zip_code], [zip_code_x], [__join_zip], one of the
    three presentation labels or the label of a reference column,
    enrichment alters no customer data: every uploaded column, the ZIP
    column included, is found in the delivered table under its own header
    with its cells as they were uploaded. Each of the three demographic
    columns holds, row by row, the cell of the reference row whose key is
    the row's cleaned ZIP, and a missing value when there is no such row;
    the cells of an integer reference column (the population) come out as
    floats as soon as one row has no reference row, and as the integers
    they are when every row has one. *)
Theorem customer_columns_unchanged (census_df df : frame)
    (exclude_low_pop : bool) (zc : string) :
  census_ok census_df = true ->
  input_ok census_df df = true ->
  unique (ref_column census_df false "zip_code") = true ->
  find_zip_column (columns df) = Some zc ->
  mem "zip_code" (columns df) = false ->
  Forall (fun c => forallb exact_int (snd c) = true) (data census_df) ->
  let keys := ref_column census_df exclude_low_pop "zip_code" in
  exists o,
    process census_df df exclude_low_pop = Ok o
    /\ (forall h, mem h (columns df) = true ->
          getitem (final_df o) h = getitem df h)
    /\ (forall src dst, In (src, dst) metric_renames ->
          let vals := ref_column census_df exclude_low_pop src in
          getitem (final_df o) dst = Ok (lookup_column keys vals (join_keys df))
          /\ (forallb (has_match keys) (join_keys df) = true ->
              lookup_column keys vals (join_keys df)
              = map (lookup_value keys vals) (join_keys df))
          /\ (forallb (has_match keys) (join_keys df) = false ->
              forallb is_int vals = true ->
              lookup_column keys vals (join_keys df)
              = map (fun k => to_float (lookup_value keys vals k))
                  (join_keys df))
          /\ (forallb is_int vals = false ->
              lookup_column keys vals (join_keys df)
              = map (lookup_value keys vals) (join_keys df))).
Proof.
  intros Hc Hi Hu Hz Hp _ keys.
  pose proof (process_merged census_df df exclude_low_pop zc Hc Hi Hz) as Hr.
  pose proof (ref_keys_unique census_df exclude_low_pop Hc Hu) as Hurk.
  eexists. split; [exact Hr|]. cbn [final_df]. split.
  - intros h Hh. apply mem_In in Hh.
    pose proof (merged_columns census_df df exclude_low_pop Hc Hi Hp) as Hcols.
    rewrite (merged_joined census_df df exclude_low_pop zc Hc Hi Hz Hu) in *.
    unfold joined_frame in *.
    destruct (reference_view census_df exclude_low_pop) as [ref|e].
    + unfold columns in Hcols. cbn [data] in Hcols.
      rewrite relabel_id in *
        by (intros c Hin; apply (label_x_plain census_df df); auto;
            unfold columns; now apply in_map).
      rewrite map_app in Hcols. apply app_inv_head in Hcols.
      rewrite (getitem_app_absent _ (index_len df)).
      * now destruct df.
      * rewrite Hcols. now apply (input_renamed_disjoint census_df df Hi).
    + exfalso. unfold columns in Hcols. cbn [data map] in Hcols.
      symmetry in Hcols. apply app_eq_nil in Hcols. destruct Hcols as [E _].
      unfold columns in Hh. now rewrite E in Hh.
  - intros src dst Hin. cbv zeta. split; [|split; [|split]].
    + rewrite (merged_metric census_df df exclude_low_pop Hc Hi src dst Hin).
      unfold join_pairs. rewrite (indexer_right _ _ Hurk).
      now rewrite take_fill_lookup.
    + intros Hall. unfold lookup_column. now rewrite Hall.
    + intros Hsome Hint. unfold lookup_column. rewrite Hsome, Hint.
      cbn [negb andb]. now rewrite map_map.
    + intros Hint. unfold lookup_column. now rewrite Hint, andb_false_r.
Qed.

Lemma customer_columns_unchanged_witness :
  exists o,
    process sample_census sample_df true = Ok o
    /\ getitem (final_df o) "email" = getitem sample_df "email"
    /\ getitem (final_df o) "Median age"
       = Ok [fl 41 (D2 Nil); CNaN; CNaN; CNaN]
    /\ getitem (final_df o) "Zip population"
       = Ok [fl 34000 (D0 Nil); CNaN; CNaN; CNaN].
Proof.
  assert (E : Forall (fun c => forallb exact_int (snd c) = true)
                (data sample_census))
    by (repeat constructor).
  destruct (customer_columns_unchanged sample_census sample_df true "zip"
              eq_refl eq_refl eq_refl eq_refl eq_refl E)
    as (o & Hp & Hk & Hm).
  exists o. split; [exact Hp|]. split; [apply Hk; reflexivity|]. split.
  - rewrite (proj1 (Hm "median_age" "Median age" ltac:(simpl; auto))).
    reflexivity.
  - rewrite (proj1 (Hm "population" "Zip population" ltac:(simpl; auto))).
    reflexivity.
Defined.







(** ** The reordering of the display phase *)

Lemma mapM_filter_ok (d : list (string * series)) labels cols :
  mapM (fun l => match filter (fun c => String.eqb (fst c) l) d with
                 | [] => Raise (KeyError l)
                 | cs => Ok cs
                 end) labels = Ok cols ->
  cols = map (fun l => filter (fun c => String.eqb (fst c) l) d) labels.
Proof.
  revert cols. induction labels as [|l r IH]; intros cols H.
  - now injection H as <-.
  - cbn [mapM] in H. apply bind_ok in H as (b & Hb & H).
    apply bind_ok in H as (bs & Hbs & H). injection H as <-.
    cbn [map]. rewrite <- (IH bs Hbs). f_equal.
    destruct (filter (fun c => String.eqb (fst c) l) d); [discriminate|].
    now injection Hb.
Qed.

Lemma filter_label_concat (d : list (string * series)) labels l :
  NoDup labels ->
  filter (fun c => String.eqb (fst c) l)
    (concat (map (fun l' => filter (fun c => String.eqb (fst c) l') d) labels))
  = if mem l labels then filter (fun c => String.eqb (fst c) l) d else [].
Proof.
  intros Hn. induction Hn as [|l' r Hl' Hr IH]; [reflexivity|].
  cbn [map concat]. rewrite filter_app, IH, filter_twice.
  change (mem l (l' :: r)) with (String.eqb l l' || mem l r).
  destruct (String.eqb_spec l l') as [E|N].
  - subst l'. cbn [orb]. apply mem_false in Hl'. rewrite Hl', app_nil_r.
    apply filter_ext. intros c. now rewrite andb_diag.
  - cbn [orb]. rewrite filter_none; [reflexivity|].
    intros c _. destruct (String.eqb_spec (fst c) l') as [E1|N1];
      destruct (String.eqb_spec (fst c) l) as [E2|N2]; try reflexivity.
    congruence.
Qed.

(** Selecting every label once moves the columns and changes none. *)
Lemma getitem_list_cells df labels shown :
  getitem_list df labels = Ok shown ->
  NoDup labels -> incl (columns df) labels ->
  forall l, getitem shown l = getitem df l.
Proof.
  unfold getitem_list. intros H Hn Hi l.
  apply bind_ok in H as (cols & Hc & H). injection H as <-.
  apply mapM_filter_ok in Hc. subst cols. unfold getitem. cbn [data].
  rewrite (filter_label_concat (data df) labels l Hn).
  destruct (mem l labels) eqn:M; [reflexivity|].
  rewrite filter_label_absent; [reflexivity|].
  intros C. apply mem_false in M. apply M, Hi, C.
Qed.

Lemma remove_first_or c cols l :
  In l cols -> l = c \/ In l (remove_first c cols).
Proof.
  induction cols as [|x r IH]; simpl; [easy|].
  intros [E | H].
  - subst x. destruct (String.eqb_spec l c); [now left | right; now left].
  - destruct (String.eqb_spec x c); [now right|].
    destruct (IH H); [now left | right; now right].
Qed.

(** The labels of the table shown are pairwise different. *)
Lemma display_columns_nodup census_df df zc :
  census_ok census_df = true -> input_ok census_df df = true ->
  In zc (columns df) ->
  NoDup (zc :: metric_cols ++ remove_first zc (columns df)
            ++ extra_columns census_df).
Proof.
  intros Hc Hi Hin.
  set (B := map (rename_label metric_renames) (census_values census_df)).
  pose proof (nodupb_NoDup _ (proj1 (input_rectangular census_df df Hi)))
    as HnA.
  pose proof (renamed_nodup census_df Hc) as HnB. fold B in HnB.
  assert (HA : forall l, In l (columns df) -> ~ In l metric_cols).
  { intros l Hl C. apply (proj1 (input_fresh census_df df Hi l Hl)).
    simpl. now right. }
  assert (HAB : forall l, In l (columns df) -> ~ In l B)
    by exact (input_renamed_disjoint census_df df Hi).
  rewrite <- (renamed_extra census_df Hc). fold B. constructor.
  - intros C. apply in_app_or in C as [C | C]; [exact (HA zc Hin C)|].
    apply in_app_or in C as [C | C].
    + rewrite (remove_first_nodup zc _ HnA) in C.
      apply filter_In in C as [_ C].
      now rewrite String.eqb_refl in C.
    + apply filter_In in C as [C _]. exact (HAB zc Hin C).
  - apply NoDup_append.
    + apply nodupb_NoDup. reflexivity.
    + apply NoDup_append.
      * rewrite (remove_first_nodup zc _ HnA). now apply NoDup_filter.
      * now apply NoDup_filter.
      * intros x Hx C. apply filter_In in C as [C _].
        exact (HAB x (remove_first_incl zc _ x Hx) C).
    + intros x Hx C. apply in_app_or in C as [C | C].
      * exact (HA x (remove_first_incl zc _ x C) Hx).
      * apply filter_In in C as [_ C]. apply negb_true_iff, mem_false in C.
        contradiction.
Qed.

(** X12. For a reference table with the columns the code reads, and an
    upload whose headers are pairwise different and none of which is
    [zip_code], [zip_code_x], [__join_zip], one of the three presentation
    labels or the label of a reference column, the display phase goes
    through and only reorders: the table shown has the detected ZIP column
    first, then the three demographic columns, then the other uploaded
    columns in their order, then the reference columns the code does not
    read; its columns are those of the processed table, each once and with
    the same cells, and the figures of the run are handed on unchanged.
    (The condition on the headers is needed: see
    [display_repeats_a_clashing_header] below.) *)
Theorem display_only_reorders (census_df df : frame) (exclude_low_pop : bool)
    (zc : string) :
  census_ok census_df = true ->
  input_ok census_df df = true ->
  find_zip_column (columns df) = Some zc ->
  mem "zip_code" (columns df) = false ->
  exists o o',
    process census_df df exclude_low_pop = Ok o
    /\ enrich census_df df exclude_low_pop = Ok o'
    /\ columns (final_df o')
       = zc :: metric_cols ++ remove_first zc (columns df)
            ++ extra_columns census_df
    /\ NoDup (columns (final_df o'))
    /\ (forall l, In l (columns (final_df o'))
                  <-> In l (columns (final_df o)))
    /\ (forall l, getitem (final_df o') l = getitem (final_df o) l)
    /\ index_len (final_df o') = index_len (final_df o)
    /\ zip_col o' = zip_col o
    /\ total_rows o' = total_rows o
    /\ matched_rows o' = matched_rows o
    /\ match_rate o' = match_rate o.
Proof.
  intros Hc Hi Hz Hp.
  destruct (enrich_columns census_df df exclude_low_pop zc Hc Hi Hz Hp)
    as (o & shown & Ho & He & Hlen & Hcols).
  pose proof (process_merged census_df df exclude_low_pop zc Hc Hi Hz) as Hm.
  rewrite Ho in Hm. injection Hm as Hm.
  assert (Hf : final_df o = merged_frame census_df df exclude_low_pop)
    by now rewrite Hm.
  assert (Hzo : zip_col o = zc) by now rewrite Hm.
  pose proof (merged_columns census_df df exclude_low_pop Hc Hi Hp) as Hfin.
  rewrite <- Hf in Hfin. clear Hm Hf.
  set (B := map (rename_label metric_renames) (census_values census_df)) in *.
  pose proof (find_zip_column_In _ _ Hz) as Hin.
  pose proof (nodupb_NoDup _ (proj1 (input_rectangular census_df df Hi)))
    as HnA.
  pose proof (renamed_nodup census_df Hc) as HnB. fold B in HnB.
  assert (HA : forall l, In l (columns df) -> ~ In l metric_cols).
  { intros l Hl C. apply (proj1 (input_fresh census_df df Hi l Hl)).
    simpl. now right. }
  assert (HAB : forall l, In l (columns df) -> ~ In l B)
    by exact (input_renamed_disjoint census_df df Hi).
  pose proof (renamed_extra census_df Hc) as HE. fold B in HE.
  assert (Hnd : NoDup (columns shown)).
  { rewrite Hcols. now apply (display_columns_nodup census_df df). }
  assert (Hsub : forall l, In l (columns (final_df o)) ->
                           In l (columns shown)).
  { intros l Hl. rewrite Hfin in Hl. rewrite Hcols.
    apply in_app_or in Hl as [Hl | Hl].
    - destruct (remove_first_or zc _ l Hl) as [-> | R]; [now left|].
      right. apply in_or_app. right. apply in_or_app. now left.
    - right. destruct (mem l metric_cols) eqn:M.
      + apply in_or_app. left. now apply mem_In.
      + apply in_or_app. right. apply in_or_app. right. rewrite <- HE.
        apply filter_In. split; [exact Hl | now rewrite M]. }
  assert (Hg : getitem_list (final_df o)
                 (display_order zc (columns (final_df o))) = Ok shown).
  { unfold enrich in He. rewrite Ho in He. cbn [bind] in He.
    rewrite Hzo in He.
    destruct (getitem_list (final_df o)
                (display_order zc (columns (final_df o)))) as [s|e];
      [|discriminate].
    cbn [bind] in He. now injection He as ->. }
  assert (Hlab : display_order zc (columns (final_df o)) = columns shown).
  { rewrite Hfin, Hcols, <- HE. now apply display_order_split. }
  exists o. eexists. split; [exact Ho|]. split; [exact He|].
  cbn [final_df zip_col total_rows matched_rows match_rate].
  split; [exact Hcols|]. split; [exact Hnd|]. split.
  - intros l. split; [|apply Hsub]. intros Hl.
    destruct (getitem_list_ok _ _ _ Hg) as [_ Hincl].
    unfold columns in *. apply in_map_iff in Hl as (c & <- & Hc').
    apply in_map. now apply Hincl.
  - split.
    + apply (getitem_list_cells _ _ _ Hg); rewrite Hlab; assumption.
    + repeat split; try assumption. now rewrite Hzo.
Qed.

Lemma display_only_reorders_witness :
  exists o',
    enrich sample_census sample_df true = Ok o'
    /\ columns (final_df o')
       = ["zip"; "Estimated household income"; "Median age";
          "Zip population"; "customer_id"; "email"].
Proof.
  destruct (display_only_reorders sample_census sample_df true "zip"
              eq_refl eq_refl eq_refl eq_refl)
    as (o & o' & _ & He & Hcols & _).
  exists o'. split; [exact He | exact Hcols].
Defined.

(** Outside the condition on the headers the reordering does more than
    reorder: with the header [Zip population] in the upload the table
    shown has seven columns for the five of the processed table, the two
    columns with that label being selected twice; with the header
    [population] it raises [KeyError], the reference column coming out of
    the merge as [population_y]. *)
Example display_repeats_a_clashing_header :
  (exists o o',
     process small_census
       (Frame 1 [("zip", [CStr "00501"]); ("Zip population", [CInt 7])])
       false = Ok o
     /\ enrich small_census
          (Frame 1 [("zip", [CStr "00501"]); ("Zip population", [CInt 7])])
          false = Ok o'
     /\ columns (final_df o)
        = ["zip"; "Zip population"; "Estimated household income";
           "Median age"; "Zip population"]
     /\ columns (final_df o')
        = ["zip"; "Estimated household income"; "Median age";
           "Zip population"; "Zip population";
           "Zip population"; "Zip population"])
  /\ enrich small_census
       (Frame 1 [("zip", [CStr "00501"]); ("population", [CInt 7])]) false
     = Raise (KeyError "Zip population").
Proof.
  split; [do 2 eexists; repeat split|]; vm_compute; reflexivity.
Qed.

(** ** The reference table: loading and the population setting *)

Lemma select_mask_map {A : Type} (f : A -> bool) (l : list A) :
  select_mask (map f l) l = filter f l.
Proof.
  induction l as [|a l IH]; [reflexivity|]. cbn [map select_mask filter].
  now rewrite IH.
Qed.

Lemma filter_mask_length {A : Type} (f : A -> bool) (l : list A) :
  length (filter (fun b : bool => b) (map f l)) = length (filter f l).
Proof.
  induction l as [|a l IH]; [reflexivity|]. cbn [map filter].
  destruct (f a); cbn [length]; now rewrite IH.
Qed.

Lemma mapM_cell_ge_numeric pop n mask :
  mapM (fun c => cell_ge c n) pop = Ok mask -> forallb numeric pop = true.
Proof.
  revert mask. induction pop as [|c pop IH]; intros mask H; [reflexivity|].
  cbn [mapM] in H. apply bind_ok in H as (b & Hb & H).
  apply bind_ok in H as (bs & Hbs & _). cbn [forallb].
  rewrite (IH bs Hbs), andb_true_r. now destruct c.
Qed.

(** X13. With the population setting off the reference table is joined as
    it is. With the setting on, the table that is joined has the same
    columns; its rows are the reference rows whose population is at least
    100, in their order: every column is cut down by the same mask, the
    population column to its values of at least 100, none of which is a
    text. *)
Theorem reference_view_floor (census_df ref_df : frame) :
  reference_view census_df true = Ok ref_df ->
  reference_view census_df false = Ok census_df
  /\ columns ref_df = columns census_df
  /\ exists population,
       getitem census_df "population" = Ok population
       /\ forallb numeric population = true
       /\ index_len ref_df = length (filter (at_least 100) population)
       /\ getitem ref_df "population"
          = Ok (filter (at_least 100) population)
       /\ (forall l s, getitem census_df l = Ok s ->
             getitem ref_df l
             = Ok (select_mask (map (at_least 100) population) s)).
Proof.
  unfold reference_view. intros H.
  apply bind_ok in H as (pop & Hpop & H).
  apply bind_ok in H as (mask & Hmask & H). injection H as <-.
  pose proof (mapM_cell_ge_numeric _ _ _ Hmask) as Hnum.
  apply mapM_cell_ge_map in Hmask. subst mask.
  split; [reflexivity|]. split.
  - unfold columns, filter_rows. cbn [data]. now rewrite map_map.
  - exists pop. repeat split; try assumption.
    + apply filter_mask_length.
    + now rewrite getitem_filter_rows, Hpop, <- select_mask_map.
    + intros l s Hs. now rewrite getitem_filter_rows, Hs.
Qed.

Lemma reference_view_floor_witness :
  exists ref_df,
    reference_view sample_census true = Ok ref_df
    /\ getitem ref_df "population" = Ok [CInt 34000; CInt 21000]
    /\ getitem ref_df "zip_code" = Ok [CStr "90210"; CStr "10001"].
Proof.
  eexists. split; [reflexivity|].
  destruct (reference_view_floor sample_census _ eq_refl)
    as (_ & _ & pop & Hpop & _ & _ & Hp & Hl).
  injection Hpop as <-. split; [exact Hp|].
  exact (Hl "zip_code" _ eq_refl).
Defined.

Lemma setitem_columns df l s :
  mem l (columns df) = true -> columns (setitem df l s) = columns df.
Proof.
  intros H. unfold setitem. rewrite H. unfold columns. cbn [data].
  rewrite map_map. apply map_ext. intros c.
  now destruct (String.eqb (fst c) l).
Qed.

Lemma setitem_twice df l s :
  mem l (columns df) = true -> setitem (setitem df l s) l s = setitem df l s.
Proof.
  intros H. unfold setitem at 1. rewrite (setitem_columns df l s H), H.
  unfold setitem. rewrite H. cbn [index_len data]. f_equal.
  rewrite map_map. apply map_ext. intros c.
  destruct (String.eqb (fst c) l) eqn:E; cbn [fst]; now rewrite E.
Qed.

Lemma getitem_setitem_same df l s :
  (exists old, getitem df l = Ok old) -> getitem (setitem df l s) l = Ok s.
Proof.
  intros (old & H). destruct (getitem_single df l old H) as (c & Hc & _).
  assert (M : mem l (columns df) = true).
  { apply mem_In. apply getitem_In in H. exact (in_labels _ _ _ H). }
  unfold setitem. rewrite M. unfold getitem. cbn [data].
  assert (F : forall d,
            filter (fun c => String.eqb (fst c) l)
              (map (fun c : string * series =>
                      if String.eqb (fst c) l then (fst c, s) else c) d)
            = map (fun c => (fst c, s))
                (filter (fun c => String.eqb (fst c) l) d)).
  { induction d as [|x d IH]; [reflexivity|]. cbn [map filter].
    destruct (String.eqb (fst x) l) eqn:E; cbn [fst filter]; rewrite E;
      cbn [map]; now rewrite IH. }
  now rewrite F, Hc.
Qed.

Lemma getitem_setitem_other df l s l' :
  l' <> l -> getitem (setitem df l s) l' = getitem df l'.
Proof.
  intros N. unfold setitem, getitem.
  assert (F : forall d,
            filter (fun c => String.eqb (fst c) l')
              (map (fun c : string * series =>
                      if String.eqb (fst c) l then (fst c, s) else c) d)
            = filter (fun c => String.eqb (fst c) l') d).
  { induction d as [|x d IH]; [reflexivity|]. cbn [map filter].
    destruct (String.eqb_spec (fst x) l) as [E|E]; cbn [fst]; rewrite IH.
    - rewrite E. apply String.eqb_neq in N. rewrite String.eqb_sym in N.
      now rewrite N.
    - reflexivity. }
  destruct (mem l (columns df)); cbn [data].
  - now rewrite F.
  - rewrite filter_app. cbn [filter fst].
    apply String.eqb_neq in N. rewrite String.eqb_sym in N.
    rewrite N. now rewrite app_nil_r.
Qed.

(** X14. Loading the reference file changes nothing but the key column:
    the table returned has the columns and the number of rows of the file,
    every column other than [zip_code] with its cells as they were read,
    and in [zip_code] the texts of the keys, each padded to at least five
    characters; loading the returned table once more gives it back
    unchanged. *)
Theorem load_census_data_touches_keys_only (file_df census_df : frame) :
  load_census_data (Some file_df) = Ok (Some census_df) ->
  columns census_df = columns file_df
  /\ index_len census_df = index_len file_df
  /\ (forall l, l <> "zip_code" -> getitem census_df l = getitem file_df l)
  /\ (exists keys,
        getitem file_df "zip_code" = Ok keys
        /\ getitem census_df "zip_code"
           = Ok (map (fun c => CStr (load_zip_code c)) keys))
  /\ (forall keys, getitem census_df "zip_code" = Ok keys ->
        Forall (fun c => exists s, c = CStr s /\ 5 <= String.length s) keys)
  /\ load_census_data (Some census_df) = Ok (Some census_df).
Proof.
  intros H. cbn [load_census_data] in H.
  apply bind_ok in H as (keys & Hk & H). injection H as <-.
  fold (load_zip_code) in *.
  change (map (fun c => CStr (zfill 5 (astype_str c))) keys)
    with (map (fun c => CStr (load_zip_code c)) keys).
  set (new := map (fun c => CStr (load_zip_code c)) keys).
  assert (M : mem "zip_code" (columns file_df) = true).
  { apply mem_In. apply getitem_In in Hk. exact (in_labels _ _ _ Hk). }
  assert (G : getitem (setitem file_df "zip_code" new) "zip_code" = Ok new)
    by (apply getitem_setitem_same; now exists keys).
  assert (L : Forall (fun c => exists s, c = CStr s /\ 5 <= String.length s)
                new).
  { unfold new. apply Forall_map, Forall_forall. intros c _.
    exists (load_zip_code c). split; [reflexivity|].
    unfold load_zip_code. rewrite zfill_length. lia. }
  split; [now apply setitem_columns|]. split.
  { unfold setitem. now rewrite M. }
  split; [intros l N; now apply getitem_setitem_other|].
  split; [exists keys; now split|]. split.
  { intros keys' Hk'. rewrite G in Hk'. now injection Hk' as <-. }
  rewrite (load_census_data_keys _ new G). do 2 f_equal.
  assert (E : map (fun c => CStr (load_zip_code c)) new = new).
  { clear G. induction L as [|c r (s & -> & Hs) Hr IH]; [reflexivity|].
    cbn [map]. rewrite IH. unfold load_zip_code at 1. cbn [astype_str].
    now rewrite (zfill_long 5 s Hs). }
  rewrite E. now apply setitem_twice.
Qed.

Lemma load_census_data_touches_keys_only_witness :
  exists census_df,
    load_census_data (Some raw_census) = Ok (Some census_df)
    /\ getitem census_df "population" = getitem raw_census "population"
    /\ load_census_data (Some census_df) = Ok (Some census_df).
Proof.
  eexists. split; [reflexivity|].
  destruct (load_census_data_touches_keys_only raw_census _ eq_refl)
    as (_ & _ & Ho & _ & _ & Hi).
  split; [apply Ho; discriminate | exact Hi].
Defined.


(** ** The loader against the clean-up *)

(** C1, amended. The reference loader only stringifies a key and pads it
    with zeros to five characters; it neither splits on [.] or [-] nor
    strips white space. It gives a key the text that the clean-up of the
    upload gives it exactly when the key is plain, i.e. its text has no
    [.], no [-] and no white space at either end; and its key column is
    the one [clean_zip_codes] would make exactly when every raw key is
    plain. *)
Theorem load_census_data_agrees_on_plain_keys (df : frame) (keys : series) :
  getitem df "zip_code" = Ok keys ->
  (forall c, load_zip_code c = clean_zip_code (astype_str c)
             <-> plain_key c = true)
  /\ (load_census_data (Some df)
      = Ok (Some (setitem df "zip_code" (clean_zip_codes keys)))
      <-> forallb plain_key keys = true).
Proof.
  intros Hg.
  assert (P : forall c, load_zip_code c = clean_zip_code (astype_str c)
                        <-> plain_key c = true).
  { intros c. split; [apply load_zip_code_plain_only | apply load_zip_code_plain]. }
  split; [exact P|].
  rewrite (load_census_data_keys df keys Hg), clean_zip_codes_map. split.
  - intros H. injection H as H.
    assert (G : forall s, getitem (setitem df "zip_code" s) "zip_code" = Ok s)
      by (intros s; apply getitem_setitem_same; now exists keys).
    pose proof (G (map (fun c => CStr (load_zip_code c)) keys)) as G1.
    rewrite H, G in G1. injection G1 as G1.
    apply forallb_forall. intros c Hc. apply P.
    pose proof (ext_in_map G1 c Hc) as E. cbv beta in E. now injection E.
  - intros Hp. rewrite forallb_forall in Hp. do 3 f_equal.
    apply map_ext_in. intros c Hc. f_equal. apply P. auto.
Qed.

Lemma load_census_data_agrees_on_plain_keys_witness :
  load_census_data
    (Some (Frame 2 [("zip_code", [CInt 501; CStr "90210"]);
                    ("population", [CInt 50; CInt 34000])]))
  = Ok (Some (setitem
                (Frame 2 [("zip_code", [CInt 501; CStr "90210"]);
                          ("population", [CInt 50; CInt 34000])])
                "zip_code" (clean_zip_codes [CInt 501; CStr "90210"])))
  /\ (load_zip_code (CStr "90210-1234")
      = clean_zip_code (astype_str (CStr "90210-1234"))
      <-> plain_key (CStr "90210-1234") = true).
Proof.
  destruct (load_census_data_agrees_on_plain_keys
              (Frame 2 [("zip_code", [CInt 501; CStr "90210"]);
                        ("population", [CInt 50; CInt 34000])])
              [CInt 501; CStr "90210"] eq_refl) as [P [_ L]].
  split; [apply L; reflexivity | apply P].
Defined.

(** ** The Excel export *)

Lemma fold_left_keeps {A B C : Type} (f : A -> B -> A) (g : A -> C) l a :
  (forall a b, g (f a b) = g a) -> g (fold_left f l a) = g a.
Proof.
  intros H. revert a. induction l as [|b l IH]; intros a; [reflexivity|].
  cbn [fold_left]. now rewrite IH.
Qed.

Lemma write_column_widths ws i c : widths (write_column ws i c) = widths ws.
Proof.
  unfold write_column.
  now rewrite (fold_left_keeps _ widths) by reflexivity.
Qed.

Lemma to_excel_widths df ws : widths (to_excel df ws) = widths ws.
Proof.
  unfold to_excel.
  now rewrite (fold_left_keeps _ widths)
    by (intros; apply write_column_widths).
Qed.

Lemma width_of_set ws l w L :
  width_of (set_width ws l w) L
  = if String.eqb l L then Some w else width_of ws L.
Proof.
  unfold width_of, set_width. cbn [widths find fst].
  now destruct (String.eqb l L).
Qed.

Lemma width_of_data_columns l ws L :
  width_of (fold_left (fun ws i => set_width ws (col_letter i) 18) l ws) L
  = if existsb (fun i => String.eqb (col_letter i) L) l then Some 18
    else width_of ws L.
Proof.
  revert ws. induction l as [|i l IH]; intros ws; [reflexivity|].
  cbn [fold_left existsb]. rewrite IH, width_of_set.
  destruct (String.eqb (col_letter i) L); cbn [orb];
    now destruct (existsb _ l).
Qed.

Lemma col_letter_inj i j :
  i < 26 -> j < 26 -> col_letter i = col_letter j -> i = j.
Proof.
  unfold col_letter. intros Hi Hj.
  apply Nat.ltb_lt in Hi as Hi'. apply Nat.ltb_lt in Hj as Hj'.
  rewrite Hi', Hj'. intros E. injection E as E.
  apply (f_equal nat_of_ascii) in E.
  rewrite !nat_ascii_embedding in E by lia. lia.
Qed.

Lemma data_column_letter n i :
  i < 26 ->
  existsb (fun j => String.eqb (col_letter j) (col_letter i)) (seq 0 n)
  = (i <? n).
Proof.
  intros Hi. destruct (Nat.ltb_spec i n) as [L | L].
  - apply existsb_exists. exists i. split; [apply in_seq; lia|].
    apply String.eqb_refl.
  - apply not_true_iff_false. intros C. apply existsb_exists in C.
    destruct C as (j & Hj & E). apply in_seq in Hj.
    apply String.eqb_eq in E. apply col_letter_inj in E; lia.
Qed.

(** X15. The column widths of the exported sheet: the letters of the
    columns the table has, up to [Z], get width 18, which replaces the
    narrow width of the spacer columns [F] to [I] for a table with more
    than five columns and the width 70 of the panel column [J] for a table
    with ten columns or more; without a table column there, [J] has width
    70 and [F] to [I] width 5; no other width is set, and a column past
    the twenty-sixth only sets the width of [A] once more. *)
Theorem excel_column_widths (df : frame) (report_type today : string)
    (i : nat) (letter : string) :
  i < 26 ->
  let ws := convert_to_excel df report_type today in
  width_of ws (col_letter i)
  = (if i <? length (columns df) then Some 18
     else if i =? 9 then Some 70
     else if (5 <=? i) && (i <=? 8) then Some 5
     else None)
  /\ ((forall j, j < 26 -> col_letter j <> letter) ->
      width_of ws letter = None)
  /\ (forall j, 26 <= j -> col_letter j = "A").
Proof.
  intros E26. cbv zeta. unfold convert_to_excel. cbv zeta.
  set (ws0 := fold_left _ side_blocks _).
  assert (W0 : widths ws0 = []).
  { unfold ws0.
    rewrite (fold_left_keeps _ widths)
      by (intros a [[[row title] text] [l|]]; reflexivity).
    cbn [set_value widths]. now rewrite to_excel_widths. }
  assert (A : forall j, 26 <= j -> col_letter j = "A").
  { intros j Hj. unfold col_letter. apply Nat.ltb_ge in Hj. now rewrite Hj. }
  split; [|split; [|exact A]].
  - rewrite width_of_data_columns, (data_column_letter _ i E26).
    destruct (i <? length (columns df)); [reflexivity|].
    cbn [fold_left]. rewrite !width_of_set. unfold width_of. rewrite W0.
    do 26 (destruct i as [|i]; [reflexivity|]). lia.
  - intros Hl.
    assert (N : forall j, String.eqb (col_letter j) letter = false).
    { intros j. apply String.eqb_neq.
      destruct (Nat.ltb_spec j 26) as [L | L]; [now apply Hl|].
      rewrite (A j L). apply (Hl 0). lia. }
    rewrite width_of_data_columns.
    assert (X : existsb (fun j => String.eqb (col_letter j) letter)
                  (seq 0 (length (columns df))) = false).
    { apply not_true_iff_false. intros C. apply existsb_exists in C.
      destruct C as (j & _ & C). now rewrite N in C. }
    rewrite X. cbn [fold_left]. rewrite !width_of_set.
    pose proof (N 9) as N9. pose proof (N 5) as N5. pose proof (N 6) as N6.
    pose proof (N 7) as N7. pose proof (N 8) as N8.
    change (col_letter 9) with "J" in N9. change (col_letter 5) with "F" in N5.
    change (col_letter 6) with "G" in N6. change (col_letter 7) with "H" in N7.
    change (col_letter 8) with "I" in N8.
    rewrite N9, N5, N6, N7, N8. unfold width_of. now rewrite W0.
Qed.

Lemma excel_column_widths_witness :
  width_of (convert_to_excel sample_df "Customer demographics" "2024-01-31")
    "J" = Some 70.
Proof.
  exact (proj1 (excel_column_widths sample_df "Customer demographics"
                  "2024-01-31" 9 "J" ltac:(lia))).
Defined.

Lemma value_at_set ws c r v col row :
  value_at (set_value ws c r v) col row
  = if (c =? col) && (r =? row) then Some v else value_at ws col row.
Proof.
  unfold value_at, set_value, coord_eqb. cbn [cells find fst snd].
  now destruct ((c =? col) && (r =? row)).
Qed.

Lemma value_at_rows i s from ws col row :
  value_at
    (fold_left (fun ws rv => set_value ws (i + 1) (fst rv + 2) (Value (snd rv)))
       (combine (seq from (length s)) s) ws) col row
  = if (col =? i + 1) && (from + 2 <=? row)
    then or_else (option_map Value (nth_error s (row - (from + 2))))
           (value_at ws col row)
    else value_at ws col row.
Proof.
  revert from ws. induction s as [|x s IH]; intros from ws.
  - cbn [length seq combine fold_left].
    destruct ((col =? i + 1) && (from + 2 <=? row)); [|reflexivity].
    now destruct (row - (from + 2)).
  - cbn [length seq combine fold_left fst snd]. rewrite IH, value_at_set.
    destruct (Nat.eqb_spec col (i + 1)) as [Ec | Nc]; cbn [andb].
    + subst col. rewrite Nat.eqb_refl. cbn [andb].
      destruct (Nat.leb_spec (from + 2) row) as [L | L].
      * destruct (Nat.eqb_spec (from + 2) row) as [Er | Nr].
        -- subst row. replace (S from + 2 <=? from + 2) with false
             by (symmetry; apply Nat.leb_gt; lia).
           now rewrite Nat.sub_diag.
        -- replace (S from + 2 <=? row) with true
             by (symmetry; apply Nat.leb_le; lia).
           replace (row - (from + 2)) with (S (row - (S from + 2))) by lia.
           reflexivity.
      * replace (S from + 2 <=? row) with false
          by (symmetry; apply Nat.leb_gt; lia).
        replace (from + 2 =? row) with false
          by (symmetry; apply Nat.eqb_neq; lia).
        reflexivity.
    + replace (i + 1 =? col) with false
        by (symmetry; apply Nat.eqb_neq; lia).
      reflexivity.
Qed.

Lemma value_at_column ws i c col row :
  value_at (write_column ws i c) col row
  = if col =? i + 1 then or_else (column_cell c row) (value_at ws col row)
    else value_at ws col row.
Proof.
  unfold write_column. rewrite value_at_rows, value_at_set.
  unfold column_cell. change (0 + 2) with 2.
  destruct (Nat.eqb_spec col (i + 1)) as [Ec | Nc]; cbn [andb].
  - subst col. rewrite Nat.eqb_refl. cbn [andb].
    destruct (Nat.eqb_spec row 1) as [E1 | N1].
    + subst row. reflexivity.
    + replace (1 =? row) with false by (symmetry; apply Nat.eqb_neq; lia).
      destruct (2 <=? row); reflexivity.
  - replace (i + 1 =? col) with false by (symmetry; apply Nat.eqb_neq; lia).
    reflexivity.
Qed.

Lemma value_at_columns d from ws col row :
  value_at
    (fold_left (fun ws ic => write_column ws (fst ic) (snd ic))
       (combine (seq from (length d)) d) ws) col row
  = if from + 1 <=? col
    then match nth_error d (col - (from + 1)) with
         | Some c => or_else (column_cell c row) (value_at ws col row)
         | None => value_at ws col row
         end
    else value_at ws col row.
Proof.
  revert from ws. induction d as [|c d IH]; intros from ws.
  - cbn [length seq combine fold_left].
    destruct (from + 1 <=? col); [|reflexivity].
    now destruct (col - (from + 1)).
  - cbn [length seq combine fold_left fst snd]. rewrite IH.
    rewrite !value_at_column.
    destruct (Nat.leb_spec (from + 1) col) as [L | L].
    + destruct (Nat.eqb_spec col (from + 1)) as [E | N].
      * subst col. replace (S from + 1 <=? from + 1) with false
          by (symmetry; apply Nat.leb_gt; lia).
        now rewrite Nat.sub_diag.
      * replace (S from + 1 <=? col) with true
          by (symmetry; apply Nat.leb_le; lia).
        replace (col - (from + 1)) with (S (col - (S from + 1))) by lia.
        reflexivity.
    + replace (S from + 1 <=? col) with false
        by (symmetry; apply Nat.leb_gt; lia).
      replace (col =? from + 1) with false
        by (symmetry; apply Nat.eqb_neq; lia).
      reflexivity.
Qed.

(** The sheet as [to_excel] leaves it. *)
Lemma value_at_to_excel df i row :
  value_at (to_excel df empty_sheet) (i + 1) row
  = match nth_error (data df) i with
    | Some c => column_cell c row
    | None => None
    end.
Proof.
  unfold to_excel. rewrite value_at_columns. change (0 + 1) with 1.
  replace (1 <=? i + 1) with true by (symmetry; apply Nat.leb_le; lia).
  replace (i + 1 - 1) with i by lia.
  destruct (nth_error (data df) i) as [c|]; [|reflexivity].
  now destruct (column_cell c row).
Qed.

Lemma value_at_side_block ws r title text link col row :
  value_at (write_side_block ws r title text link) col row
  = if (col =? 10) && (row =? r + 1) then Some (Text text)
    else if (col =? 10) && (row =? r) then Some (Text title)
    else value_at ws col row.
Proof.
  unfold write_side_block. cbv zeta.
  assert (E : value_at
                (set_value (set_value ws 10 r (Text title)) 10 (r + 1)
                   (Text text)) col row
              = if (col =? 10) && (row =? r + 1) then Some (Text text)
                else if (col =? 10) && (row =? r) then Some (Text title)
                else value_at ws col row).
  { rewrite !value_at_set.
    rewrite (Nat.eqb_sym 10 col), (Nat.eqb_sym (r + 1) row),
      (Nat.eqb_sym r row). reflexivity. }
  destruct link; exact E.
Qed.

Lemma value_at_set_width ws l w col row :
  value_at (set_width ws l w) col row = value_at ws col row.
Proof. reflexivity. Qed.

Lemma value_at_widths l ws col row :
  value_at (fold_left (fun ws i => set_width ws (col_letter i) 18) l ws)
    col row
  = value_at ws col row.
Proof.
  unfold value_at. now rewrite (fold_left_keeps _ cells) by reflexivity.
Qed.

Lemma value_at_blocks bl ws ws' col row :
  value_at
    (fold_left (fun ws b => match b with
                            | (r, title, text, link) =>
                                write_side_block ws r title text link
                            end) bl ws) col row
  = if (col =? 10)
       && existsb (Nat.eqb row)
            (flat_map (fun b => match b with
                                | (r, _, _, _) => [r; r + 1]
                                end) bl)
    then value_at
           (fold_left (fun ws b => match b with
                                   | (r, title, text, link) =>
                                       write_side_block ws r title text link
                                   end) bl ws') col row
    else value_at ws col row.
Proof.
  revert ws ws'. induction bl as [|[[[r title] text] link] bl IH];
    intros ws ws'.
  - cbn [fold_left flat_map existsb]. now rewrite andb_false_r.
  - cbn [fold_left flat_map].
    pose proof (IH (write_side_block ws r title text link)
                  (write_side_block ws' r title text link)) as I1.
    pose proof (IH (write_side_block ws' r title text link) ws) as I2.
    clear IH. rewrite I1, existsb_app. cbn [existsb].
    rewrite !value_at_side_block in *.
    destruct (col =? 10) eqn:Ec; cbn [andb] in *; [|reflexivity].
    destruct (existsb (Nat.eqb row) (flat_map _ bl)) eqn:Ex.
    + now rewrite orb_true_r.
    + rewrite !orb_false_r, I2.
      destruct (row =? r + 1), (row =? r); reflexivity.
Qed.

(** The values of the exported sheet, by cases on the cell. *)
Lemma value_at_export df report_type today col row :
  value_at (convert_to_excel df report_type today) col row
  = if (col =? 10) && existsb (Nat.eqb row) panel_rows
    then value_at (convert_to_excel (Frame 0 []) report_type today) col row
    else value_at (to_excel df empty_sheet) col row.
Proof.
  unfold convert_to_excel. cbv zeta. rewrite !value_at_widths.
  cbn [fold_left]. rewrite !value_at_set_width.
  set (top := fun ws =>
         set_value
           (set_value ws 10 1
              (Text "Systematik data — Customer enrichment report"))
           10 2
           (Text ("Report: " ++ report_type ++ " | Date: " ++ today)%string)).
  change (value_at
            (fold_left (fun ws b => match b with
                                    | (r, title, text, link) =>
                                        write_side_block ws r title text link
                                    end) side_blocks
               (top (to_excel df empty_sheet))) col row
          = if (col =? 10) && existsb (Nat.eqb row) panel_rows
            then value_at
                   (fold_left (fun ws b => match b with
                                    | (r, title, text, link) =>
                                        write_side_block ws r title text link
                                    end) side_blocks
                      (top (to_excel (Frame 0 []) empty_sheet))) col row
            else value_at (to_excel df empty_sheet) col row).
  rewrite (value_at_blocks side_blocks (top (to_excel df empty_sheet))
             (top (to_excel (Frame 0 []) empty_sheet))).
  unfold panel_rows. rewrite existsb_app. cbn [existsb].
  destruct (col =? 10) eqn:Ec; cbn [andb]; [|
    unfold top; now rewrite !value_at_set, (Nat.eqb_sym 10 col), Ec].
  destruct (existsb (Nat.eqb row) (flat_map _ side_blocks)) eqn:Ex.
  - now rewrite !orb_true_r.
  - rewrite !orb_false_r.
    rewrite (value_at_blocks side_blocks
               (top (to_excel (Frame 0 []) empty_sheet))
               (top (to_excel df empty_sheet))).
    rewrite Ec, Ex. cbn [andb]. unfold top.
    rewrite !value_at_set, (Nat.eqb_sym 10 col), Ec. cbn [andb].
    rewrite (Nat.eqb_sym 1 row), (Nat.eqb_sym 2 row).
    destruct (row =? 2), (row =? 1); reflexivity.
Qed.

(** X16. The export holds the table outside column [J]: for every column
    of the table but the tenth, the header is in row 1 of the sheet and
    the cell of row [r] in row [r + 2], and nothing else is written in
    the columns of the sheet other than [J]; in column [J] the cells of a
    tenth column are found in the rows the side panel does not use. *)
Theorem excel_keeps_table_cells (df : frame) (report_type today : string)
    (i r : nat) :
  let ws := convert_to_excel df report_type today in
  (i <> 9 ->
   value_at ws (i + 1) 0 = None
   /\ value_at ws (i + 1) 1 = option_map Text (table_header df i)
   /\ value_at ws (i + 1) (r + 2) = option_map Value (table_cell df i r))
  /\ (existsb (Nat.eqb (r + 2)) panel_rows = false ->
      value_at ws 10 (r + 2) = option_map Value (table_cell df 9 r))
  /\ value_at ws 0 r = None.
Proof.
  cbv zeta. split; [|split].
  - intros Hi.
    rewrite (value_at_export df report_type today (i + 1) 0),
      (value_at_export df report_type today (i + 1) 1),
      (value_at_export df report_type today (i + 1) (r + 2)).
    replace (i + 1 =? 10) with false by (symmetry; apply Nat.eqb_neq; lia).
    cbn [andb]. rewrite !value_at_to_excel.
    unfold table_header, table_cell.
    destruct (nth_error (data df) i) as [c|]; [|now repeat split].
    unfold column_cell. repeat split.
    replace (r + 2 =? 1) with false by (symmetry; apply Nat.eqb_neq; lia).
    replace (2 <=? r + 2) with true by (symmetry; apply Nat.leb_le; lia).
    now replace (r + 2 - 2) with r by lia.
  - intros Hr. rewrite value_at_export, Hr, andb_false_r.
    rewrite (value_at_to_excel df 9). unfold table_cell.
    destruct (nth_error (data df) 9) as [c|]; [|reflexivity].
    unfold column_cell.
    replace (r + 2 =? 1) with false by (symmetry; apply Nat.eqb_neq; lia).
    replace (2 <=? r + 2) with true by (symmetry; apply Nat.leb_le; lia).
    now replace (r + 2 - 2) with r by lia.
  - rewrite value_at_export. cbn [Nat.eqb andb].
    unfold to_excel. rewrite value_at_columns. reflexivity.
Qed.

Lemma excel_keeps_table_cells_witness :
  value_at (convert_to_excel sample_df "Customer demographics" "2024-01-31")
    3 3 = Some (Value (CInt 501)).
Proof.
  destruct (excel_keeps_table_cells sample_df "Customer demographics"
              "2024-01-31" 2 1) as [H _].
  destruct (H ltac:(discriminate)) as (_ & _ & Hc). exact Hc.
Defined.

Lemma write_column_hyperlinks ws i c :
  hyperlinks (write_column ws i c) = hyperlinks ws.
Proof.
  unfold write_column.
  now rewrite (fold_left_keeps _ hyperlinks) by reflexivity.
Qed.

Lemma to_excel_hyperlinks df ws : hyperlinks (to_excel df ws) = hyperlinks ws.
Proof.
  unfold to_excel.
  now rewrite (fold_left_keeps _ hyperlinks)
    by (intros; apply write_column_hyperlinks).
Qed.

Lemma hyperlinks_blocks bl ws :
  hyperlinks
    (fold_left (fun ws b => match b with
                            | (r, title, text, link) =>
                                write_side_block ws r title text link
                            end) bl ws)
  = hyperlinks
      (fold_left (fun ws b => match b with
                              | (r, title, text, link) =>
                                  write_side_block ws r title text link
                              end) bl empty_sheet)
    ++ hyperlinks ws.
Proof.
  revert ws. induction bl as [|[[[r title] text] link] bl IH]; intros ws.
  - reflexivity.
  - cbn [fold_left].
    rewrite (IH (write_side_block ws r title text link)),
      (IH (write_side_block empty_sheet r title text link)).
    rewrite <- app_assoc. f_equal. now destruct link.
Qed.

(** X17. The side panel is written after the table and takes its cells
    of column [J] whatever the table holds there: rows 1 and 2 carry the
    title and the report line, the rows of the six blocks their titles and
    texts, so the header of a tenth column of the table and its cells in
    those rows are not in the export; the only hyperlink of the sheet is
    the one of the last block. *)
Theorem excel_side_panel_overwrites (df : frame) (report_type today : string)
    (row : nat) :
  In row panel_rows ->
  let ws := convert_to_excel df report_type today in
  value_at ws 10 row
  = value_at (convert_to_excel (Frame 0 []) report_type today) 10 row
  /\ (exists s, value_at ws 10 row = Some (Text s))
  /\ value_at ws 10 1
     = Some (Text "Systematik data — Customer enrichment report")
  /\ value_at ws 10 2
     = Some (Text ("Report: " ++ report_type ++ " | Date: " ++ today)%string)
  /\ (forall c r,
        hyperlink_at ws c r
        = if (c =? 10) && (r =? 29)
          then Some "https://go.systematikdata.com/ZA4N87" else None).
Proof.
  intros Hrow. cbv zeta.
  assert (P : forall x, In x panel_rows ->
            value_at (convert_to_excel df report_type today) 10 x
            = value_at (convert_to_excel (Frame 0 []) report_type today) 10 x).
  { intros x Hx. rewrite value_at_export.
    replace (existsb (Nat.eqb x) panel_rows) with true; [reflexivity|].
    symmetry. apply existsb_exists. exists x. split; [exact Hx|].
    apply Nat.eqb_refl. }
  split; [now apply P|]. split; [|split; [|split]].
  - rewrite (P row Hrow).
    unfold panel_rows, side_blocks in Hrow. cbn [flat_map app Nat.add] in Hrow.
    repeat (destruct Hrow as [<- | Hrow]; [eexists; reflexivity|]).
    destruct Hrow.
  - rewrite (P 1); [reflexivity | simpl; auto].
  - rewrite (P 2); [reflexivity | simpl; auto].
  - intros c r. unfold hyperlink_at, convert_to_excel. cbv zeta.
    rewrite (fold_left_keeps _ hyperlinks) by reflexivity.
    cbn [fold_left set_width hyperlinks].
    rewrite hyperlinks_blocks. cbn [set_value hyperlinks].
    rewrite to_excel_hyperlinks.
    unfold side_blocks.
    cbn [fold_left write_side_block set_value set_hyperlink hyperlinks
         empty_sheet app find fst coord_eqb snd Nat.add].
    rewrite app_nil_r. unfold coord_eqb. cbn [find fst snd].
    rewrite (Nat.eqb_sym 10 c), (Nat.eqb_sym 29 r).
    now destruct ((c =? 10) && (r =? 29)).
Qed.

Lemma excel_side_panel_overwrites_witness :
  value_at (convert_to_excel sample_df "Customer demographics" "2024-01-31")
    10 4 = Some (Text "1. What this report shows").
Proof.
  destruct (excel_side_panel_overwrites sample_df "Customer demographics"
              "2024-01-31" 4 ltac:(simpl; auto)) as (H & _).
  rewrite H. reflexivity.
Defined.

(** X19. The export of a run on an upload without a [zip_code] header:
    the table shown is what goes into the sheet, so row 1 of the sheet
    starts with the header of the detected ZIP column and the three
    demographic headers, column [A] holds the ZIP column of the table
    shown, and the columns [A] to [D] have width 18. *)
Theorem export_leading_columns (census_df df : frame)
    (exclude_low_pop : bool) (zc report_type today : string) :
  census_ok census_df = true ->
  input_ok census_df df = true ->
  find_zip_column (columns df) = Some zc ->
  mem "zip_code" (columns df) = false ->
  exists o',
    enrich census_df df exclude_low_pop = Ok o'
    /\ let ws := convert_to_excel (final_df o') report_type today in
       value_at ws 1 1 = Some (Text zc)
       /\ value_at ws 2 1 = Some (Text "Estimated household income")
       /\ value_at ws 3 1 = Some (Text "Median age")
       /\ value_at ws 4 1 = Some (Text "Zip population")
       /\ (forall zips r, getitem (final_df o') zc = Ok zips ->
             value_at ws 1 (r + 2) = option_map Value (nth_error zips r))
       /\ (forall i, i < 4 -> width_of ws (col_letter i) = Some 18).
Proof.
  intros Hc Hi Hz Hp.
  destruct (enrich_columns census_df df exclude_low_pop zc Hc Hi Hz Hp)
    as (o & shown & _ & He & _ & Hcols).
  eexists. split; [exact He|]. cbn [final_df]. cbv zeta.
  pose proof (display_columns_nodup census_df df zc Hc Hi
                (find_zip_column_In _ _ Hz)) as Hnd.
  rewrite <- Hcols in Hnd. apply NoDup_nodupb in Hnd.
  assert (Hn : 4 <= length (columns shown)).
  { rewrite Hcols. simpl. lia. }
  unfold columns in Hcols.
  destruct (data shown) as [|[l0 s0] [|[l1 s1] [|[l2 s2] [|[l3 s3] rest]]]]
    eqn:Ed; try discriminate Hcols.
  cbn [map fst metric_cols app] in Hcols.
  injection Hcols as -> -> -> -> Hrest.
  assert (V : forall col row, 1 <= col <= 4 ->
            value_at (convert_to_excel shown report_type today) col row
            = match nth_error (data shown) (col - 1) with
              | Some c => column_cell c row
              | None => None
              end).
  { intros col row Hlt. rewrite value_at_export.
    replace (col =? 10) with false by (symmetry; apply Nat.eqb_neq; lia).
    cbn [andb]. replace col with (col - 1 + 1) at 1 by lia.
    apply value_at_to_excel. }
  rewrite (V 1 1), (V 2 1), (V 3 1), (V 4 1) by lia. rewrite Ed.
  cbn [Nat.sub nth_error]. repeat (split; [reflexivity|]). split.
  - intros zips r Hg.
    assert (G : getitem shown zc = Ok s0).
    { apply getitem_nodup; [exact Hnd|]. rewrite Ed. now left. }
    rewrite G in Hg. injection Hg as <-.
    rewrite (V 1 (r + 2)) by lia. rewrite Ed. cbn [Nat.sub nth_error].
    unfold column_cell. cbn [snd].
    replace (r + 2 =? 1) with false by (symmetry; apply Nat.eqb_neq; lia).
    replace (2 <=? r + 2) with true by (symmetry; apply Nat.leb_le; lia).
    now replace (r + 2 - 2) with r by lia.
  - intros i Hlt. unfold convert_to_excel. cbv zeta.
    rewrite width_of_data_columns, data_column_letter by lia.
    replace (i <? length (columns shown)) with true
      by (symmetry; apply Nat.ltb_lt; lia).
    reflexivity.
Qed.

Lemma export_leading_columns_witness :
  exists o',
    enrich sample_census sample_df true = Ok o'
    /\ value_at (convert_to_excel (final_df o') "Customer demographics"
                   "2024-01-31") 1 1 = Some (Text "zip").
Proof.
  destruct (export_leading_columns sample_census sample_df true "zip"
              "Customer demographics" "2024-01-31"
              eq_refl eq_refl eq_refl eq_refl) as (o' & He & H & _).
  exists o'. split; [exact He | exact H].
Defined.
